(** * projeto_rodovias: a model of the PNCT/DNIT ingestion pipeline

    The development embeds the pieces of the repository that carry
    behaviour of their own:

    - [Fetcher]   : [baixar_dados_dnit] of [coleta_dados.py];
    - [Store]     : [gerenciar_banco] and [exibir_historico] of
                    [streamlit_app.py], over a model of the two SQLite
                    tables and of the connection's transaction;
    - [Processor] : the function [carregar_dados] of [streamlit_app.py] as
                    lines 89-99 define it, over a model of the pandas table
                    it receives; the callable that line 88 makes of it is
                    [App.carregar_dados_cached];
    - [Cli]       : the [__main__] block of [coleta_dados.py];
    - [Presenter] : [criar_mapa] of [streamlit_app.py];
    - [App]       : the script of [streamlit_app.py] from line 149 on, with
                    the cache [st.cache_data] keeps for [carregar_dados].

    External libraries (requests, zipfile, pandas' CSV reader, the operating
    system, the clock) are not part of the repository: what they answer is
    taken from an environment record, so every statement below holds for
    every behaviour of those libraries. *)

From Stdlib Require Import ZArith Ascii String List Lia DecimalString Permutation Sorted.
From stdpp Require Import base gmap strings list.

Open Scope string_scope.
Open Scope list_scope.
Open Scope Z_scope.

(** ** Python values and exceptions *)

(** The dynamically typed values the entry points may receive as [ano] and
    [br].  [bool] is a subclass of [int] in Python, so [isinstance(True, int)]
    holds and [True] counts as the integer 1. *)
Inductive pyval :=
| PyInt (z : Z)
| PyBool (b : bool)
| PyNone
| PyStr (s : string).

(** [str(n)] for an integer. *)
Definition str_of_Z (z : Z) : string := NilZero.string_of_int (Z.to_int z).

(** [isinstance(v, int)], together with the integer value used by the
    comparisons. *)
Definition as_int (v : pyval) : option Z :=
  match v with
  | PyInt z => Some z
  | PyBool b => Some (if b then 1 else 0)
  | PyNone => None
  | PyStr _ => None
  end.

(** [str(v)], also what an f-string interpolates. *)
Definition py_str (v : pyval) : string :=
  match v with
  | PyInt z => str_of_Z z
  | PyBool b => if b then "True" else "False"
  | PyNone => "None"
  | PyStr s => s
  end.

(** The exception classes that occur in the two modules. *)
Inductive exn :=
| ValueError (msg : string)
| RuntimeError (msg : string)
| FileNotFoundError (msg : string)
| PermissionError (msg : string)
| OSError (msg : string)
| HTTPError (status : Z)
| Timeout
| RequestException
| BadZipFile (msg : string)
| ParserError (msg : string)
| UnicodeDecodeError (msg : string)
| KeyError (labels : list string)
| SqliteError (msg : string)
| PandasDatabaseError (msg : string)
| OtherException (cls : string).

(** Subclass tests used by the [except] clauses. [IOError] is an alias of
    [OSError]; [ParserError] and [UnicodeDecodeError] derive from
    [ValueError]; pandas' [DatabaseError] derives from [OSError]. *)
Definition is_OSError (e : exn) : bool :=
  match e with
  | OSError _ | PermissionError _ | FileNotFoundError _ | PandasDatabaseError _ => true
  | _ => false
  end.

Definition is_ValueError (e : exn) : bool :=
  match e with
  | ValueError _ | ParserError _ | UnicodeDecodeError _ => true
  | _ => false
  end.

(** [str(e)], as the log messages interpolate it. *)
Definition exn_str (e : exn) : string :=
  match e with
  | ValueError m | RuntimeError m | FileNotFoundError m | PermissionError m
  | OSError m | BadZipFile m | ParserError m | UnicodeDecodeError m
  | SqliteError m | PandasDatabaseError m => m
  | HTTPError st => str_of_Z st +:+ " Error"
  | Timeout => "Timeout"
  | RequestException => "RequestException"
  | KeyError ls => "[" +:+ String.concat ", " (map (fun l => "'" +:+ l +:+ "'") ls) +:+ "]"
  | OtherException c => c
  end.

Inductive result (A : Type) :=
| Ok (a : A)
| Raise (e : exn).
Arguments Ok {A} a.
Arguments Raise {A} e.

(** ** String helpers *)

(** [pat in s]. *)
Definition str_contains (pat s : string) : bool :=
  match String.index 0 pat s with
  | Some _ => true
  | None => false
  end.

(** [s.endswith(suf)]. *)
Definition endswith (s suf : string) : bool :=
  (String.length suf <=? String.length s)%nat
  && String.eqb (String.substring (String.length s - String.length suf) (String.length suf) s) suf.

Definition last_char (s : string) : option ascii :=
  match String.length s with
  | O => None
  | S n => String.get n s
  end.

(** [os.path.join a b] on a POSIX system. *)
Definition path_join (a b : string) : string :=
  if String.prefix "/" b then b
  else if String.eqb a "" then b
  else if (match last_char a with Some c => Ascii.eqb c "/"%char | None => false end) then a +:+ b
  else a +:+ "/" +:+ b.

(** The path itself and every proper ancestor of it, outermost first: the
    directories [os.makedirs] makes sure exist. *)
Fixpoint path_prefixes_from (seen rest : string) : list string :=
  match rest with
  | EmptyString => if String.eqb seen "" then [] else [seen]
  | String c rest' =>
      let here := if Ascii.eqb c "/"%char && negb (String.eqb seen "") && negb (endswith seen "/")
                  then [seen] else [] in
      here ++ path_prefixes_from (seen +:+ String c EmptyString) rest'
  end.

Definition path_prefixes (p : string) : list string := path_prefixes_from "" p.

(** [s.split('/')]: the components between the slashes; never empty. *)
Fixpoint split_slash (s : string) : list string :=
  match s with
  | EmptyString => [""]
  | String c s' =>
      if Ascii.eqb c "/"%char then "" :: split_slash s'
      else match split_slash s' with
           | [] => [String c ""]
           | x :: xs => String c x :: xs
           end
  end.

(** A component [ZipFile.extract] and [normpath] pass over. *)
Definition invalid_path_part (x : string) : bool :=
  String.eqb x "" || String.eqb x "." || String.eqb x "..".

(** The name [ZipFile._extract_member] makes of a member's name on a POSIX
    system: an absolute name becomes relative, and empty, [.] and [..]
    components go. *)
Definition arcname (filename : string) : string :=
  String.concat "/" (List.filter (fun x => negb (invalid_path_part x)) (split_slash filename)).

(** One turn of the loop of [posixpath.normpath]. *)
Definition normpath_step (initial_slashes : bool) (new_comps : list string) (comp : string)
    : list string :=
  if String.eqb comp "" || String.eqb comp "." then new_comps
  else if negb (String.eqb comp "..")
          || (negb initial_slashes && match new_comps with [] => true | _ => false end)
          || match last new_comps with
             | Some top => String.eqb top ".."
             | None => false
             end
       then new_comps ++ [comp]
       else removelast new_comps.

(** The slashes [normpath] keeps in front: POSIX lets two leading slashes
    stand, three or more count as one. *)
Definition initial_slashes (path : string) : nat :=
  if String.prefix "/" path
  then if String.prefix "//" path && negb (String.prefix "///" path) then 2%nat else 1%nat
  else 0%nat.

(** The components [normpath] keeps. *)
Definition normpath_comps (path : string) : list string :=
  fold_left (normpath_step (negb (Nat.eqb (initial_slashes path) 0))) (split_slash path) [].

(** [os.path.normpath] on a POSIX system. *)
Definition normpath (path : string) : string :=
  if String.eqb path "" then "."
  else
    let p := String.concat "" (repeat "/" (initial_slashes path))
             +:+ String.concat "/" (normpath_comps path) in
    if String.eqb p "" then "." else p.

Fixpoint drop_trailing_empty (l : list string) : list string :=
  match l with
  | [] => []
  | x :: l' => match drop_trailing_empty l' with
               | [] => if String.eqb x "" then [] else [x]
               | r => x :: r
               end
  end.

(** [os.path.dirname] on a POSIX system. *)
Definition dirname (p : string) : string :=
  let head := removelast (split_slash p) in
  if forallb (String.eqb "") head then String.concat "" (map (fun _ => "/") head)
  else String.concat "/" (drop_trailing_empty head).

(** ** Fetcher: [coleta_dados.py] *)

Module Fetcher.

Inductive level := INFO | WARNING | ERROR | CRITICAL.

(** The part of the outside world [baixar_dados_dnit] acts on: the
    directories and files of the disk, the HTTP requests sent so far, and the
    records handed to [logging]. *)
Record world := {
  fs_dirs : gset string;
  fs_files : gmap string string;
  net_calls : list string;
  log : list (level * string)
}.

Record response := {
  status_code : Z;
  content_type : option string;
  content : string
}.

Inductive http_outcome :=
| HttpResponse (r : response)
| HttpTimeout
| HttpFailure.

Inductive makedirs_outcome :=
| MkOk
| MkPermissionDenied (msg : string)
| MkOSError (msg : string).

Inductive csv_outcome (table : Type) :=
| CsvTable (t : table)
| CsvParserError (msg : string)
| CsvUnicodeDecodeError (msg : string)
| CsvOther (e : exn).
Arguments CsvTable {table} t.
Arguments CsvParserError {table} msg.
Arguments CsvUnicodeDecodeError {table} msg.
Arguments CsvOther {table} e.

(** What the libraries and the system answer. [table] is the type of the
    pandas table [pd.read_csv] builds; the fetcher only asks whether it is
    empty. *)
Record environ (table : Type) := {
  current_year : Z;
  makedirs_answer : string -> makedirs_outcome;
  http_get : string -> http_outcome;
  open_write_answer : string -> option string;
  unzip : string -> option (list (string * string));
  read_csv : string -> csv_outcome table;
  df_empty : table -> bool
}.
Arguments current_year {table} e.
Arguments makedirs_answer {table} e p.
Arguments http_get {table} e url.
Arguments open_write_answer {table} e p.
Arguments unzip {table} e bytes.
Arguments read_csv {table} e bytes.
Arguments df_empty {table} e t.

(** Computations that read and change the world and may raise. *)
Definition M (A : Type) : Type := world -> result A * world.

Definition ret {A} (a : A) : M A := fun w => (Ok a, w).
Definition raise {A} (e : exn) : M A := fun w => (Raise e, w).
Definition bind {A B} (m : M A) (k : A -> M B) : M B :=
  fun w => match m w with
           | (Ok a, w') => k a w'
           | (Raise e, w') => (Raise e, w')
           end.
(** [try: m  except ...: h e]; a handler that does not apply re-raises. *)
Definition try_except {A} (m : M A) (h : exn -> M A) : M A :=
  fun w => match m w with
           | (Ok a, w') => (Ok a, w')
           | (Raise e, w') => h e w'
           end.

Notation "x <- m ;; k" := (bind m (fun x => k))
  (at level 100, m at next level, right associativity).
Notation "m ;;; k" := (bind m (fun _ => k))
  (at level 100, right associativity).

Definition logging (l : level) (msg : string) : M unit :=
  fun w => (Ok tt, {| fs_dirs := fs_dirs w; fs_files := fs_files w;
                      net_calls := net_calls w; log := log w ++ [(l, msg)] |}).

Section Fetch.
Context {table : Type}.
Variable env : environ table.

(** [os.makedirs(p, exist_ok=True)]. *)
Definition os_makedirs (p : string) : M unit :=
  fun w => match makedirs_answer env p with
           | MkOk => (Ok tt, {| fs_dirs := fs_dirs w ∪ list_to_set (path_prefixes p);
                                fs_files := fs_files w;
                                net_calls := net_calls w; log := log w |})
           | MkPermissionDenied m => (Raise (PermissionError m), w)
           | MkOSError m => (Raise (OSError m), w)
           end.

(** [requests.get(url, timeout=30)]: the request is sent, then the answer or
    the transport failure comes back. *)
Definition requests_get (url : string) : M response :=
  fun w => let w' := {| fs_dirs := fs_dirs w; fs_files := fs_files w;
                        net_calls := net_calls w ++ [url]; log := log w |} in
           match http_get env url with
           | HttpResponse r => (Ok r, w')
           | HttpTimeout => (Raise Timeout, w')
           | HttpFailure => (Raise RequestException, w')
           end.

(** [response.raise_for_status()]. *)
Definition raise_for_status (r : response) : M unit :=
  if (400 <=? status_code r) && (status_code r <? 600)
  then raise (HTTPError (status_code r))
  else ret tt.

(** [with open(p, 'wb') as f: f.write(bytes)]. *)
Definition write_file (p bytes : string) : M unit :=
  fun w => match open_write_answer env p with
           | Some m => (Raise (OSError m), w)
           | None => (Ok tt, {| fs_dirs := fs_dirs w; fs_files := <[p := bytes]> (fs_files w);
                                net_calls := net_calls w; log := log w |})
           end.

(** [zipfile.ZipFile(io.BytesIO(bytes))]: the members, in archive order. *)
Definition zip_open (bytes : string) : M (list (string * string)) :=
  match unzip env bytes with
  | Some members => ret members
  | None => raise (BadZipFile "File is not a zip file")
  end.

(** [os.path.exists(p)]. *)
Definition path_exists (w : world) (p : string) : bool :=
  bool_decide (p ∈ fs_dirs w) || bool_decide (is_Some (fs_files w !! p)).

(** [zip_ref.getinfo(name)]: [NameToInfo] keeps, of the members that carry
    one name, the one the archive lists last. *)
Definition getinfo (members : list (string * string)) (name : string)
    : option (string * string) :=
  List.find (fun m => String.eqb (fst m) name) (rev members).

(** The path [zip_ref.extract(name, dir)] writes: the directory joined with
    the name made relative and rid of [.] and [..], in normal form. *)
Definition extract_target (dir name : string) : string :=
  normpath (path_join dir (arcname name)).

(** [zip_ref.extract(name, dir)], as [ZipFile._extract_member] does it on a
    POSIX system: the directories above the target are made where they are
    not there, a member whose name ends in a slash becomes a directory, any
    other member a file with the member's bytes. *)
Definition zip_extract (members : list (string * string)) (name dir : string) : M unit :=
  match getinfo members name with
  | None => raise (KeyError [name])
  | Some m =>
      let targetpath := extract_target dir (fst m) in
      let upperdirs := dirname targetpath in
      (fun w => if negb (String.eqb upperdirs "") && negb (path_exists w upperdirs)
                then os_makedirs upperdirs w
                else (Ok tt, w)) ;;;
      if match last_char (fst m) with Some c => Ascii.eqb c "/"%char | None => false end
      then fun w => if bool_decide (targetpath ∈ fs_dirs w)
                    then (Ok tt, w)
                    else os_makedirs targetpath w
      else write_file targetpath (snd m)
  end.

(** [pd.read_csv(p, sep=';', encoding='latin1', on_bad_lines='warn')]. *)
Definition pd_read_csv (p : string) : M table :=
  fun w => match fs_files w !! p with
           | None => (Raise (FileNotFoundError p), w)
           | Some bytes =>
               match read_csv env bytes with
               | CsvTable t => (Ok t, w)
               | CsvParserError m => (Raise (ParserError m), w)
               | CsvUnicodeDecodeError m => (Raise (UnicodeDecodeError m), w)
               | CsvOther e => (Raise e, w)
               end
           end.

(** Line 22: the year is rejected. *)
Definition ano_invalido (ano : pyval) : bool :=
  match as_int ano with
  | None => true
  | Some z => negb (String.length (py_str ano) =? 4)%nat
              || (z <? 2000) || (z >? current_year env)
  end.

(** Line 25: the road number is rejected. *)
Definition br_invalida (br : pyval) : bool :=
  match as_int br with
  | None => true
  | Some z => (z <=? 0) || (z >? 999)
  end.

Definition baixar_dados_dnit (ano br : pyval) (caminho_base : string) : M table :=
  try_except
    ((if ano_invalido ano
      then raise (ValueError ("Ano inválido: " +:+ py_str ano +:+ ". Deve ser entre 2000 e "
                              +:+ str_of_Z (current_year env) +:+ "."))
      else ret tt) ;;;
     (if br_invalida br
      then raise (ValueError ("BR inválida: " +:+ py_str br
                              +:+ ". Deve ser um número entre 1 e 999."))
      else ret tt) ;;;
     let caminho_br := path_join (path_join caminho_base (py_str ano)) ("BR-" +:+ py_str br) in
     let caminho_zip := path_join caminho_br "arquivos_zip" in
     let caminho_csv := path_join caminho_br "arquivos_csv" in
     try_except
       (os_makedirs caminho_zip ;;; os_makedirs caminho_csv)
       (fun e => match e with
                 | PermissionError m =>
                     logging CRITICAL ("Permissão negada para criar diretórios: " +:+ m) ;;;
                     raise (RuntimeError "Erro de permissão: verifique acesso às pastas.")
                 | _ => if is_OSError e
                        then logging CRITICAL ("Erro ao criar diretórios: " +:+ exn_str e) ;;;
                             raise (RuntimeError "Erro crítico no sistema de arquivos.")
                        else raise e
                 end) ;;;
     let url := "https://servicos.dnit.gov.br/dadospnct/arquivos/pnct_" +:+ py_str ano
                +:+ "_" +:+ py_str br +:+ ".zip" in
     let nome_zip := "pnct_" +:+ py_str ano +:+ "_" +:+ py_str br +:+ ".zip" in
     let caminho_zip_completo := path_join caminho_zip nome_zip in
     resp <- try_except
       (r <- requests_get url ;;
        try_except
          (raise_for_status r ;;;
           (if negb (str_contains "application/zip" (default "" (content_type r)))
            then raise (ValueError "O conteúdo baixado não é um arquivo ZIP válido.")
            else ret r))
          (fun e => match e with
                    | HTTPError st =>
                        if status_code r =? 404
                        then logging ERROR ("Arquivo não encontrado: " +:+ url) ;;;
                             raise (FileNotFoundError
                                      ("Dados para BR-" +:+ py_str br +:+ " (" +:+ py_str ano
                                       +:+ ") não encontrados no servidor."))
                        else logging ERROR ("Erro HTTP " +:+ str_of_Z (status_code r) +:+ ": "
                                            +:+ exn_str e) ;;;
                             raise e
                    | _ => raise e
                    end))
       (fun e => match e with
                 | Timeout =>
                     logging ERROR "Timeout ao acessar o servidor." ;;;
                     raise (RuntimeError "Conexão com o servidor demorou muito.")
                 | RequestException =>
                     logging ERROR ("Erro de conexão: " +:+ exn_str e) ;;;
                     raise (RuntimeError "Falha na conexão com a internet.")
                 | _ => raise e
                 end) ;;
     try_except
       (write_file caminho_zip_completo (content resp) ;;;
        logging INFO ("ZIP salvo em: " +:+ caminho_zip_completo))
       (fun e => if is_OSError e
                 then logging ERROR ("Erro ao salvar ZIP: " +:+ exn_str e) ;;;
                      raise (RuntimeError "Erro ao salvar arquivo no computador.")
                 else raise e) ;;;
     caminho_csv_final <- try_except
       (members <- zip_open (content resp) ;;
        (if bool_decide (members = [])
         then raise (BadZipFile "Arquivo ZIP vazio ou corrompido.")
         else ret tt) ;;;
        match filter (fun f => endswith f ".csv" = true) (map fst members) with
        | [] => raise (ValueError "Nenhum CSV encontrado no ZIP.")
        | csv_no_zip :: _ =>
            zip_extract members csv_no_zip caminho_csv ;;;
            ret (path_join caminho_csv csv_no_zip)
        end)
       (fun e => match e with
                 | BadZipFile m =>
                     logging ERROR ("ZIP corrompido: " +:+ m) ;;;
                     raise (RuntimeError "Arquivo baixado está corrompido.")
                 | _ => if is_ValueError e
                        then logging ERROR ("Erro no conteúdo do ZIP: " +:+ exn_str e) ;;;
                             raise (RuntimeError "Formato inesperado do arquivo ZIP.")
                        else raise e
                 end) ;;
     try_except
       (df <- pd_read_csv caminho_csv_final ;;
        (if df_empty env df
         then logging WARNING "CSV vazio ou sem dados válidos."
         else ret tt) ;;;
        ret df)
       (fun e => match e with
                 | ParserError m =>
                     logging ERROR ("Erro ao ler CSV: " +:+ m) ;;;
                     raise (RuntimeError "Formato inválido do arquivo CSV.")
                 | UnicodeDecodeError m =>
                     logging ERROR ("Erro de codificação: " +:+ m) ;;;
                     raise (RuntimeError "Problema com caracteres especiais no arquivo.")
                 | _ => raise e
                 end))
    (fun e => logging ERROR "Erro não tratado durante a execução:" ;;; raise e).

End Fetch.

End Fetcher.

(** ** Store: [gerenciar_banco] and [exibir_historico] of [streamlit_app.py] *)

Module Store.

(** A row of [dados_dnit (id, ano, br, dados, timestamp)]. *)
Record dados_row := {
  d_id : Z;
  d_ano : Z;
  d_br : Z;
  d_dados : string;
  d_timestamp : string
}.

(** A row of [historico (id, consulta, timestamp)]. *)
Record hist_row := {
  h_id : Z;
  h_consulta : string;
  h_timestamp : string
}.

(** The database file [database/rodovias.db]. A table is [None] until a
    [CREATE TABLE IF NOT EXISTS] has run; its rows are kept in rowid order.
    [seq_dados] and [seq_historico] are the counters SQLite keeps in
    [sqlite_sequence] for the two AUTOINCREMENT keys. *)
Record database := {
  dados_dnit : option (list dados_row);
  historico : option (list hist_row);
  seq_dados : Z;
  seq_historico : Z
}.

Definition fresh_database : database :=
  {| dados_dnit := None; historico := None; seq_dados := 0; seq_historico := 0 |}.

(** The rows of a table; a table that does not exist holds none. *)
Definition records (db : database) : list dados_row := default [] (dados_dnit db).
Definition history (db : database) : list hist_row := default [] (historico db).

(** The calls into sqlite3 that [gerenciar_banco] makes. *)
Inductive stmt :=
| Connect
| CreateDados
| CreateHistorico
| DeleteDados
| DeleteHistorico
| InsertDados
| InsertHistorico
| Commit.

(** What the storage layer answers during one call: whether a call into
    sqlite3 fails with an [sqlite3.Error] of its own (disk full, database
    locked, file unreadable), and the text [CURRENT_TIMESTAMP] yields
    ("YYYY-MM-DD HH:MM:SS", one-second resolution). *)
Record sql_env := {
  sql_fault : stmt -> option string;
  current_timestamp : stmt -> string
}.

(** An open connection: the committed file and, while a transaction is
    open, the uncommitted copy the statements work on. *)
Record connection := {
  disk : database;
  txn : option database
}.

Definition N (A : Type) : Type := connection -> result A * connection.

Definition nret {A} (a : A) : N A := fun c => (Ok a, c).
Definition nraise {A} (e : exn) : N A := fun c => (Raise e, c).
Definition nbind {A B} (m : N A) (k : A -> N B) : N B :=
  fun c => match m c with
           | (Ok a, c') => k a c'
           | (Raise e, c') => (Raise e, c')
           end.

Notation "x <~ m ;; k" := (nbind m (fun x => k))
  (at level 100, m at next level, right associativity).
Notation "m ;;> k" := (nbind m (fun _ => k))
  (at level 100, right associativity).

(** [CREATE TABLE IF NOT EXISTS dados_dnit (...)]. *)
Definition create_dados (db : database) : database :=
  {| dados_dnit := Some (records db); historico := historico db;
     seq_dados := seq_dados db; seq_historico := seq_historico db |}.

(** [CREATE TABLE IF NOT EXISTS historico (...)]. *)
Definition create_historico (db : database) : database :=
  {| dados_dnit := dados_dnit db; historico := Some (history db);
     seq_dados := seq_dados db; seq_historico := seq_historico db |}.

Definition max_id (ids : list Z) : Z := fold_right Z.max 0 ids.

(** The key an AUTOINCREMENT column gives the next row: one more than the
    largest key the table holds or ever held. *)
Definition next_id (seq : Z) (ids : list Z) : Z := Z.max seq (max_id ids) + 1.

Definition no_such_table {A} (name : string) : result A :=
  Raise (SqliteError ("no such table: " +:+ name)).

(** [DELETE FROM dados_dnit]. *)
Definition delete_dados (db : database) : result database :=
  match dados_dnit db with
  | None => no_such_table "dados_dnit"
  | Some _ => Ok {| dados_dnit := Some []; historico := historico db;
                    seq_dados := seq_dados db; seq_historico := seq_historico db |}
  end.

(** [DELETE FROM historico]. *)
Definition delete_historico (db : database) : result database :=
  match historico db with
  | None => no_such_table "historico"
  | Some _ => Ok {| dados_dnit := dados_dnit db; historico := Some [];
                    seq_dados := seq_dados db; seq_historico := seq_historico db |}
  end.

Definition same_key (ano br : Z) (r : dados_row) : bool :=
  (d_ano r =? ano) && (d_br r =? br).

(** [INSERT OR REPLACE INTO dados_dnit (ano, br, dados) VALUES (?, ?, ?)]:
    a NULL in a NOT NULL column aborts the statement; the rows that clash
    with the new one on [UNIQUE(ano, br)] are deleted, then the new row is
    added under a fresh [id] with the current timestamp. *)
Definition insert_or_replace_dados (ano br : option Z) (dados ts : string)
    (db : database) : result database :=
  match dados_dnit db with
  | None => no_such_table "dados_dnit"
  | Some rows =>
      match ano, br with
      | Some a, Some b =>
          let i := next_id (seq_dados db) (map d_id rows) in
          Ok {| dados_dnit :=
                  Some (filter (fun r => same_key a b r = false) rows
                        ++ [{| d_id := i; d_ano := a; d_br := b;
                               d_dados := dados; d_timestamp := ts |}]);
                historico := historico db;
                seq_dados := i; seq_historico := seq_historico db |}
      | None, _ => Raise (SqliteError "NOT NULL constraint failed: dados_dnit.ano")
      | Some _, None => Raise (SqliteError "NOT NULL constraint failed: dados_dnit.br")
      end
  end.

(** [INSERT INTO historico (consulta) VALUES (?)]. *)
Definition insert_historico (consulta ts : string) (db : database) : result database :=
  match historico db with
  | None => no_such_table "historico"
  | Some rows =>
      let i := next_id (seq_historico db) (map h_id rows) in
      Ok {| dados_dnit := dados_dnit db;
            historico := Some (rows ++ [{| h_id := i; h_consulta := consulta;
                                           h_timestamp := ts |}]);
            seq_dados := seq_dados db; seq_historico := i |}
  end.

Section Statements.
Variable env : sql_env.

Definition check_fault (s : stmt) : N unit :=
  match sql_fault env s with
  | Some m => nraise (SqliteError m)
  | None => nret tt
  end.

(** [cursor.execute] of a CREATE TABLE: the sqlite3 module opens no
    transaction for it, so outside a transaction it reaches the file at
    once. *)
Definition execute_ddl (s : stmt) (f : database -> database) : N unit :=
  check_fault s ;;>
  fun c => match txn c with
           | None => (Ok tt, {| disk := f (disk c); txn := None |})
           | Some t => (Ok tt, {| disk := disk c; txn := Some (f t) |})
           end.

(** [cursor.execute] of an INSERT or DELETE: the sqlite3 module opens a
    transaction first when none is open; the statement changes the
    uncommitted copy only, and changes nothing when it fails. *)
Definition execute_dml (s : stmt) (f : database -> result database) : N unit :=
  check_fault s ;;>
  fun c => let t := default (disk c) (txn c) in
           match f t with
           | Ok t' => (Ok tt, {| disk := disk c; txn := Some t' |})
           | Raise e => (Raise e, {| disk := disk c; txn := Some t |})
           end.

(** [conn.commit()]. *)
Definition commit : N unit :=
  check_fault Commit ;;>
  fun c => (Ok tt, {| disk := default (disk c) (txn c); txn := None |}).

(** [conn.close()]: what was not committed is rolled back. *)
Definition close (c : connection) : database := disk c.

End Statements.

(** What a call hands back: [None] after a clear, otherwise the connection
    object (closed by then). *)
Inductive returned := RetNone | RetConn.

(** The database file and the records handed to [logging.error]. *)
Record store := {
  db : database;
  errors_logged : list string
}.

Section Banco.
Context {DataFrame : Type}.
(** [df.to_json(orient='records')]. *)
Variable to_json : DataFrame -> result string.
Variable env : sql_env.

Definition is_sqlite_error (e : exn) : bool :=
  match e with
  | SqliteError _ => true
  | _ => false
  end.

Definition opt_str (v : option Z) : string :=
  match v with
  | Some z => str_of_Z z
  | None => "None"
  end.

(** Lines 33-76, run on the open connection. *)
Definition gerenciar_banco_body (df : option DataFrame) (ano br : option Z)
    (clear : bool) : N returned :=
  execute_ddl env CreateDados create_dados ;;>
  execute_ddl env CreateHistorico create_historico ;;>
  if clear then
    execute_dml env DeleteDados delete_dados ;;>
    execute_dml env DeleteHistorico delete_historico ;;>
    commit env ;;>
    nret RetNone
  else
    match df with
    | Some d =>
        df_json <~ (fun c => (to_json d, c)) ;;
        execute_dml env InsertDados
          (insert_or_replace_dados ano br df_json (current_timestamp env InsertDados)) ;;>
        execute_dml env InsertHistorico
          (insert_historico ("BR-" +:+ opt_str br +:+ " (" +:+ opt_str ano +:+ ")")
                            (current_timestamp env InsertHistorico)) ;;>
        commit env
    | None => nret tt
    end ;;>
    nret RetConn.

(** [gerenciar_banco(df=None, ano=None, br=None, clear=False)]: connect, run
    the body, turn an [sqlite3.Error] into [RuntimeError] after logging it,
    and close the connection on every path on which it was opened. *)
Definition gerenciar_banco (df : option DataFrame) (ano br : option Z)
    (clear : bool) (s : store) : result returned * store :=
  match sql_fault env Connect with
  | Some m =>
      (Raise (RuntimeError "Erro no banco de dados"),
       {| db := db s; errors_logged := errors_logged s ++ ["Erro SQLite: " +:+ m] |})
  | None =>
      match gerenciar_banco_body df ano br clear {| disk := db s; txn := None |} with
      | (Ok r, c) => (Ok r, {| db := close c; errors_logged := errors_logged s |})
      | (Raise e, c) =>
          if is_sqlite_error e
          then (Raise (RuntimeError "Erro no banco de dados"),
                {| db := close c;
                   errors_logged := errors_logged s ++ ["Erro SQLite: " +:+ exn_str e] |})
          else (Raise e, {| db := close c; errors_logged := errors_logged s |})
      end
  end.

End Banco.

(** [ORDER BY timestamp DESC]: rows with a later timestamp come first. The
    column holds the text of [CURRENT_TIMESTAMP], compared byte by byte.
    The query names no second sort key, so it does not tell rows of one
    second apart; SQLite hands such rows over in the order its scan of the
    table met them, which is rowid order, and so does this sort. *)
Fixpoint insert_desc (r : hist_row) (l : list hist_row) : list hist_row :=
  match l with
  | [] => [r]
  | x :: l' => if String.ltb (h_timestamp r) (h_timestamp x)
               then x :: insert_desc r l'
               else r :: l
  end.

Definition order_by_timestamp_desc (rows : list hist_row) : list hist_row :=
  fold_right insert_desc [] rows.

(** [SELECT * FROM historico ORDER BY timestamp DESC LIMIT n]. *)
Definition recent_history (n : nat) (rows : list hist_row) : list hist_row :=
  firstn n (order_by_timestamp_desc rows).

(** What [st.sidebar] is asked to show. *)
Inductive widget :=
| Subheader (s : string)
| Write (s : string)
| Error (s : string).

(** What sqlite3 may refuse while the history is read, with its message:
    the connection of line 107, or the SELECT of line 108 (the file is
    locked, or is no database). *)
Inductive read_fault :=
| ConnectFault (msg : string)
| QueryFault (msg : string).

(** The query of line 108. *)
Definition select_historico : string :=
  "SELECT * FROM historico ORDER BY timestamp DESC LIMIT 10".

(** What [pd.read_sql] raises when sqlite3 fails the query with [msg]. *)
Definition read_sql_error (msg : string) : exn :=
  PandasDatabaseError ("Execution failed on sql '" +:+ select_historico +:+ "': " +:+ msg).

(** [exibir_historico()]. [pd.read_sql] wraps every failure of the query
    (the table is not there yet, or sqlite3 refuses the SELECT) in pandas'
    own [DatabaseError], which the [except sqlite3.Error] clause does not
    match; a failure of [sqlite3.connect] is matched by it. [None] is a
    read that sqlite3 does not refuse. *)
Definition exibir_historico (fault : option read_fault) (d : database)
    : result (list widget) :=
  match fault with
  | Some (ConnectFault _) => Ok [Error "Erro ao carregar histórico"]
  | Some (QueryFault msg) => Raise (read_sql_error msg)
  | None =>
      match historico d with
      | None => Raise (read_sql_error "no such table: historico")
      | Some rows =>
          let h := recent_history 10 rows in
          Ok (Subheader "📚 Histórico de Consultas"
              :: match h with
                 | [] => [Write "Nenhuma consulta recente"]
                 | _ => map (fun row => Write ("🗓️ " +:+ h_timestamp row +:+ " - "
                                               +:+ h_consulta row)) h
                 end)
      end
  end.

End Store.

(** ** Processor: the body of [carregar_dados] of [streamlit_app.py] *)

Module Processor.

(** A value held in a table. [Num] is a number of an int64, float64 or bool
    column; [NaN] is what pandas counts as missing ([NaN], [None]); [Str] is
    the text of an object column. [num] is the type of numbers; the model
    keeps it open. *)
Inductive cell (num : Type) :=
| Num (v : num)
| NaN
| Str (s : string).
Arguments Num {num} v.
Arguments NaN {num}.
Arguments Str {num} s.

(** A row: its index label and its values by column label, as
    [orient='records'] presents them. *)
Record row (num : Type) := {
  label : Z;
  values : gmap string (cell num)
}.
Arguments label {num} r.
Arguments values {num} r.

(** A pandas [DataFrame]: the column labels in order and the rows in
    order. *)
Record DataFrame (num : Type) := {
  columns : list string;
  rows : list (row num)
}.
Arguments columns {num} d.
Arguments rows {num} d.

(** What a call leaves behind: the value returned (or the exception that
    escaped), the state of the caller's table, which line 94 and 95 assign
    to in place, and the records handed to [logging.error]. *)
Record outcome (num : Type) := {
  value : result (DataFrame num);
  argument_after : DataFrame num;
  logged : list string
}.
Arguments value {num} o.
Arguments argument_after {num} o.
Arguments logged {num} o.

Section Frame.
Context {num : Type}.
(** How pandas reads a text as a number, if it does. *)
Variable parse_numeric : string -> option num.

(** [name in df.columns]. *)
Definition has_column (name : string) (df : DataFrame num) : bool :=
  existsb (String.eqb name) (columns df).

(** One value under [pd.to_numeric(..., errors='coerce')]: numbers stay,
    text is read as a number or becomes missing. *)
Definition to_numeric_cell (c : cell num) : cell num :=
  match c with
  | Num v => Num v
  | NaN => NaN
  | Str s => match parse_numeric s with
             | Some v => Num v
             | None => NaN
             end
  end.

Definition coerce_row (name : string) (r : row num) : row num :=
  {| label := label r; values := alter to_numeric_cell name (values r) |}.

(** [df[name] = pd.to_numeric(df[name], errors='coerce')]; reading a column
    that is not there raises [KeyError]. *)
Definition to_numeric_column (name : string) (df : DataFrame num) : result (DataFrame num) :=
  if has_column name df
  then Ok {| columns := columns df; rows := map (coerce_row name) (rows df) |}
  else Raise (KeyError [name]).

(** [pd.isna] of the value a row has under a column. *)
Definition isna (name : string) (r : row num) : bool :=
  match values r !! name with
  | Some (Num _) => false
  | Some (Str _) => false
  | Some NaN => true
  | None => true
  end.

(** [df.dropna(subset=subset, how='all')]: [KeyError] names the labels of
    [subset] that are no columns; otherwise a new table without the rows
    that are missing under every column of [subset]. *)
Definition dropna_all (subset : list string) (df : DataFrame num) : result (DataFrame num) :=
  match filter (fun name => has_column name df = false) subset with
  | [] => Ok {| columns := columns df;
                rows := filter (fun r => forallb (fun name => isna name r) subset = false)
                               (rows df) |}
  | absent => Raise (KeyError absent)
  end.

(** Lines 93-96, the body of the [try]: the value or the exception, and the
    caller's table as the body left it. *)
Definition carregar_dados_try (_df : DataFrame num) : result (DataFrame num) * DataFrame num :=
  if has_column "latitude" _df && has_column "longitude" _df then
    match to_numeric_column "latitude" _df with
    | Raise e => (Raise e, _df)
    | Ok df1 =>
        match to_numeric_column "longitude" df1 with
        | Raise e => (Raise e, df1)
        | Ok df2 => (dropna_all ["latitude"; "longitude"] df2, df2)
        end
    end
  else (dropna_all ["latitude"; "longitude"] _df, _df).

(** The function of lines 89-99, which line 88 hands to [st.cache_data]:
    what a call of [carregar_dados(_df)] does when the body runs. The name
    [carregar_dados] of the module is bound to the wrapper the decorator
    returns, [App.carregar_dados_cached]: it runs this body only when it
    holds no live entry, and otherwise returns the entry whatever [_df]
    is. *)
Definition carregar_dados (_df : DataFrame num) : outcome num :=
  match carregar_dados_try _df with
  | (Ok out, after) => {| value := Ok out; argument_after := after; logged := [] |}
  | (Raise e, after) =>
      {| value := Ok after; argument_after := after;
         logged := ["Erro no processamento: " +:+ exn_str e] |}
  end.

(** The row has a value under the column that is no number: it is missing,
    or a text that does not read as a number. *)
Definition unparseable (name : string) (r : row num) : Prop :=
  match values r !! name with
  | Some NaN => True
  | Some (Str s) => parse_numeric s = None
  | Some (Num _) => False
  | None => False
  end.

(** The row has a number under the column, or a text that reads as one. *)
Definition parseable (name : string) (r : row num) : Prop :=
  match values r !! name with
  | Some (Num _) => True
  | Some (Str s) => is_Some (parse_numeric s)
  | Some NaN => False
  | None => False
  end.

(** The row as lines 94 and 95 leave it. *)
Definition coerced (r : row num) : row num :=
  coerce_row "longitude" (coerce_row "latitude" r).

End Frame.

End Processor.

(** ** Reading the specification's words *)

(** The value is an integer of the closed interval [lo, hi]. *)
Definition int_between (lo hi : Z) (v : pyval) : bool :=
  match as_int v with
  | Some z => (lo <=? z) && (z <=? hi)
  | None => false
  end.

(** The key of a stored record. *)
Definition key_of (r : Store.dados_row) : Z * Z := (Store.d_ano r, Store.d_br r).

(** At most one stored record per (year, road) key. *)
Definition at_most_one_record_per_key (d : Store.database) : Prop :=
  NoDup (map key_of (Store.records d)).

(** The stored records under a key. *)
Definition records_under (ano br : Z) (d : Store.database) : list Store.dados_row :=
  filter (fun r => Store.same_key ano br r = true) (Store.records d).

(** No call into sqlite3 fails. *)
Definition no_fault (env : Store.sql_env) : Prop :=
  forall s, Store.sql_fault env s = None.


(** The record an upsert under key [(a, b)] writes into [dados_dnit] and
    the entry it appends to [historico]. *)
Definition written_record (env : Store.sql_env) (d : Store.database) (a b : Z)
    (json : string) : Store.dados_row :=
  {| Store.d_id := Store.next_id (Store.seq_dados d) (map Store.d_id (Store.records d));
     Store.d_ano := a; Store.d_br := b; Store.d_dados := json;
     Store.d_timestamp := Store.current_timestamp env Store.InsertDados |}.

Definition written_entry (env : Store.sql_env) (d : Store.database) (a b : Z)
    : Store.hist_row :=
  {| Store.h_id := Store.next_id (Store.seq_historico d) (map Store.h_id (Store.history d));
     Store.h_consulta := "BR-" +:+ str_of_Z b +:+ " (" +:+ str_of_Z a +:+ ")";
     Store.h_timestamp := Store.current_timestamp env Store.InsertHistorico |}.

Section Effects.
Context {DataFrame : Type}.
Variable to_json : DataFrame -> result string.

(** The three ways a call of [gerenciar_banco] can leave the two tables:
    with the rows they had (and an error, or nothing asked), both empty, or
    with the record replaced and the entry appended. *)
Inductive effect_on (env : Store.sql_env) (d : Store.database) (df : option DataFrame)
    (ano br : option Z) (clear : bool) (r : result Store.returned) (d' : Store.database)
    : Prop :=
| Untouched :
    Store.records d' = Store.records d -> Store.history d' = Store.history d ->
    (r = Raise (RuntimeError "Erro no banco de dados")
     \/ (exists t e, df = Some t /\ to_json t = Raise e /\ clear = false /\ r = Raise e)
     \/ (r = Ok Store.RetConn /\ df = None /\ clear = false)) ->
    effect_on env d df ano br clear r d'
| Cleared :
    clear = true -> r = Ok Store.RetNone ->
    Store.dados_dnit d' = Some [] -> Store.historico d' = Some [] ->
    effect_on env d df ano br clear r d'
| Upserted t json a b :
    clear = false -> df = Some t -> to_json t = Ok json ->
    ano = Some a -> br = Some b -> r = Ok Store.RetConn ->
    Store.dados_dnit d' = Some (filter (fun x => Store.same_key a b x = false) (Store.records d)
                                ++ [written_record env d a b json]) ->
    Store.historico d' = Some (Store.history d ++ [written_entry env d a b]) ->
    effect_on env d df ano br clear r d'.

End Effects.

(** The calls into sqlite3 an upsert makes, in order. *)
Definition upsert_calls : list Store.stmt :=
  [Store.Connect; Store.CreateDados; Store.CreateHistorico;
   Store.InsertDados; Store.InsertHistorico; Store.Commit].

(** Every row has a value under each column of the table and under
    nothing else. *)
Definition rectangular {num} (df : Processor.DataFrame num) : Prop :=
  Forall (fun r => dom (Processor.values r) = list_to_set (Processor.columns df))
         (Processor.rows df).

(** No two rows share an index label. *)
Definition unique_labels {num} (df : Processor.DataFrame num) : Prop :=
  NoDup (map Processor.label (Processor.rows df)).

(** The rows [dropna(subset=['latitude', 'longitude'], how='all')] keeps. *)
Definition kept {num} (r : Processor.row num) : Prop :=
  forallb (fun name => Processor.isna name r) ["latitude"; "longitude"] = false.

#[global] Instance kept_dec {num} (r : Processor.row num) : Decision (kept r).
Proof. unfold kept. apply _. Defined.

(** ** Sample inputs *)

Module Samples.

Definition empty_world : Fetcher.world :=
  {| Fetcher.fs_dirs := ∅; Fetcher.fs_files := ∅;
     Fetcher.net_calls := []; Fetcher.log := [] |}.

(** A server that answers 404 to every request, in the year 2026. *)
Definition server_404 : Fetcher.environ unit :=
  {| Fetcher.current_year := 2026;
     Fetcher.makedirs_answer := fun _ => Fetcher.MkOk;
     Fetcher.http_get := fun _ =>
       Fetcher.HttpResponse {| Fetcher.status_code := 404;
                               Fetcher.content_type := Some "text/html";
                               Fetcher.content := "" |};
     Fetcher.open_write_answer := fun _ => None;
     Fetcher.unzip := fun _ => None;
     Fetcher.read_csv := fun _ => Fetcher.CsvTable tt;
     Fetcher.df_empty := fun _ => false |}.

(** A storage layer that never fails, at a given second. *)
Definition sqlite_at (ts : string) : Store.sql_env :=
  {| Store.sql_fault := fun _ => None; Store.current_timestamp := fun _ => ts |}.

(** A storage layer whose commit fails. *)
Definition sqlite_commit_fails (ts : string) : Store.sql_env :=
  {| Store.sql_fault := fun s => match s with
                                 | Store.Commit => Some "disk I/O error"
                                 | _ => None
                                 end;
     Store.current_timestamp := fun _ => ts |}.

(** Tables given by their JSON text already. *)
Definition json_table (t : string) : result string := Ok t.

Definition fresh_store : Store.store :=
  {| Store.db := Store.fresh_database; Store.errors_logged := [] |}.

(** A reader of numbers for the sample tables: decimal digits only. *)
Fixpoint digits_value (acc : Z) (s : string) : option Z :=
  match s with
  | EmptyString => Some acc
  | String c s' =>
      let n := Z.of_nat (nat_of_ascii c) in
      if (48 <=? n) && (n <=? 57) then digits_value (10 * acc + (n - 48)) s' else None
  end.

Definition parse_digits (s : string) : option Z :=
  match s with
  | EmptyString => None
  | _ => digits_value 0 s
  end.

Definition mk_row (l : Z) (cells : list (string * Processor.cell Z)) : Processor.row Z :=
  {| Processor.label := l; Processor.values := list_to_map cells |}.

Definition trecho_sc : Processor.row Z :=
  mk_row 0 [("uf", Processor.Str "SC"); ("latitude", Processor.Str "27");
            ("longitude", Processor.Str "48")].

(** Neither coordinate reads as a number. *)
Definition trecho_pr : Processor.row Z :=
  mk_row 1 [("uf", Processor.Str "PR"); ("latitude", Processor.Str "abc");
            ("longitude", Processor.NaN)].

(** The latitude is a number, the longitude does not read as one. *)
Definition trecho_rs : Processor.row Z :=
  mk_row 2 [("uf", Processor.Str "RS"); ("latitude", Processor.Num 30);
            ("longitude", Processor.Str "x")].

Definition trechos : Processor.DataFrame Z :=
  {| Processor.columns := ["uf"; "latitude"; "longitude"];
     Processor.rows := [trecho_sc; trecho_pr; trecho_rs] |}.

(** A table without a longitude column. *)
Definition so_latitude : Processor.DataFrame Z :=
  {| Processor.columns := ["uf"; "latitude"];
     Processor.rows := [mk_row 0 [("uf", Processor.Str "SC");
                                  ("latitude", Processor.Str "abc")]] |}.

End Samples.

(** ** Words for the paths and the frames of the fetcher *)

(** The paths and the address lines 29-46 put together. *)
Definition caminho_br (caminho_base : string) (ano br : pyval) : string :=
  path_join (path_join caminho_base (py_str ano)) ("BR-" +:+ py_str br).
Definition caminho_zip (caminho_base : string) (ano br : pyval) : string :=
  path_join (caminho_br caminho_base ano br) "arquivos_zip".
Definition caminho_csv (caminho_base : string) (ano br : pyval) : string :=
  path_join (caminho_br caminho_base ano br) "arquivos_csv".
Definition url_dnit (ano br : pyval) : string :=
  "https://servicos.dnit.gov.br/dadospnct/arquivos/pnct_" +:+ py_str ano
  +:+ "_" +:+ py_str br +:+ ".zip".
Definition caminho_zip_completo (caminho_base : string) (ano br : pyval) : string :=
  path_join (caminho_zip caminho_base ano br)
            ("pnct_" +:+ py_str ano +:+ "_" +:+ py_str br +:+ ".zip").

(** A computation leaves every world in relation [R] with the one it found. *)
Definition respects {A} (R : Fetcher.world -> Fetcher.world -> Prop) (m : Fetcher.M A) : Prop :=
  forall w, R w (m w).2.

(** Nothing was taken away: directories, files, requests sent and log
    records of [w] are still there in [w']. *)
Definition only_grew (w w' : Fetcher.world) : Prop :=
  Fetcher.fs_dirs w ⊆ Fetcher.fs_dirs w'
  /\ dom (Fetcher.fs_files w) ⊆ dom (Fetcher.fs_files w')
  /\ Fetcher.net_calls w `prefix_of` Fetcher.net_calls w'
  /\ Fetcher.log w `prefix_of` Fetcher.log w'.


(** No request was sent. *)
Definition same_requests (w w' : Fetcher.world) : Prop :=
  Fetcher.net_calls w' = Fetcher.net_calls w.




(** At most one request, to [url]. *)
Definition one_request {A} (url : string) (m : Fetcher.M A) : Prop :=
  forall w, Fetcher.net_calls (m w).2 = Fetcher.net_calls w
            \/ Fetcher.net_calls (m w).2 = Fetcher.net_calls w ++ [url].

(** The inputs pass the checks of lines 22 and 25. *)
Definition inputs_accepted {table} (env : Fetcher.environ table) (ano br : pyval) : Prop :=
  Fetcher.ano_invalido env ano = false /\ Fetcher.br_invalida br = false.

(** Both directories of the query could be made. *)
Definition directories_made {table} (env : Fetcher.environ table)
    (caminho_base : string) (ano br : pyval) : Prop :=
  Fetcher.makedirs_answer env (caminho_zip caminho_base ano br) = Fetcher.MkOk
  /\ Fetcher.makedirs_answer env (caminho_csv caminho_base ano br) = Fetcher.MkOk.

(** The message of line 38 or of line 41. *)
Definition makedirs_message (o : Fetcher.makedirs_outcome) : string :=
  match o with
  | Fetcher.MkPermissionDenied _ => "Erro de permissão: verifique acesso às pastas."
  | _ => "Erro crítico no sistema de arquivos."
  end.

(** The server answered with a status that [raise_for_status] lets through
    and a content type that names a ZIP. *)
Definition zip_response (r : Fetcher.response) : Prop :=
  (400 <=? Fetcher.status_code r) && (Fetcher.status_code r <? 600) = false
  /\ str_contains "application/zip" (default "" (Fetcher.content_type r)) = true.

(** The member lines 85-90 extract: under the first name that ends in
    [.csv], the member the archive lists last. *)
Definition first_csv (members : list (string * string)) : option (string * string) :=
  match filter (fun f => endswith f ".csv" = true) (map fst members) with
  | [] => None
  | csv_no_zip :: _ => Fetcher.getinfo members csv_no_zip
  end.

(** [str(z)] has four characters for each of the [n] integers from [z]
    on. *)
Fixpoint four_digits_from (n : nat) (z : Z) : bool :=
  match n with
  | O => true
  | S n' => Nat.eqb (String.length (str_of_Z z)) 4 && four_digits_from n' (z + 1)
  end.

(** ** The command line: the [__main__] block of [coleta_dados.py] *)

Module Cli.

(** What a run leaves on the terminal: a line written by [print], or the
    prompt of an [input]. *)
Inductive tty :=
| Printed (s : string)
| Asked (prompt : string).

Section Main.
Context {table : Type}.
Variable env : Fetcher.environ table.
(** [int(s)] for a line typed: the number, or nothing where [int] raises
    [ValueError]. *)
Variable py_int : string -> option Z.
(** [repr(s)]: how the message of that [ValueError] quotes the line. *)
Variable py_repr : string -> string.
(** What [print(df.head())] writes. *)
Variable head_text : table -> string.

Definition int_of_input (typed : string) : result Z :=
  match py_int typed with
  | Some z => Ok z
  | None => Raise (ValueError ("invalid literal for int() with base 10: " +:+ py_repr typed))
  end.

(** Lines 122-132, the body of the [try], for a run in which the lines
    asked for are typed: its result, the world it leaves, and what it put
    on the terminal. A [DataFrame] is never [None], so the test of line 127
    holds whenever line 125 returns. *)
Definition main_try (ano_typed br_typed : string) (w : Fetcher.world)
    : result unit * Fetcher.world * list tty :=
  match int_of_input ano_typed with
  | Raise e => (Raise e, w, [Asked "Digite o ano (ex: 2023): "])
  | Ok ano =>
      match int_of_input br_typed with
      | Raise e => (Raise e, w, [Asked "Digite o ano (ex: 2023): ";
                                 Asked "Digite o número da BR (ex: 101): "])
      | Ok br =>
          match Fetcher.baixar_dados_dnit env (PyInt ano) (PyInt br) "data/raw" w with
          | (Raise e, w') => (Raise e, w', [Asked "Digite o ano (ex: 2023): ";
                                            Asked "Digite o número da BR (ex: 101): "])
          | (Ok df, w') =>
              (Ok tt, w',
               [Asked "Digite o ano (ex: 2023): ";
                Asked "Digite o número da BR (ex: 101): ";
                Printed "
✅ Download concluído!";
                Printed ("📁 Dados salvos em: data/raw/" +:+ str_of_Z ano +:+ "/BR-"
                         +:+ str_of_Z br);
                Printed "
📊 Visualização dos dados:";
                Printed (head_text df)])
          end
      end
  end.

(** Lines 133-140: the line the first [except] clause that matches prints. *)
Definition main_except (e : exn) : string :=
  if is_ValueError e then "
❌ Erro de entrada: " +:+ exn_str e
  else match e with
       | FileNotFoundError _ =>
           "
❌ " +:+ exn_str e +:+ " Verifique no site: https://servicos.dnit.gov.br/dadospnct/mapa"
       | RuntimeError _ => "
❌ Erro durante a execução: " +:+ exn_str e
       | _ => "
⚠️ Erro inesperado: " +:+ exn_str e +:+ " Consulte o arquivo de logs."
       end.

(** Lines 120-142: the world a run leaves and what it wrote on the
    terminal. *)
Definition main (ano_typed br_typed : string) (w : Fetcher.world)
    : Fetcher.world * list tty :=
  let '(r, w', shown) := main_try ano_typed br_typed w in
  (w', Printed "=== Coletor de Dados DNIT ===" :: shown
       ++ match r with
          | Ok _ => []
          | Raise e => [Printed (main_except e)]
          end
       ++ [Printed "
Operação finalizada."]).

End Main.

End Cli.

(** The terminal shows the report of a wrong input, then the closing
    line. *)
Definition input_error_reported (terminal : list Cli.tty) : Prop :=
  exists before msg,
    terminal = before ++ [Cli.Printed ("
❌ Erro de entrada: " +:+ msg); Cli.Printed "
Operação finalizada."].

(** ** Words for the rows of the store and the values of the processor *)

(** The upsert of lines 60-74 applied to a database whose tables exist. *)
Definition upserted (env : Store.sql_env) (d : Store.database) (a b : Z) (json : string)
    : Store.database :=
  {| Store.dados_dnit :=
       Some (filter (fun x => Store.same_key a b x = false) (Store.records d)
             ++ [written_record env d a b json]);
     Store.historico := Some (Store.history d ++ [written_entry env d a b]);
     Store.seq_dados := Store.next_id (Store.seq_dados d) (map Store.d_id (Store.records d));
     Store.seq_historico :=
       Store.next_id (Store.seq_historico d) (map Store.h_id (Store.history d)) |}.

(** Both tables emptied; the AUTOINCREMENT counters stay. *)
Definition cleared (d : Store.database) : Store.database :=
  {| Store.dados_dnit := Some []; Store.historico := Some [];
     Store.seq_dados := Store.seq_dados d; Store.seq_historico := Store.seq_historico d |}.

(** Row ids are distinct and none exceeds the counter of its table. *)
Definition ids_in_sequence (d : Store.database) : Prop :=
  NoDup (map Store.d_id (Store.records d))
  /\ Forall (fun r => Store.d_id r <= Store.seq_dados d) (Store.records d)
  /\ NoDup (map Store.h_id (Store.history d))
  /\ Forall (fun h => Store.h_id h <= Store.seq_historico d) (Store.history d).

(** The value is no text: a number or missing. *)
Definition numeric_or_missing {num} (c : option (Processor.cell num)) : Prop :=
  match c with
  | Some (Processor.Str _) => False
  | _ => True
  end.

(** The value is a number. *)
Definition is_number {num} (c : option (Processor.cell num)) : Prop :=
  match c with
  | Some (Processor.Num _) => True
  | _ => False
  end.

(** ** Presenter: [criar_mapa] of [streamlit_app.py] *)

Module Presenter.

(** A [folium.Marker] put on the map: where, and the text of its popup. *)
Record marker (num : Type) := {
  location : Processor.cell num * Processor.cell num;
  popup : string
}.
Arguments location {num} _.
Arguments popup {num} _.

(** The [folium.Map] of line 126 with the markers added to it, in the
    order they were added. The centre is kept as written in the source. *)
Record folium_map (num : Type) := {
  center : string * string;
  zoom_start : Z;
  markers : list (marker num)
}.
Arguments center {num} _.
Arguments zoom_start {num} _.
Arguments markers {num} _.

Section Mapa.
Context {num : Type}.
(** How an f-string prints a value of the table. *)
Variable format_cell : Processor.cell num -> string.
(** What [folium.Marker] makes of a location: the exception it raises, if
    it refuses it. *)
Variable marker_check : Processor.cell num -> Processor.cell num -> option exn.

(** [df.empty]: no row or no column. *)
Definition df_empty (df : Processor.DataFrame num) : bool :=
  match Processor.rows df, Processor.columns df with
  | [], _ => true
  | _, [] => true
  | _, _ => false
  end.

(** [row[name]]: [KeyError] when the row has no such field. *)
Definition getitem (r : Processor.row num) (name : string) : result (Processor.cell num) :=
  match Processor.values r !! name with
  | Some c => Ok c
  | None => Raise (KeyError [name])
  end.

(** [pd.notnull]. *)
Definition notnull (c : Processor.cell num) : bool :=
  match c with
  | Processor.NaN => false
  | _ => true
  end.

(** One turn of the loop of lines 129-135: the marker the row adds, if it
    adds one. [and] does not read the longitude of a row without latitude;
    the popup is put together before [folium.Marker] sees the location. *)
Definition marker_of_row (r : Processor.row num) : result (option (marker num)) :=
  match getitem r "latitude" with
  | Raise e => Raise e
  | Ok lat =>
      if notnull lat then
        match getitem r "longitude" with
        | Raise e => Raise e
        | Ok lon =>
            if notnull lon then
              match getitem r "br" with
              | Raise e => Raise e
              | Ok b =>
                  match getitem r "uf" with
                  | Raise e => Raise e
                  | Ok u =>
                      match marker_check lat lon with
                      | Some e => Raise e
                      | None =>
                          Ok (Some {| location := (lat, lon);
                                      popup := "BR-" +:+ format_cell b +:+ " | "
                                               +:+ format_cell u |})
                      end
                  end
              end
            else Ok None
        end
      else Ok None
  end.

(** The loop: rows in order, stopping at the first exception. *)
Fixpoint add_markers (rs : list (Processor.row num)) (ms : list (marker num))
    : result (list (marker num)) :=
  match rs with
  | [] => Ok ms
  | r :: rs' =>
      match marker_of_row r with
      | Raise e => Raise e
      | Ok None => add_markers rs' ms
      | Ok (Some m) => add_markers rs' (ms ++ [m])
      end
  end.

(** Lines 123-137, the body of the [try]. *)
Definition criar_mapa_try (df : Processor.DataFrame num) : result (folium_map num) :=
  if df_empty df then Raise (ValueError "DataFrame vazio")
  else
    match add_markers (Processor.rows df) [] with
    | Raise e => Raise e
    | Ok ms => Ok {| center := ("-15.788497", "-47.879873"); zoom_start := 4;
                     markers := ms |}
    end.

(** [criar_mapa(df)]: the map or [None], and what was handed to [logging]. *)
Definition criar_mapa (df : Processor.DataFrame num)
    : option (folium_map num) * list (Fetcher.level * string) :=
  match criar_mapa_try df with
  | Ok m => (Some m, [])
  | Raise (KeyError _) => (None, [(Fetcher.WARNING, "Dados geográficos ausentes")])
  | Raise e => (None, [(Fetcher.ERROR, "Erro no mapa: " +:+ exn_str e)])
  end.

End Mapa.

End Presenter.

(** A row has both coordinates, text or number. *)
Definition has_both_coordinates {num} (r : Processor.row num) : bool :=
  match Processor.values r !! "latitude", Processor.values r !! "longitude" with
  | Some lat, Some lon => Presenter.notnull lat && Presenter.notnull lon
  | _, _ => false
  end.

#[global] Instance cell_eq_dec {num} `{EqDecision num} : EqDecision (Processor.cell num).
Proof. solve_decision. Defined.

(** ** The page: the script of [streamlit_app.py], lines 149-238 *)

Module App.

(** What a run puts on the page, main area and sidebar. *)
Inductive element (num : Type) :=
| Title (s : string)
| Markdown (s : string)
| Form (ano_default br_default : Z)
| Sidebar (w : Store.widget)
| Success (s : string)
| Header (s : string)
| Dataframe (df : Processor.DataFrame num)
| SidebarHeader (s : string)
| SidebarMultiselect (label : string) (options default : list (Processor.cell num))
| FoliumStatic (m : Presenter.folium_map num)
| Warning (s : string)
| Error (s : string)
| PlotlyChart
| DownloadButton (file_name : string)
| SidebarButton (label : string)
| SidebarSuccess (s : string)
| SidebarError (s : string).
Arguments Title {num} s.
Arguments Markdown {num} s.
Arguments Form {num} ano_default br_default.
Arguments Sidebar {num} w.
Arguments Success {num} s.
Arguments Header {num} s.
Arguments Dataframe {num} df.
Arguments SidebarHeader {num} s.
Arguments SidebarMultiselect {num} label options default.
Arguments FoliumStatic {num} m.
Arguments Warning {num} s.
Arguments Error {num} s.
Arguments PlotlyChart {num}.
Arguments DownloadButton {num} file_name.
Arguments SidebarButton {num} label.
Arguments SidebarSuccess {num} s.
Arguments SidebarError {num} s.

(** What a run works on: the disk and network of the fetcher, the database,
    the entry [st.cache_data] holds for [carregar_dados], the page so far
    and the records handed to [logging] by this module. *)
Record app (num : Type) := {
  world : Fetcher.world;
  banco : Store.store;
  cache : option (Processor.DataFrame num);
  page : list (element num);
  app_log : list (Fetcher.level * string)
}.
Arguments world {num} _.
Arguments banco {num} _.
Arguments cache {num} _.
Arguments page {num} _.
Arguments app_log {num} _.

(** What the libraries, the system and the user answer during one run. *)
Record session (num : Type) := {
  fetch_env : Fetcher.environ (Processor.DataFrame num);
  sqlite : Store.sql_env;
  sqlite_clear : Store.sql_env;
  historico_fault : option Store.read_fault;
  cache_alive : bool;
  multiselect_answer : list (Processor.cell num) -> list (Processor.cell num)
}.
Arguments fetch_env {num} _.
Arguments sqlite {num} _.
Arguments sqlite_clear {num} _.
Arguments historico_fault {num} _.
Arguments cache_alive {num} _.
Arguments multiselect_answer {num} _ _.

Section Script.
Context {num : Type} `{EqDecision num}.
Variable parse_numeric : string -> option num.
Variable to_json : Processor.DataFrame num -> result string.
Variable format_cell : Processor.cell num -> string.
Variable marker_check : Processor.cell num -> Processor.cell num -> option exn.
Variable sess : session num.

Definition P (A : Type) : Type := app num -> result A * app num.

Definition pret {A} (a : A) : P A := fun s => (Ok a, s).
Definition praise {A} (e : exn) : P A := fun s => (Raise e, s).
Definition pbind {A B} (m : P A) (k : A -> P B) : P B :=
  fun s => match m s with
           | (Ok a, s') => k a s'
           | (Raise e, s') => (Raise e, s')
           end.
Definition ptry {A} (m : P A) (h : exn -> P A) : P A :=
  fun s => match m s with
           | (Ok a, s') => (Ok a, s')
           | (Raise e, s') => h e s'
           end.

Notation "x <~~ m ;; k" := (pbind m (fun x => k))
  (at level 100, m at next level, right associativity).
Notation "m ;;~ k" := (pbind m (fun _ => k))
  (at level 100, right associativity).

(** A call of [st....]: one more element on the page. *)
Definition show (e : element num) : P unit :=
  fun s => (Ok tt, {| world := world s; banco := banco s; cache := cache s;
                      page := page s ++ [e]; app_log := app_log s |}).

Definition log_records (rs : list (Fetcher.level * string)) : P unit :=
  fun s => (Ok tt, {| world := world s; banco := banco s; cache := cache s;
                      page := page s; app_log := app_log s ++ rs |}).

(** [baixar_dados_dnit(ano, br)], with the default [caminho_base]. *)
Definition baixar (ano br : Z) : P (Processor.DataFrame num) :=
  fun s => let out := Fetcher.baixar_dados_dnit (fetch_env sess) (PyInt ano) (PyInt br)
                        "data/raw" (world s) in
           (out.1, {| world := out.2; banco := banco s; cache := cache s;
                      page := page s; app_log := app_log s |}).

(** [carregar_dados(df_raw)] as line 88 decorates it. The one parameter is
    named with a leading underscore, so [st.cache_data] leaves it out of
    the key: there is one entry for the function. While the entry is alive
    (it is kept for [ttl=3600] seconds) the call returns it and the body
    does not run; otherwise the body runs and what it returns becomes the
    entry. *)
Definition carregar_dados_cached (_df : Processor.DataFrame num) : P (Processor.DataFrame num) :=
  fun s =>
    match cache s, cache_alive sess with
    | Some entry, true => (Ok entry, s)
    | _, _ =>
        let o := Processor.carregar_dados parse_numeric _df in
        let logged := map (fun m => (Fetcher.ERROR, m)) (Processor.logged o) in
        match Processor.value o with
        | Ok out => (Ok out, {| world := world s; banco := banco s; cache := Some out;
                                page := page s; app_log := app_log s ++ logged |})
        | Raise e => (Raise e, {| world := world s; banco := banco s; cache := cache s;
                                  page := page s; app_log := app_log s ++ logged |})
        end
    end.

(** The caller's table after [carregar_dados(_df)]: the body changes it in
    place where it runs, a call answered from the cache does not touch
    it. *)
Definition df_after_carregar_dados (_df : Processor.DataFrame num) (s : app num)
    : Processor.DataFrame num :=
  match cache s, cache_alive sess with
  | Some entry, true => _df
  | _, _ => Processor.argument_after (Processor.carregar_dados parse_numeric _df)
  end.

(** [gerenciar_banco(df=df_processed, ano=ano, br=br)]. *)
Definition gravar (df : Processor.DataFrame num) (ano br : Z) : P Store.returned :=
  fun s => let out := Store.gerenciar_banco to_json (sqlite sess) (Some df) (Some ano)
                        (Some br) false (banco s) in
           (out.1, {| world := world s; banco := out.2; cache := cache s;
                      page := page s; app_log := app_log s |}).

(** [gerenciar_banco(clear=True)]. *)
Definition limpar_banco : P Store.returned :=
  fun s => let out := Store.gerenciar_banco to_json (sqlite_clear sess) None None None true
                        (banco s) in
           (out.1, {| world := world s; banco := out.2; cache := cache s;
                      page := page s; app_log := app_log s |}).

(** [st.cache_data.clear()]. *)
Definition cache_clear : P unit :=
  fun s => (Ok tt, {| world := world s; banco := banco s; cache := None;
                      page := page s; app_log := app_log s |}).

(** [df.head(n)]. *)
Definition head (n : nat) (df : Processor.DataFrame num) : Processor.DataFrame num :=
  {| Processor.columns := Processor.columns df; Processor.rows := firstn n (Processor.rows df) |}.

(** The value a row has under a column; rows of a table have one under
    each of its columns. *)
Definition cell_of (name : string) (r : Processor.row num) : Processor.cell num :=
  default Processor.NaN (Processor.values r !! name).

(** [Series.unique()]: the values in order of first appearance. *)
Fixpoint unique_from (seen l : list (Processor.cell num)) : list (Processor.cell num) :=
  match l with
  | [] => []
  | c :: l' => if bool_decide (c ∈ seen) then unique_from seen l'
               else c :: unique_from (c :: seen) l'
  end.

(** [df[name].unique()]; [KeyError] without the column. *)
Definition column_unique (name : string) (df : Processor.DataFrame num)
    : P (list (Processor.cell num)) :=
  if Processor.has_column name df
  then pret (unique_from [] (map (cell_of name) (Processor.rows df)))
  else praise (KeyError [name]).

(** [df[df[name].isin(selected)]]. *)
Definition isin_rows (name : string) (selected : list (Processor.cell num))
    (df : Processor.DataFrame num) : Processor.DataFrame num :=
  {| Processor.columns := Processor.columns df;
     Processor.rows := filter (fun r => cell_of name r ∈ selected) (Processor.rows df) |}.

(** [st.sidebar.multiselect(label, options=..., default=...)]: the widget
    is shown and the selection comes back. *)
Definition multiselect (label : string) (options default : list (Processor.cell num))
    : P (list (Processor.cell num)) :=
  show (SidebarMultiselect label options default) ;;~
  pret (multiselect_answer sess options).

(** [criar_mapa(df)]. *)
Definition mapa_de (df : Processor.DataFrame num) : P (option (Presenter.folium_map num)) :=
  let out := Presenter.criar_mapa format_cell marker_check df in
  log_records out.2 ;;~ pret out.1.

(** [px.histogram(...)] of line 203: the module binds no name [px], so
    evaluating it raises [NameError]. *)
Definition px_histogram (df : Processor.DataFrame num) : P unit :=
  praise (OtherException "NameError").

(** The text of lines 218-223. *)
Definition verifique : string := "
            Verifique:
            1. A BR selecionada existe
            2. O ano possui dados disponíveis
            3. Conexão com internet ativa
        ".

(** Lines 167-214, the body of the [try]. The spinner of line 168 leaves
    nothing on the page. *)
Definition buscar_try (ano br : Z) : P unit :=
  df_raw <~~ baixar ano br ;;
  df_processed <~~ carregar_dados_cached df_raw ;;
  gravar df_processed ano br ;;~
  show (Success ("✅ " +:+ str_of_Z (Z.of_nat (length (Processor.rows df_processed)))
                 +:+ " registros carregados com sucesso!")) ;;~
  show (Header "📊 Visualização dos Dados") ;;~
  show (Dataframe (head 10 df_processed)) ;;~
  show (SidebarHeader "⚙️ Filtros Avançados") ;;~
  ufs_disponiveis <~~ column_unique "uf" df_processed ;;
  ufs_selecionadas <~~ multiselect "Estados (UF)" ufs_disponiveis
                                   (firstn 2 ufs_disponiveis) ;;
  let df_filtrado := isin_rows "uf" ufs_selecionadas df_processed in
  show (Header "🗺️ Mapa Georreferenciado") ;;~
  mapa <~~ mapa_de df_filtrado ;;
  match mapa with
  | Some m => show (FoliumStatic m)
  | None => show (Warning "Dados geográficos não disponíveis para visualização")
  end ;;~
  show (Header "📈 Análise Estatística") ;;~
  px_histogram df_filtrado ;;~
  show PlotlyChart ;;~
  show (Header "📥 Exportação de Dados") ;;~
  show (DownloadButton ("dados_br" +:+ str_of_Z br +:+ "_" +:+ str_of_Z ano +:+ ".csv")).

(** Lines 216-228, the three [except] clauses. *)
Definition buscar_except (e : exn) : P unit :=
  match e with
  | FileNotFoundError msg =>
      show (Error ("🚫 Dados não encontrados: " +:+ msg)) ;;~
      show (Markdown verifique)
  | RuntimeError msg => show (Error ("⚠️ Erro crítico: " +:+ msg))
  | _ =>
      show (Error "❌ Erro inesperado. Consulte os logs técnicos.") ;;~
      log_records [(Fetcher.ERROR, "Erro não tratado:")]
  end.

(** Lines 166-228: what a run does when the form was submitted. *)
Definition buscar (ano br : Z) : P unit :=
  ptry (buscar_try ano br) buscar_except.

(** Lines 232-238: what a run does when the clear button was clicked. *)
Definition limpar : P unit :=
  ptry
    (limpar_banco ;;~
     cache_clear ;;~
     show (SidebarSuccess "Cache e histórico resetados"))
    (fun e => show (SidebarError ("Erro na limpeza: " +:+ exn_str e))).

(** [exibir_historico()] of line 163, outside any [try]. *)
Definition historico_na_sidebar : P unit :=
  fun s => match Store.exibir_historico (historico_fault sess) (Store.db (banco s)) with
           | Ok ws => (Ok tt, {| world := world s; banco := banco s; cache := cache s;
                                 page := page s ++ map Sidebar ws; app_log := app_log s |})
           | Raise e => (Raise e, s)
           end.

(** One run of the script from line 149 on: [submitted] is what the form
    holds when its button was pressed for this run, [limpar_clicked]
    whether the clear button was. An exception that escapes ends the run. *)
Definition run (submitted : option (Z * Z)) (limpar_clicked : bool) : P unit :=
  show (Title "🚦 Painel PNCT - DNIT") ;;~
  show (Markdown "### Dados Rodoviários Integrados") ;;~
  show (Form 2023 101) ;;~
  historico_na_sidebar ;;~
  match submitted with
  | Some (ano, br) => buscar ano br
  | None => pret tt
  end ;;~
  show (SidebarHeader "⚙️ Administração") ;;~
  show (SidebarButton "🔄 Limpar Cache e Histórico") ;;~
  if limpar_clicked then limpar else pret tt.

End Script.

End App.

(** The chart of line 204 or the download button of line 209 is among the
    elements. *)
Definition export_shown {num} (es : list (App.element num)) : Prop :=
  App.PlotlyChart ∈ es \/ exists f, App.DownloadButton f ∈ es.

(** The elements end with an error message (followed, for data not found,
    by the hints of lines 218-223). *)
Definition ends_with_error {num} (es : list (App.element num)) : Prop :=
  exists before msg,
    es = before ++ [App.Error msg] \/ es = before ++ [App.Error msg; App.Markdown App.verifique].

(** What the [except] clauses of lines 216-228 show for an exception. *)
Definition error_elements {num} (e : exn) : list (App.element num) :=
  match e with
  | FileNotFoundError msg =>
      [App.Error ("🚫 Dados não encontrados: " +:+ msg); App.Markdown App.verifique]
  | RuntimeError msg => [App.Error ("⚠️ Erro crítico: " +:+ msg)]
  | _ => [App.Error "❌ Erro inesperado. Consulte os logs técnicos."]
  end.

(** An element the body of the [try] shows before line 203. *)
Definition shown_before_chart {num} (e : App.element num) : Prop :=
  match e with
  | App.Success _ | App.Header _ | App.Dataframe _ | App.SidebarHeader _
  | App.SidebarMultiselect _ _ _ | App.FoliumStatic _ | App.Warning _ => True
  | _ => False
  end.

(** ** Sample inputs of the further properties *)

Module Cases.

Definition answer_zip : Fetcher.response :=
  {| Fetcher.status_code := 200;
     Fetcher.content_type := Some "application/zip";
     Fetcher.content := "PK-pnct" |}.

Definition answer_html : Fetcher.response :=
  {| Fetcher.status_code := 200;
     Fetcher.content_type := Some "text/html; charset=utf-8";
     Fetcher.content := "<html></html>" |}.

Definition answer_500 : Fetcher.response :=
  {| Fetcher.status_code := 500;
     Fetcher.content_type := Some "text/html";
     Fetcher.content := "" |}.

(** The year 2026, with what the disk answers to [os.makedirs], what the
    server answers, what the archive reader finds in the bytes received,
    and the table the CSV reader builds. *)
Definition environment {table : Type} (disk : Fetcher.makedirs_outcome)
    (server : Fetcher.http_outcome) (archive : option (list (string * string)))
    (t : table) : Fetcher.environ table :=
  {| Fetcher.current_year := 2026;
     Fetcher.makedirs_answer := fun _ => disk;
     Fetcher.http_get := fun _ => server;
     Fetcher.open_write_answer := fun _ => None;
     Fetcher.unzip := fun _ => archive;
     Fetcher.read_csv := fun _ => Fetcher.CsvTable t;
     Fetcher.df_empty := fun _ => false |}.

Definition members : list (string * string) :=
  [("leia-me.txt", "PNCT"); ("trechos.csv", "uf;latitude;longitude")].

(** Every step succeeds; the table read is [Samples.trechos]. *)
Definition server_zip : Fetcher.environ (Processor.DataFrame Z) :=
  environment Fetcher.MkOk (Fetcher.HttpResponse answer_zip) (Some members) Samples.trechos.

Definition read_only_disk : Fetcher.environ (Processor.DataFrame Z) :=
  environment (Fetcher.MkPermissionDenied "[Errno 13] Permission denied: 'data'")
    (Fetcher.HttpResponse answer_zip) (Some members) Samples.trechos.

Definition server_500 : Fetcher.environ (Processor.DataFrame Z) :=
  environment Fetcher.MkOk (Fetcher.HttpResponse answer_500) None Samples.trechos.

Definition server_html : Fetcher.environ (Processor.DataFrame Z) :=
  environment Fetcher.MkOk (Fetcher.HttpResponse answer_html) None Samples.trechos.

(** The bytes received are no archive. *)
Definition server_garbage : Fetcher.environ (Processor.DataFrame Z) :=
  environment Fetcher.MkOk (Fetcher.HttpResponse answer_zip) None Samples.trechos.

Definition server_zip_without_csv : Fetcher.environ (Processor.DataFrame Z) :=
  environment Fetcher.MkOk (Fetcher.HttpResponse answer_zip) (Some [("leia-me.txt", "PNCT")])
    Samples.trechos.


(** The lines typed at the command line are read as decimal digits. *)
Definition typed_int (s : string) : option Z := Samples.parse_digits s.

Definition quoted (s : string) : string := "'" +:+ s +:+ "'".

Definition head_text (df : Processor.DataFrame Z) : string :=
  String.concat " " (Processor.columns df).

(** Tables go to the database as the count of their rows. *)
Definition to_json (df : Processor.DataFrame Z) : result string :=
  Ok ("[" +:+ str_of_Z (Z.of_nat (length (Processor.rows df))) +:+ "]").

Definition format_cell (c : Processor.cell Z) : string :=
  match c with
  | Processor.Num v => str_of_Z v
  | Processor.NaN => "nan"
  | Processor.Str s => s
  end.

(** A [folium.Marker] that takes every location. *)
Definition marker_check (lat lon : Processor.cell Z) : option exn := None.

(** Road segments with the columns the popup reads; the second has no
    longitude. *)
Definition trechos_br : Processor.DataFrame Z :=
  {| Processor.columns := ["br"; "uf"; "latitude"; "longitude"];
     Processor.rows :=
       [Samples.mk_row 0 [("br", Processor.Num 101); ("uf", Processor.Str "SC");
                          ("latitude", Processor.Str "27"); ("longitude", Processor.Str "48")];
        Samples.mk_row 1 [("br", Processor.Num 116); ("uf", Processor.Str "PR");
                          ("latitude", Processor.Num 25); ("longitude", Processor.NaN)]] |}.

(** A session in which nothing fails, with a live cache entry if there is
    one; the user keeps the first option of the multiselect. *)
Definition session (fetch : Fetcher.environ (Processor.DataFrame Z)) : App.session Z :=
  {| App.fetch_env := fetch;
     App.sqlite := Samples.sqlite_at "2023-05-01 10:00:00";
     App.sqlite_clear := Samples.sqlite_at "2023-05-01 10:05:00";
     App.historico_fault := None;
     App.cache_alive := true;
     App.multiselect_answer := firstn 1 |}.

(** A first run: nothing on disk, no table in the database, no cache
    entry. *)
Definition first_run : App.app Z :=
  {| App.world := Samples.empty_world; App.banco := Samples.fresh_store;
     App.cache := None; App.page := []; App.app_log := [] |}.

(** A run that finds the table of an earlier search in the cache. *)
Definition later_run : App.app Z :=
  {| App.world := Samples.empty_world; App.banco := Samples.fresh_store;
     App.cache := Some Samples.so_latitude; App.page := []; App.app_log := [] |}.

End Cases.

(** * Properties *)

(** ** Fetcher *)

Section FetcherProperties.
Import Fetcher.
Context {table : Type}.
Variable env : environ table.

Lemma ano_valido_in_range (ano : pyval) :
  ano_invalido env ano = false -> int_between 2000 (current_year env) ano = true.
Proof.
  unfold ano_invalido, int_between.
  destruct (as_int ano) as [z|]; [|discriminate].
  intros H. apply orb_false_elim in H as [H Hhi].
  apply orb_false_elim in H as [_ Hlo].
  apply andb_true_intro. split; lia.
Qed.

Lemma br_valida_in_range (br : pyval) :
  br_invalida br = false -> int_between 1 999 br = true.
Proof.
  unfold br_invalida, int_between.
  destruct (as_int br) as [z|]; [|discriminate].
  intros H. apply orb_false_elim in H as [Hlo Hhi].
  apply andb_true_intro. split; lia.
Qed.

(** C1. A year outside [2000, current year] or a road number outside
    [1, 999] makes [baixar_dados_dnit] fail with [ValueError]; no request
    has been sent, no directory made and no file written by then. *)
Theorem baixar_dados_dnit_invalid_input
    (ano br : pyval) (caminho_base : string) (w : world) :
  int_between 2000 (current_year env) ano = false \/ int_between 1 999 br = false ->
  exists msg,
    (baixar_dados_dnit env ano br caminho_base w).1 = Raise (ValueError msg)
    /\ net_calls (baixar_dados_dnit env ano br caminho_base w).2 = net_calls w
    /\ fs_dirs (baixar_dados_dnit env ano br caminho_base w).2 = fs_dirs w
    /\ fs_files (baixar_dados_dnit env ano br caminho_base w).2 = fs_files w.
Proof.
  intros Hout.
  unfold baixar_dados_dnit, try_except, bind.
  destruct (ano_invalido env ano) eqn:Hano.
  - cbn. eauto.
  - destruct (br_invalida br) eqn:Hbr.
    + cbn. eauto.
    + apply ano_valido_in_range in Hano. apply br_valida_in_range in Hbr.
      destruct Hout; congruence.
Qed.

Lemma ano_2023_valido : 2023 <= current_year env -> ano_invalido env (PyInt 2023) = false.
Proof.
  intros H. unfold ano_invalido. cbn.
  destruct (Z.gtb_spec 2023 (current_year env)); [lia | reflexivity].
Qed.

(** C9. [baixar_dados_dnit(2023, 101)] against a server that answers 404:
    the call fails with [FileNotFoundError], whose message names
    "BR-101 (2023)"; the one request was sent, no file was written, and the
    only change on disk is that the two directories and their ancestors
    exist. *)
Theorem baixar_dados_dnit_404
    (caminho_base : string) (w : world) (r : response) :
  2023 <= current_year env ->
  makedirs_answer env
    (path_join (path_join (path_join caminho_base "2023") "BR-101") "arquivos_zip") = MkOk ->
  makedirs_answer env
    (path_join (path_join (path_join caminho_base "2023") "BR-101") "arquivos_csv") = MkOk ->
  http_get env "https://servicos.dnit.gov.br/dadospnct/arquivos/pnct_2023_101.zip"
    = HttpResponse r ->
  status_code r = 404 ->
  (baixar_dados_dnit env (PyInt 2023) (PyInt 101) caminho_base w).1
    = Raise (FileNotFoundError "Dados para BR-101 (2023) não encontrados no servidor.")
  /\ str_contains "BR-101 (2023)" "Dados para BR-101 (2023) não encontrados no servidor." = true
  /\ fs_files (baixar_dados_dnit env (PyInt 2023) (PyInt 101) caminho_base w).2 = fs_files w
  /\ fs_dirs (baixar_dados_dnit env (PyInt 2023) (PyInt 101) caminho_base w).2
     = fs_dirs w
       ∪ list_to_set (path_prefixes
           (path_join (path_join (path_join caminho_base "2023") "BR-101") "arquivos_zip"))
       ∪ list_to_set (path_prefixes
           (path_join (path_join (path_join caminho_base "2023") "BR-101") "arquivos_csv"))
  /\ net_calls (baixar_dados_dnit env (PyInt 2023) (PyInt 101) caminho_base w).2
     = net_calls w ++ ["https://servicos.dnit.gov.br/dadospnct/arquivos/pnct_2023_101.zip"].
Proof.
  intros Hy Hzip Hcsv Hget H404.
  unfold baixar_dados_dnit, try_except, bind.
  rewrite (ano_2023_valido Hy).
  change (br_invalida (PyInt 101)) with false.
  cbn -[path_join str_contains].
  change ("BR-" +:+ "101") with "BR-101".
  unfold os_makedirs. rewrite Hzip, Hcsv.
  cbn -[path_join str_contains].
  unfold requests_get.
  match goal with
  | |- context [http_get env ?u] =>
      let u' := eval vm_compute in u in change u with u'
  end.
  rewrite Hget.
  cbn -[path_join str_contains].
  unfold raise_for_status. rewrite H404.
  cbn -[path_join str_contains].
  repeat split; reflexivity.
Qed.

End FetcherProperties.

Lemma baixar_dados_dnit_invalid_input_witness :
  exists msg,
    (Fetcher.baixar_dados_dnit Samples.server_404 (PyInt 1999) (PyInt 101)
       "data/raw" Samples.empty_world).1 = Raise (ValueError msg)
    /\ Fetcher.net_calls (Fetcher.baixar_dados_dnit Samples.server_404 (PyInt 1999)
                            (PyInt 101) "data/raw" Samples.empty_world).2 = []
    /\ Fetcher.fs_dirs (Fetcher.baixar_dados_dnit Samples.server_404 (PyInt 1999)
                          (PyInt 101) "data/raw" Samples.empty_world).2 = ∅
    /\ Fetcher.fs_files (Fetcher.baixar_dados_dnit Samples.server_404 (PyInt 1999)
                           (PyInt 101) "data/raw" Samples.empty_world).2 = ∅.
Proof.
  apply (baixar_dados_dnit_invalid_input Samples.server_404 (PyInt 1999) (PyInt 101)
           "data/raw" Samples.empty_world).
  left. reflexivity.
Defined.

Lemma baixar_dados_dnit_404_witness :
  (Fetcher.baixar_dados_dnit Samples.server_404 (PyInt 2023) (PyInt 101)
     "data/raw" Samples.empty_world).1
  = Raise (FileNotFoundError "Dados para BR-101 (2023) não encontrados no servidor.")
  /\ Fetcher.fs_files (Fetcher.baixar_dados_dnit Samples.server_404 (PyInt 2023) (PyInt 101)
                         "data/raw" Samples.empty_world).2 = ∅.
Proof.
  destruct (baixar_dados_dnit_404 Samples.server_404 "data/raw" Samples.empty_world
              {| Fetcher.status_code := 404; Fetcher.content_type := Some "text/html";
                 Fetcher.content := "" |})
    as (Hres & _ & Hfiles & _ & _).
  - cbn. lia.
  - reflexivity.
  - reflexivity.
  - reflexivity.
  - reflexivity.
  - split; [exact Hres | exact Hfiles].
Defined.

(** ** Store *)

Section TextOrder.

Lemma ascii_compare_refl (a : ascii) : Ascii.compare a a = Eq.
Proof. unfold Ascii.compare. apply N.compare_refl. Qed.






End TextOrder.

Section HistoryOrder.
Import Store.








End HistoryOrder.

Section StoreProperties.
Import Store.
Context {DataFrame : Type}.
Variable to_json : DataFrame -> result string.

Ltac step_fault env st :=
  unfold check_fault; destruct (sql_fault env st) eqn:?; cbn.

Lemma gerenciar_banco_effect (env : sql_env) df ano br clear (s : store) :
  effect_on to_json env (db s) df ano br clear
    (gerenciar_banco to_json env df ano br clear s).1
    (db (gerenciar_banco to_json env df ano br clear s).2).
Proof.
  unfold gerenciar_banco.
  destruct (sql_fault env Connect) eqn:Hc; cbn.
  { apply Untouched; auto. }
  unfold gerenciar_banco_body, execute_ddl, nbind.
  step_fault env CreateDados. { apply Untouched; auto. }
  step_fault env CreateHistorico. { apply Untouched; auto. }
  destruct clear.
  - unfold execute_dml, nbind.
    step_fault env DeleteDados. { apply Untouched; auto. }
    step_fault env DeleteHistorico. { apply Untouched; auto. }
    unfold commit, nbind.
    step_fault env Commit. { apply Untouched; auto. }
    apply Cleared; auto.
  - destruct df as [t|]; cbn.
    2:{ apply Untouched; auto. }
    destruct (to_json t) as [json|e] eqn:Hj; cbn.
    2:{ destruct (is_sqlite_error e) eqn:He; cbn; apply Untouched; eauto 10. }
    unfold execute_dml, nbind.
    step_fault env InsertDados. { apply Untouched; auto. }
    destruct ano as [a|]; cbn. 2:{ apply Untouched; auto. }
    destruct br as [b|]; cbn. 2:{ apply Untouched; auto. }
    step_fault env InsertHistorico. { apply Untouched; auto. }
    unfold commit, nbind.
    step_fault env Commit. { apply Untouched; auto. }
    eapply Upserted; eauto.
Qed.

Lemma gerenciar_banco_upsert (env : sql_env) t json a b (s : store) :
  no_fault env -> to_json t = Ok json ->
  gerenciar_banco to_json env (Some t) (Some a) (Some b) false s
  = (Ok RetConn,
     {| db := {| dados_dnit :=
                   Some (filter (fun x => same_key a b x = false) (records (db s))
                         ++ [written_record env (db s) a b json]);
                 historico := Some (history (db s) ++ [written_entry env (db s) a b]);
                 seq_dados := next_id (seq_dados (db s)) (map d_id (records (db s)));
                 seq_historico :=
                   next_id (seq_historico (db s)) (map h_id (history (db s))) |};
        errors_logged := errors_logged s |}).
Proof.
  intros Hf Hj.
  unfold gerenciar_banco, gerenciar_banco_body, execute_ddl, execute_dml, commit,
    nbind, check_fault.
  rewrite !Hf. cbn. rewrite Hj. cbn. rewrite ?Hf. cbn. reflexivity.
Qed.

Lemma gerenciar_banco_clear (env : sql_env) df ano br (s : store) :
  no_fault env ->
  gerenciar_banco to_json env df ano br true s
  = (Ok RetNone,
     {| db := {| dados_dnit := Some []; historico := Some [];
                 seq_dados := seq_dados (db s); seq_historico := seq_historico (db s) |};
        errors_logged := errors_logged s |}).
Proof.
  intros Hf.
  unfold gerenciar_banco, gerenciar_banco_body, execute_ddl, execute_dml, commit,
    nbind, check_fault.
  rewrite !Hf. cbn. rewrite ?Hf. cbn. reflexivity.
Qed.

Lemma records_Some (d : database) (l : list dados_row) :
  dados_dnit d = Some l -> records d = l.
Proof. unfold records. by intros ->. Qed.

Lemma history_Some (d : database) (l : list hist_row) :
  historico d = Some l -> history d = l.
Proof. unfold history. by intros ->. Qed.

Lemma records_mk l h sd sh :
  records {| dados_dnit := Some l; historico := h; seq_dados := sd; seq_historico := sh |} = l.
Proof. reflexivity. Qed.

Lemma history_mk l h sd sh :
  history {| dados_dnit := l; historico := Some h; seq_dados := sd; seq_historico := sh |} = h.
Proof. reflexivity. Qed.

Lemma filter_other_keys_under (a b : Z) (l : list dados_row) :
  filter (fun r => same_key a b r = true) (filter (fun r => same_key a b r = false) l) = [].
Proof.
  induction l as [|x l IH]; [reflexivity|].
  rewrite (filter_cons (fun r => same_key a b r = false)).
  destruct (decide (same_key a b x = false)) as [Hx|Hx]; [|exact IH].
  rewrite filter_cons_False; [exact IH | congruence].
Qed.

Lemma same_key_iff (a b : Z) (r : dados_row) :
  same_key a b r = true <-> key_of r = (a, b).
Proof.
  unfold same_key, key_of. rewrite andb_true_iff, !Z.eqb_eq.
  split; [intros [-> ->]; reflexivity | intros [= -> ->]; auto].
Qed.

Lemma unique_keys_filter (P : dados_row -> Prop) `{!forall r, Decision (P r)}
    (l : list dados_row) :
  NoDup (map key_of l) -> NoDup (map key_of (filter P l)).
Proof.
  induction l as [|x l IH]; [constructor|].
  rewrite filter_cons. cbn [map]. rewrite NoDup_cons. intros [Hx Hl].
  destruct (decide (P x)); [|by apply IH].
  cbn [map]. rewrite NoDup_cons. split; [|by apply IH].
  intros Hin. apply Hx.
  apply list_elem_of_fmap in Hin as (y & Hy & Hin).
  apply list_elem_of_filter in Hin as [_ Hin].
  apply list_elem_of_fmap. eauto.
Qed.

Lemma unique_keys_upsert (a b : Z) (new : dados_row) (l : list dados_row) :
  key_of new = (a, b) ->
  NoDup (map key_of l) ->
  NoDup (map key_of (filter (fun r => same_key a b r = false) l ++ [new])).
Proof.
  intros Hnew Hl. rewrite map_app. apply NoDup_app. split; [|split].
  - by apply unique_keys_filter.
  - intros k Hk Hk'. cbn in Hk'. apply list_elem_of_singleton in Hk'. subst k.
    apply list_elem_of_fmap in Hk as (y & Hy & Hin).
    apply list_elem_of_filter in Hin as [Hne _].
    rewrite Hnew in Hy. symmetry in Hy. apply same_key_iff in Hy. congruence.
  - cbn. apply NoDup_singleton.
Qed.

(** C2. Every call of [gerenciar_banco], whatever it is asked and whatever
    the storage layer answers, keeps at most one record per (year, road)
    key; and two upserts under one key leave exactly the second record
    under that key and two more history entries (exactly two on an empty
    history). *)
Theorem store_one_record_per_key :
  (forall (env : sql_env) df ano br clear (s : store),
     at_most_one_record_per_key (db s) ->
     at_most_one_record_per_key (db (gerenciar_banco to_json env df ano br clear s).2))
  /\ (forall (env1 env2 : sql_env) t1 t2 j1 j2 a b (s : store),
        no_fault env1 -> no_fault env2 ->
        to_json t1 = Ok j1 -> to_json t2 = Ok j2 ->
        let s1 := (gerenciar_banco to_json env1 (Some t1) (Some a) (Some b) false s).2 in
        let out := gerenciar_banco to_json env2 (Some t2) (Some a) (Some b) false s1 in
        out.1 = Ok RetConn
        /\ records_under a b (db out.2) = [written_record env2 (db s1) a b j2]
        /\ history (db out.2)
           = history (db s) ++ [written_entry env1 (db s) a b; written_entry env2 (db s1) a b]
        /\ length (history (db out.2)) = (length (history (db s)) + 2)%nat
        /\ (history (db s) = [] -> length (history (db out.2)) = 2%nat)).
Proof.
  split.
  - intros env df ano br clear s Hinv.
    unfold at_most_one_record_per_key in *.
    destruct (gerenciar_banco_effect env df ano br clear s)
      as [Hr _ _ | _ _ Hd _ | t json a b _ _ _ _ _ _ Hd _].
    + by rewrite Hr.
    + rewrite (records_Some _ _ Hd). constructor.
    + rewrite (records_Some _ _ Hd). by apply unique_keys_upsert.
  - intros env1 env2 t1 t2 j1 j2 a b s Hf1 Hf2 Hj1 Hj2 s1 out.
    subst out s1.
    rewrite (gerenciar_banco_upsert env1 t1 j1 a b s Hf1 Hj1).
    cbn [snd].
    match goal with
    | |- context [gerenciar_banco _ _ _ _ _ _ ?st] => set (s1 := st)
    end.
    rewrite (gerenciar_banco_upsert env2 t2 j2 a b s1 Hf2 Hj2).
    cbn [fst snd db].
    assert (Hr1 : records (db s1)
                  = filter (fun x => same_key a b x = false) (records (db s))
                    ++ [written_record env1 (db s) a b j1]) by reflexivity.
    assert (Hh1 : history (db s1) = history (db s) ++ [written_entry env1 (db s) a b])
      by reflexivity.
    split; [reflexivity|].
    unfold records_under.
    rewrite records_mk, history_mk.
    split; [|split; [|split]].
    + rewrite filter_app, filter_other_keys_under.
      rewrite filter_cons_True by (apply same_key_iff; reflexivity).
      reflexivity.
    + rewrite Hh1, <- app_assoc. reflexivity.
    + rewrite Hh1, !length_app. cbn. lia.
    + intros He. rewrite Hh1, He. reflexivity.
Qed.

(** C6. An upsert applies both of its writes or neither: when it returns,
    the record is replaced and the entry appended; when it raises, the rows
    of both tables are the ones it found. If a call into sqlite3 fails, it
    raises [RuntimeError("Erro no banco de dados")] and the rows of both
    tables are the ones it found. *)
Theorem upsert_atomic (env : sql_env) (t : DataFrame) (ano br : option Z) (s : store) :
  ((exists json a b,
      (gerenciar_banco to_json env (Some t) ano br false s).1 = Ok RetConn
      /\ to_json t = Ok json /\ ano = Some a /\ br = Some b
      /\ records (db (gerenciar_banco to_json env (Some t) ano br false s).2)
         = filter (fun x => same_key a b x = false) (records (db s))
           ++ [written_record env (db s) a b json]
      /\ history (db (gerenciar_banco to_json env (Some t) ano br false s).2)
         = history (db s) ++ [written_entry env (db s) a b])
   \/ (exists e,
         (gerenciar_banco to_json env (Some t) ano br false s).1 = Raise e
         /\ records (db (gerenciar_banco to_json env (Some t) ano br false s).2)
            = records (db s)
         /\ history (db (gerenciar_banco to_json env (Some t) ano br false s).2)
            = history (db s)))
  /\ (forall st m json,
        st ∈ upsert_calls -> sql_fault env st = Some m -> to_json t = Ok json ->
        (gerenciar_banco to_json env (Some t) ano br false s).1
        = Raise (RuntimeError "Erro no banco de dados")
        /\ records (db (gerenciar_banco to_json env (Some t) ano br false s).2)
           = records (db s)
        /\ history (db (gerenciar_banco to_json env (Some t) ano br false s).2)
           = history (db s)).
Proof.
  assert (Hboth_or_neither :
    (exists json a b,
      (gerenciar_banco to_json env (Some t) ano br false s).1 = Ok RetConn
      /\ to_json t = Ok json /\ ano = Some a /\ br = Some b
      /\ records (db (gerenciar_banco to_json env (Some t) ano br false s).2)
         = filter (fun x => same_key a b x = false) (records (db s))
           ++ [written_record env (db s) a b json]
      /\ history (db (gerenciar_banco to_json env (Some t) ano br false s).2)
         = history (db s) ++ [written_entry env (db s) a b])
    \/ (exists e,
         (gerenciar_banco to_json env (Some t) ano br false s).1 = Raise e
         /\ records (db (gerenciar_banco to_json env (Some t) ano br false s).2)
            = records (db s)
         /\ history (db (gerenciar_banco to_json env (Some t) ano br false s).2)
            = history (db s))).
  { destruct (gerenciar_banco_effect env (Some t) ano br false s)
      as [Hr Hh Hcase | Hc _ _ _ | t' json a b _ Ht Hj Ha Hb Hres Hd Hh].
    - right. destruct Hcase as [Hres | [(t' & e & _ & _ & _ & Hres) | (_ & Hdf & _)]];
        [eauto | eauto | discriminate].
    - discriminate.
    - left. injection Ht as <-. exists json, a, b.
      rewrite (records_Some _ _ Hd), (history_Some _ _ Hh). auto 10. }
  split; [exact Hboth_or_neither|].
  intros st m json Hst Hm Hj.
  assert (Hraise : (gerenciar_banco to_json env (Some t) ano br false s).1
                   = Raise (RuntimeError "Erro no banco de dados")).
  { unfold gerenciar_banco.
    destruct (sql_fault env Connect) eqn:Hc; [reflexivity|].
    unfold gerenciar_banco_body, execute_ddl, execute_dml, commit, nbind, check_fault.
    destruct (sql_fault env CreateDados) eqn:H1; [reflexivity|]. cbn.
    destruct (sql_fault env CreateHistorico) eqn:H2; [reflexivity|]. cbn.
    rewrite Hj. cbn.
    destruct (sql_fault env InsertDados) eqn:H3; [reflexivity|]. cbn.
    destruct ano as [a|]; [|reflexivity].
    destruct br as [b|]; [|reflexivity]. cbn.
    destruct (sql_fault env InsertHistorico) eqn:H4; [reflexivity|]. cbn.
    destruct (sql_fault env Commit) eqn:H5; [reflexivity|]. cbn.
    unfold upsert_calls in Hst.
    repeat (apply elem_of_cons in Hst as [->|Hst]; [congruence|]).
    by apply elem_of_nil in Hst. }
  split; [exact Hraise|].
  destruct Hboth_or_neither as [(j' & a & b & Hok & _) | (e & _ & Hr & Hh)].
  - rewrite Hraise in Hok. discriminate.
  - split; assumption.
Qed.

(** C7. A clear empties both tables: no record is left in [dados_dnit], the
    history query returns no entry, and the sidebar shows the placeholder. *)
Theorem clear_all_empties (env : sql_env) df ano br (s : store) :
  no_fault env ->
  (gerenciar_banco to_json env df ano br true s).1 = Ok RetNone
  /\ dados_dnit (db (gerenciar_banco to_json env df ano br true s).2) = Some []
  /\ historico (db (gerenciar_banco to_json env df ano br true s).2) = Some []
  /\ length (records (db (gerenciar_banco to_json env df ano br true s).2)) = 0%nat
  /\ recent_history 10 (history (db (gerenciar_banco to_json env df ano br true s).2)) = []
  /\ exibir_historico None (db (gerenciar_banco to_json env df ano br true s).2)
     = Ok [Subheader "📚 Histórico de Consultas"; Write "Nenhuma consulta recente"].
Proof.
  intros Hf. rewrite (gerenciar_banco_clear env df ano br s Hf).
  repeat split.
Qed.


End StoreProperties.

(** ** Processor *)

Section ProcessorProperties.
Import Processor.
Context {num : Type}.
Variable parse_numeric : string -> option num.

Local Abbreviation to_numeric_cell := (to_numeric_cell parse_numeric).
Local Abbreviation coerced := (coerced parse_numeric).
Local Abbreviation carregar_dados := (carregar_dados parse_numeric).
Local Abbreviation carregar_dados_try := (carregar_dados_try parse_numeric).
Local Abbreviation unparseable := (unparseable parse_numeric).
Local Abbreviation parseable := (parseable parse_numeric).

Lemma has_column_elem (name : string) (df : DataFrame num) :
  has_column name df = true <-> name ∈ columns df.
Proof.
  unfold has_column. rewrite existsb_exists. split.
  - intros (x & Hx & Heq). apply String.eqb_eq in Heq. subst x.
    by apply list_elem_of_In.
  - intros H. exists name. split; [by apply list_elem_of_In | apply String.eqb_refl].
Qed.

Lemma to_numeric_cell_idemp (c : cell num) :
  to_numeric_cell (to_numeric_cell c) = to_numeric_cell c.
Proof.
  destruct c as [v| |s]; cbn; try reflexivity.
  destruct (parse_numeric s); reflexivity.
Qed.

Lemma coerced_lookup_latitude (r : row num) :
  values (coerced r) !! "latitude" = to_numeric_cell <$> values r !! "latitude".
Proof.
  unfold Processor.coerced, coerce_row. cbn [values].
  rewrite lookup_alter_ne by discriminate. apply lookup_alter_eq.
Qed.

Lemma coerced_lookup_longitude (r : row num) :
  values (coerced r) !! "longitude" = to_numeric_cell <$> values r !! "longitude".
Proof.
  unfold Processor.coerced, coerce_row. cbn [values].
  rewrite lookup_alter_eq. by rewrite lookup_alter_ne by discriminate.
Qed.

Lemma coerced_idemp (r : row num) : coerced (coerced r) = coerced r.
Proof.
  unfold Processor.coerced, coerce_row. cbn [values label]. f_equal.
  apply map_eq. intros name.
  rewrite !lookup_alter.
  repeat case_decide; subst; try discriminate;
    destruct (values r !! _) as [c|]; cbn; by rewrite ?to_numeric_cell_idemp.
Qed.

Lemma dropna_all_present (df : DataFrame num) :
  has_column "latitude" df = true -> has_column "longitude" df = true ->
  dropna_all ["latitude"; "longitude"] df
  = Ok {| columns := columns df; rows := filter kept (rows df) |}.
Proof.
  intros Hlat Hlon. unfold dropna_all.
  rewrite !filter_cons, filter_nil.
  rewrite !decide_False by congruence. reflexivity.
Qed.

Lemma dropna_all_absent (df : DataFrame num) :
  has_column "latitude" df && has_column "longitude" df = false ->
  exists absent, dropna_all ["latitude"; "longitude"] df = Raise (KeyError absent).
Proof.
  intros H. unfold dropna_all.
  rewrite !filter_cons, filter_nil.
  destruct (has_column "latitude" df) eqn:Hlat, (has_column "longitude" df) eqn:Hlon;
    try discriminate; repeat case_decide; try congruence; eauto.
Qed.

(** Both coordinate columns present: both are coerced in place, and the
    rows missing both are left out of the returned table. *)
Lemma carregar_dados_both (df : DataFrame num) :
  has_column "latitude" df = true -> has_column "longitude" df = true ->
  carregar_dados df
  = {| value := Ok {| columns := columns df; rows := filter kept (map coerced (rows df)) |};
       argument_after := {| columns := columns df; rows := map coerced (rows df) |};
       logged := [] |}.
Proof.
  intros Hlat Hlon.
  unfold Processor.carregar_dados, Processor.carregar_dados_try, to_numeric_column.
  rewrite Hlat, Hlon. cbn [andb].
  change (has_column "longitude" {| columns := columns df;
                                    rows := map (coerce_row parse_numeric "latitude") (rows df) |})
    with (has_column "longitude" df).
  rewrite Hlon. cbn [rows columns].
  rewrite dropna_all_present by assumption.
  cbn [rows columns]. rewrite map_map. reflexivity.
Qed.

(** A coordinate column absent: [dropna] raises, the handler logs and
    hands the table back as it came. *)
Lemma carregar_dados_not_both (df : DataFrame num) :
  has_column "latitude" df && has_column "longitude" df = false ->
  exists absent,
    carregar_dados_try df = (Raise (KeyError absent), df)
    /\ carregar_dados df
       = {| value := Ok df; argument_after := df;
            logged := ["Erro no processamento: " +:+ exn_str (KeyError absent)] |}.
Proof.
  intros H. destruct (dropna_all_absent df H) as [absent Hd].
  exists absent.
  unfold Processor.carregar_dados, Processor.carregar_dados_try.
  rewrite H, Hd. split; reflexivity.
Qed.


Lemma kept_coerced_iff (r : row num) :
  kept (coerced r) <->
  ~ (isna "latitude" (coerced r) = true /\ isna "longitude" (coerced r) = true).
Proof.
  unfold kept. cbn [forallb]. rewrite andb_true_r.
  destruct (isna "latitude" (coerced r)), (isna "longitude" (coerced r)); cbn; intuition congruence.
Qed.

Lemma isna_coerced_unparseable (name : string) (r : row num) :
  name = "latitude" \/ name = "longitude" ->
  unparseable name r -> isna name (coerced r) = true.
Proof.
  intros Hname Hu. unfold isna, Processor.unparseable in *.
  destruct Hname as [-> | ->];
    rewrite ?coerced_lookup_latitude, ?coerced_lookup_longitude;
    destruct (values r !! _) as [[v| |s]|]; cbn in *;
    try contradiction; try reflexivity; by rewrite Hu.
Qed.

Lemma isna_coerced_parseable (name : string) (r : row num) :
  name = "latitude" \/ name = "longitude" ->
  parseable name r -> isna name (coerced r) = false.
Proof.
  intros Hname Hp. unfold isna, Processor.parseable in *.
  destruct Hname as [-> | ->];
    rewrite ?coerced_lookup_latitude, ?coerced_lookup_longitude;
    destruct (values r !! _) as [[v| |s]|]; cbn in *;
    try contradiction; try reflexivity; by destruct Hp as [v ->].
Qed.

Lemma rectangular_has_column (df : DataFrame num) (r : row num) (name : string) :
  rectangular df -> r ∈ rows df -> is_Some (values r !! name) ->
  has_column name df = true.
Proof.
  intros Hrect Hr Hsome. unfold rectangular in Hrect.
  rewrite Forall_forall in Hrect. specialize (Hrect r Hr).
  apply has_column_elem. apply elem_of_dom in Hsome.
  rewrite Hrect in Hsome. by apply elem_of_list_to_set in Hsome.
Qed.

Lemma unparseable_is_Some (name : string) (r : row num) :
  unparseable name r -> is_Some (values r !! name).
Proof. unfold Processor.unparseable. destruct (values r !! name); [eauto | contradiction]. Qed.

Lemma parseable_is_Some (name : string) (r : row num) :
  parseable name r -> is_Some (values r !! name).
Proof. unfold Processor.parseable. destruct (values r !! name); [eauto | contradiction]. Qed.

Lemma unique_on_list {A B} (f : A -> B) (l : list A) (x y : A) :
  NoDup (map f l) -> x ∈ l -> y ∈ l -> f x = f y -> x = y.
Proof.
  induction l as [|a l IH]; cbn [map].
  - intros _ Hx. by apply elem_of_nil in Hx.
  - rewrite NoDup_cons. intros [Ha Hl] Hx Hy Hf.
    apply elem_of_cons in Hx as [->|Hx]; apply elem_of_cons in Hy as [->|Hy].
    + reflexivity.
    + exfalso. apply Ha. rewrite Hf. apply list_elem_of_fmap. eauto.
    + exfalso. apply Ha. rewrite <- Hf. apply list_elem_of_fmap. eauto.
    + by apply IH.
Qed.

(** What the body does with the rows. In the table the body returns, a row
    of the input whose latitude and longitude both fail to read as numbers
    is gone (no row with its label is left when labels are unique), and a
    row with one of the two readable and the other not is there,
    coerced. *)
Lemma carregar_dados_body_drops_rows (df : DataFrame num) (r : row num) :
  rectangular df -> r ∈ rows df ->
  exists out,
    value (carregar_dados df) = Ok out
    /\ (unparseable "latitude" r -> unparseable "longitude" r ->
        (coerced r ∉ rows out)
        /\ (unique_labels df -> label r ∉ map label (rows out)))
    /\ ((unparseable "latitude" r /\ parseable "longitude" r)
        \/ (parseable "latitude" r /\ unparseable "longitude" r) ->
        coerced r ∈ rows out).
Proof.
  intros Hrect Hr.
  destruct (has_column "latitude" df && has_column "longitude" df) eqn:Hboth.
  - apply andb_true_iff in Hboth as [Hlat Hlon].
    rewrite (carregar_dados_both df Hlat Hlon). cbn [value].
    eexists. split; [reflexivity|]. cbn [rows]. split.
    + intros Hu1 Hu2.
      assert (Hdrop : ~ kept (coerced r)).
      { rewrite kept_coerced_iff. intros Hk. apply Hk.
        split; apply isna_coerced_unparseable; auto. }
      split.
      * rewrite list_elem_of_filter. tauto.
      * intros Huniq Hin.
        apply list_elem_of_fmap in Hin as (r' & Hlab & Hin).
        apply list_elem_of_filter in Hin as [Hk Hin].
        apply list_elem_of_fmap in Hin as (r0 & -> & Hin).
        assert (r0 = r) as ->; [|contradiction].
        apply (unique_on_list label (rows df)); auto.
    + intros Hone. apply list_elem_of_filter. split.
      * apply kept_coerced_iff. intros [H1 H2].
        destruct Hone as [[_ Hp] | [Hp _]].
        -- rewrite isna_coerced_parseable in H2; auto. discriminate.
        -- rewrite isna_coerced_parseable in H1; auto. discriminate.
      * apply list_elem_of_fmap. eauto.
  - destruct (carregar_dados_not_both df Hboth) as (absent & _ & Hc).
    rewrite Hc. cbn [value]. exists df. split; [reflexivity|]. split.
    + intros Hu1 Hu2. exfalso.
      apply unparseable_is_Some in Hu1, Hu2.
      rewrite (rectangular_has_column df r _ Hrect Hr Hu1) in Hboth.
      rewrite (rectangular_has_column df r _ Hrect Hr Hu2) in Hboth.
      discriminate.
    + intros Hone. exfalso.
      assert (is_Some (values r !! "latitude") /\ is_Some (values r !! "longitude"))
        as [H1 H2].
      { destruct Hone as [[Hu Hp] | [Hp Hu]];
          apply unparseable_is_Some in Hu; apply parseable_is_Some in Hp; auto. }
      rewrite (rectangular_has_column df r _ Hrect Hr H1) in Hboth.
      rewrite (rectangular_has_column df r _ Hrect Hr H2) in Hboth.
      discriminate.
Qed.


(** C4. [carregar_dados] always returns a table. When the body of its
    [try] raises, the table returned is the argument, which the body had not
    changed, and one error record was logged. *)
Theorem carregar_dados_never_raises (df : DataFrame num) :
  (exists out, value (carregar_dados df) = Ok out)
  /\ (forall e, (carregar_dados_try df).1 = Raise e ->
        value (carregar_dados df) = Ok df
        /\ argument_after (carregar_dados df) = df
        /\ logged (carregar_dados df) = ["Erro no processamento: " +:+ exn_str e]).
Proof.
  destruct (has_column "latitude" df && has_column "longitude" df) eqn:Hboth.
  - apply andb_true_iff in Hboth as [Hlat Hlon].
    split.
    + rewrite (carregar_dados_both df Hlat Hlon). cbn [value]. eauto.
    + intros e He. exfalso. revert He.
      unfold Processor.carregar_dados_try, to_numeric_column.
      rewrite Hlat, Hlon. cbn [andb].
      change (has_column "longitude"
                {| columns := columns df;
                   rows := map (coerce_row parse_numeric "latitude") (rows df) |})
        with (has_column "longitude" df).
      rewrite Hlon. rewrite dropna_all_present by assumption. discriminate.
  - destruct (carregar_dados_not_both df Hboth) as (absent & Ht & Hc).
    rewrite Hc, Ht. cbn [value argument_after logged fst]. split; [eauto|].
    intros e [= <-]. auto.
Qed.

(** C5. Running [carregar_dados] on the table it returned returns that
    table again. *)
Theorem carregar_dados_idempotent (df : DataFrame num) :
  exists out,
    value (carregar_dados df) = Ok out
    /\ value (carregar_dados out) = Ok out.
Proof.
  destruct (has_column "latitude" df && has_column "longitude" df) eqn:Hboth.
  - apply andb_true_iff in Hboth as [Hlat Hlon].
    rewrite (carregar_dados_both df Hlat Hlon). cbn [value].
    eexists. split; [reflexivity|].
    rewrite carregar_dados_both by exact Hlat || exact Hlon.
    cbn [value rows columns]. do 2 f_equal.
    assert (Hfix : map coerced (filter kept (map coerced (rows df)))
                   = filter kept (map coerced (rows df))).
    { rewrite <- (map_id (filter kept (map coerced (rows df)))) at 2.
      apply map_ext_in. intros x Hx.
      apply list_elem_of_In, list_elem_of_filter in Hx as [_ Hx].
      apply list_elem_of_fmap in Hx as (y & -> & _). apply coerced_idemp. }
    rewrite Hfix.
    rewrite list_filter_filter. apply list_filter_iff. tauto.
  - destruct (carregar_dados_not_both df Hboth) as (absent & _ & Hc).
    exists df. rewrite Hc. cbn [value]. auto.
Qed.

(** What the body does with a single coordinate column: nothing is coerced
    and the table comes back as it was, all rows included. *)
Lemma carregar_dados_body_single_coordinate_column (df : DataFrame num) :
  has_column "latitude" df <> has_column "longitude" df ->
  value (carregar_dados df) = Ok df
  /\ argument_after (carregar_dados df) = df
  /\ (forall out, value (carregar_dados df) = Ok out -> rows out = rows df).
Proof.
  intros Hxor.
  assert (Hboth : has_column "latitude" df && has_column "longitude" df = false).
  { destruct (has_column "latitude" df), (has_column "longitude" df);
      cbn; try reflexivity; exfalso; by apply Hxor. }
  destruct (carregar_dados_not_both df Hboth) as (absent & _ & Hc).
  rewrite Hc. cbn [value argument_after]. repeat split.
  by intros out [= <-].
Qed.

End ProcessorProperties.

(** ** The statements at the sample inputs *)

Lemma sqlite_at_no_fault (ts : string) : no_fault (Samples.sqlite_at ts).
Proof. intros st. reflexivity. Defined.

Lemma store_one_record_per_key_witness :
  length (records_under 2023 101
            (Store.db
               (Store.gerenciar_banco Samples.json_table
                  (Samples.sqlite_at "2023-05-01 10:00:05") (Some "[2]") (Some 2023)
                  (Some 101) false
                  (Store.gerenciar_banco Samples.json_table
                     (Samples.sqlite_at "2023-05-01 10:00:00") (Some "[1]") (Some 2023)
                     (Some 101) false Samples.fresh_store).2).2)) = 1%nat
  /\ length (Store.history
               (Store.db
                  (Store.gerenciar_banco Samples.json_table
                     (Samples.sqlite_at "2023-05-01 10:00:05") (Some "[2]") (Some 2023)
                     (Some 101) false
                     (Store.gerenciar_banco Samples.json_table
                        (Samples.sqlite_at "2023-05-01 10:00:00") (Some "[1]") (Some 2023)
                        (Some 101) false Samples.fresh_store).2).2)) = 2%nat
  /\ at_most_one_record_per_key
       (Store.db
          (Store.gerenciar_banco Samples.json_table
             (Samples.sqlite_at "2023-05-01 10:00:00") (Some "[1]") (Some 2023)
             (Some 101) false Samples.fresh_store).2).
Proof.
  destruct (store_one_record_per_key Samples.json_table) as [Hinv Htwice].
  destruct (Htwice (Samples.sqlite_at "2023-05-01 10:00:00")
                   (Samples.sqlite_at "2023-05-01 10:00:05")
                   "[1]" "[2]" "[1]" "[2]" 2023 101 Samples.fresh_store
                   (sqlite_at_no_fault _) (sqlite_at_no_fault _) eq_refl eq_refl)
    as (_ & Hone & _ & _ & Htwo).
  split; [|split].
  - rewrite Hone. reflexivity.
  - apply Htwo. reflexivity.
  - apply Hinv. unfold at_most_one_record_per_key. cbn. constructor.
Defined.

Lemma upsert_atomic_witness :
  (Store.gerenciar_banco Samples.json_table
     (Samples.sqlite_commit_fails "2023-05-01 10:00:09") (Some "[2]") (Some 2023)
     (Some 101) false
     (Store.gerenciar_banco Samples.json_table
        (Samples.sqlite_at "2023-05-01 10:00:00") (Some "[1]") (Some 2023)
        (Some 101) false Samples.fresh_store).2).1
  = Raise (RuntimeError "Erro no banco de dados")
  /\ Store.records
       (Store.db
          (Store.gerenciar_banco Samples.json_table
             (Samples.sqlite_commit_fails "2023-05-01 10:00:09") (Some "[2]") (Some 2023)
             (Some 101) false
             (Store.gerenciar_banco Samples.json_table
                (Samples.sqlite_at "2023-05-01 10:00:00") (Some "[1]") (Some 2023)
                (Some 101) false Samples.fresh_store).2).2)
     = [ {| Store.d_id := 1; Store.d_ano := 2023; Store.d_br := 101;
            Store.d_dados := "[1]"; Store.d_timestamp := "2023-05-01 10:00:00" |} ].
Proof.
  destruct (upsert_atomic Samples.json_table
              (Samples.sqlite_commit_fails "2023-05-01 10:00:09") "[2]" (Some 2023)
              (Some 101)
              (Store.gerenciar_banco Samples.json_table
                 (Samples.sqlite_at "2023-05-01 10:00:00") (Some "[1]") (Some 2023)
                 (Some 101) false Samples.fresh_store).2) as [_ Hfault].
  destruct (Hfault Store.Commit "disk I/O error" "[2]") as (Hraise & Hrecords & _).
  - unfold upsert_calls. repeat constructor.
  - reflexivity.
  - reflexivity.
  - split; [exact Hraise|]. rewrite Hrecords. reflexivity.
Defined.

Lemma clear_all_empties_witness :
  Store.records
    (Store.db
       (Store.gerenciar_banco Samples.json_table (Samples.sqlite_at "2023-05-01 10:01:00")
          None None None true
          (Store.gerenciar_banco Samples.json_table
             (Samples.sqlite_at "2023-05-01 10:00:00") (Some "[1]") (Some 2023)
             (Some 101) false Samples.fresh_store).2).2) = []
  /\ Store.recent_history 10
       (Store.history
          (Store.db
             (Store.gerenciar_banco Samples.json_table
                (Samples.sqlite_at "2023-05-01 10:01:00") None None None true
                (Store.gerenciar_banco Samples.json_table
                   (Samples.sqlite_at "2023-05-01 10:00:00") (Some "[1]") (Some 2023)
                   (Some 101) false Samples.fresh_store).2).2)) = [].
Proof.
  destruct (clear_all_empties Samples.json_table (Samples.sqlite_at "2023-05-01 10:01:00")
              None None None
              (Store.gerenciar_banco Samples.json_table
                 (Samples.sqlite_at "2023-05-01 10:00:00") (Some "[1]") (Some 2023)
                 (Some 101) false Samples.fresh_store).2
              (sqlite_at_no_fault _))
    as (_ & Hd & _ & _ & Hh & _).
  split; [|exact Hh].
  unfold Store.records. rewrite Hd. reflexivity.
Defined.



Lemma trechos_rectangular : rectangular Samples.trechos.
Proof. unfold rectangular. repeat constructor. Defined.

Lemma carregar_dados_never_raises_witness :
  Processor.value (Processor.carregar_dados Samples.parse_digits Samples.so_latitude)
  = Ok Samples.so_latitude
  /\ Processor.logged (Processor.carregar_dados Samples.parse_digits Samples.so_latitude)
     = ["Erro no processamento: ['longitude']"].
Proof.
  destruct (carregar_dados_never_raises Samples.parse_digits Samples.so_latitude)
    as [_ Hfail].
  destruct (Hfail (KeyError ["longitude"]) eq_refl) as (Hv & _ & Hl).
  split; [exact Hv | exact Hl].
Defined.

(** * Further properties *)

(** ** Paths *)
















Lemma append_cons (c : ascii) (a b : string) : String c a +:+ b = String c (a +:+ b).
Proof. reflexivity. Qed.


Lemma append_nil_r (a : string) : a +:+ "" = a.
Proof. induction a as [|x a IH]; [reflexivity|]. rewrite append_cons. by rewrite IH. Qed.












Lemma normpath_step_empty (b : bool) (acc : list string) : normpath_step b acc "" = acc.
Proof. reflexivity. Qed.







(** ** Frames of the fetcher *)

Section Respects.
Import Fetcher.
Variable R : world -> world -> Prop.
Hypothesis R_refl : forall w, R w w.
Hypothesis R_trans : forall w1 w2 w3, R w1 w2 -> R w2 w3 -> R w1 w3.

Lemma respects_ret {A} (a : A) : respects R (ret a).
Proof. intros w. apply R_refl. Qed.

Lemma respects_raise {A} (e : exn) : respects R (@raise A e).
Proof. intros w. apply R_refl. Qed.

Lemma respects_bind {A B} (m : M A) (k : A -> M B) :
  respects R m -> (forall a, respects R (k a)) -> respects R (bind m k).
Proof.
  intros Hm Hk w. unfold bind. specialize (Hm w).
  destruct (m w) as [[a|e] w1]; cbn in *; [|exact Hm].
  eapply R_trans; [exact Hm | apply Hk].
Qed.

Lemma respects_try_except {A} (m : M A) (h : exn -> M A) :
  respects R m -> (forall e, respects R (h e)) -> respects R (try_except m h).
Proof.
  intros Hm Hh w. unfold try_except. specialize (Hm w).
  destruct (m w) as [[a|e] w1]; cbn in *; [exact Hm|].
  eapply R_trans; [exact Hm | apply Hh].
Qed.

Lemma respects_if {A} (b : bool) (m1 m2 : M A) :
  respects R m1 -> respects R m2 -> respects R (if b then m1 else m2).
Proof. by destruct b. Qed.

End Respects.

Section FetcherMore.
Import Fetcher.
Context {table : Type}.
Variable env : environ table.

Lemma only_grew_refl w : only_grew w w.
Proof. unfold only_grew. repeat split; reflexivity. Qed.

Lemma only_grew_trans w1 w2 w3 : only_grew w1 w2 -> only_grew w2 w3 -> only_grew w1 w3.
Proof.
  unfold only_grew. intros (?&?&?&?) (?&?&?&?).
  repeat split; etrans; eauto.
Qed.



Lemma same_requests_refl w : same_requests w w.
Proof. reflexivity. Qed.

Lemma same_requests_trans w1 w2 w3 :
  same_requests w1 w2 -> same_requests w2 w3 -> same_requests w1 w3.
Proof. unfold same_requests. congruence. Qed.

(** The primitives, one relation at a time. *)

Lemma logging_only_grew l msg : respects only_grew (logging l msg).
Proof.
  intros w. unfold only_grew. cbn. repeat split; try reflexivity.
  by apply prefix_app_r.
Qed.

Lemma os_makedirs_only_grew p : respects only_grew (os_makedirs env p).
Proof.
  intros w. unfold os_makedirs.
  destruct (makedirs_answer env p); try apply only_grew_refl.
  unfold only_grew. cbn. repeat split; try reflexivity. set_solver.
Qed.

Lemma requests_get_only_grew url : respects only_grew (requests_get env url).
Proof.
  intros w. unfold requests_get.
  destruct (http_get env url); unfold only_grew; cbn; repeat split; try reflexivity;
    by apply prefix_app_r.
Qed.

Lemma write_file_only_grew p bytes : respects only_grew (write_file env p bytes).
Proof.
  intros w. unfold write_file.
  destruct (open_write_answer env p); [apply only_grew_refl|].
  unfold only_grew. cbn. repeat split; try reflexivity.
  rewrite dom_insert. set_solver.
Qed.

Lemma pd_read_csv_same p w : (pd_read_csv env p w).2 = w.
Proof.
  unfold pd_read_csv. destruct (fs_files w !! p); [|reflexivity].
  destruct (read_csv env s); reflexivity.
Qed.

Lemma zip_open_same bytes w : (zip_open env bytes w).2 = w.
Proof. unfold zip_open. destruct (unzip env bytes); reflexivity. Qed.


Lemma zip_extract_only_grew members name dir :
  respects only_grew (zip_extract env members name dir).
Proof.
  unfold zip_extract. destruct (getinfo members name) as [m|].
  2:{ intros w. apply only_grew_refl. }
  apply respects_bind; [exact only_grew_trans | | intros _].
  - intros w. destruct (_ && _); [apply os_makedirs_only_grew | apply only_grew_refl].
  - destruct (match last_char m.1 with Some _ => _ | None => _ end).
    + intros w. destruct (bool_decide _); [apply only_grew_refl | apply os_makedirs_only_grew].
    + apply write_file_only_grew.
Qed.

Lemma same_respects {A} (R : world -> world -> Prop) (m : M A) :
  (forall w, R w w) -> (forall w, (m w).2 = w) -> respects R m.
Proof. intros Hrefl Hm w. rewrite Hm. apply Hrefl. Qed.

Ltac frame_step refl trans prim :=
  lazymatch goal with
  | |- respects _ (try_except _ _) =>
      apply respects_try_except; [exact trans | | intros ?]
  | |- respects _ (bind _ _) =>
      apply respects_bind; [exact trans | | intros ?]
  | |- respects _ (ret _) => apply respects_ret; exact refl
  | |- respects _ (raise _) => apply respects_raise; exact refl
  | |- respects _ (raise_for_status _) => unfold raise_for_status
  | |- respects _ (zip_open _ _) => apply same_respects; [exact refl | apply zip_open_same]
  | |- respects _ (pd_read_csv _ _) =>
      apply same_respects; [exact refl | apply pd_read_csv_same]
  | |- respects _ (if ?b then _ else _) => destruct b eqn:?
  | |- respects _ (match ?e with _ => _ end) =>
      destruct e eqn:?; cbn [is_OSError is_ValueError]
  | |- _ => prim
  end.

(** X1. Whatever the libraries answer, a call takes nothing away: every
    directory, file, request and log record of before is still there. *)
Theorem baixar_dados_dnit_only_grows (ano br : pyval) (caminho_base : string) (w : world) :
  only_grew w (baixar_dados_dnit env ano br caminho_base w).2.
Proof.
  revert w. change (respects only_grew (baixar_dados_dnit env ano br caminho_base)).
  unfold baixar_dados_dnit. cbv zeta.
  repeat frame_step only_grew_refl only_grew_trans
    ltac:(first [ apply logging_only_grew | apply os_makedirs_only_grew
                | apply requests_get_only_grew | apply write_file_only_grew
                | apply zip_extract_only_grew ]).
Qed.











(** Requests. *)

Lemma logging_same_requests l msg : respects same_requests (logging l msg).
Proof. intros w. reflexivity. Qed.

Lemma os_makedirs_same_requests p : respects same_requests (os_makedirs env p).
Proof. intros w. unfold os_makedirs. by destruct (makedirs_answer env p). Qed.

Lemma write_file_same_requests p bytes : respects same_requests (write_file env p bytes).
Proof. intros w. unfold write_file. by destruct (open_write_answer env p). Qed.

Lemma zip_extract_same_requests members name dir :
  respects same_requests (zip_extract env members name dir).
Proof.
  unfold zip_extract. destruct (getinfo members name) as [m|].
  2:{ intros w. reflexivity. }
  apply respects_bind; [exact same_requests_trans | | intros _].
  - intros w. destruct (_ && _); [apply os_makedirs_same_requests | reflexivity].
  - destruct (match last_char m.1 with Some _ => _ | None => _ end).
    + intros w. destruct (bool_decide _); [reflexivity | apply os_makedirs_same_requests].
    + apply write_file_same_requests.
Qed.

Ltac same_requests_prim :=
  first [ apply logging_same_requests | apply os_makedirs_same_requests
        | apply write_file_same_requests | apply zip_extract_same_requests ].

Ltac quiet := repeat frame_step same_requests_refl same_requests_trans same_requests_prim.

Lemma one_request_bind_quiet {A B} url (m : M A) (k : A -> M B) :
  respects same_requests m -> (forall a, one_request url (k a)) ->
  one_request url (bind m k).
Proof.
  intros Hm Hk w. unfold bind. specialize (Hm w). unfold same_requests in Hm.
  destruct (m w) as [[a|e] w1]; cbn in *; [|by left].
  rewrite <- Hm. apply Hk.
Qed.

Lemma one_request_then_quiet {A B} url (m : M A) (k : A -> M B) :
  one_request url m -> (forall a, respects same_requests (k a)) ->
  one_request url (bind m k).
Proof.
  intros Hm Hk w. unfold bind. specialize (Hm w).
  destruct (m w) as [[a|e] w1]; cbn in *; [|exact Hm].
  specialize (Hk a w1). unfold same_requests in Hk. by rewrite Hk.
Qed.

Lemma one_request_try_quiet {A} url (m : M A) (h : exn -> M A) :
  one_request url m -> (forall e, respects same_requests (h e)) ->
  one_request url (try_except m h).
Proof.
  intros Hm Hh w. unfold try_except. specialize (Hm w).
  destruct (m w) as [[a|e] w1]; cbn in *; [exact Hm|].
  specialize (Hh e w1). unfold same_requests in Hh. by rewrite Hh.
Qed.

Lemma requests_get_one_request url : one_request url (requests_get env url).
Proof. intros w. right. unfold requests_get. by destruct (http_get env url). Qed.

(** X3. A call sends at most one request, and only to the address made of
    the year and the road number. *)
Theorem baixar_dados_dnit_at_most_one_request
    (ano br : pyval) (caminho_base : string) (w : world) :
  net_calls (baixar_dados_dnit env ano br caminho_base w).2 = net_calls w
  \/ net_calls (baixar_dados_dnit env ano br caminho_base w).2
     = net_calls w ++ [url_dnit ano br].
Proof.
  revert w. change (one_request (url_dnit ano br) (baixar_dados_dnit env ano br caminho_base)).
  unfold baixar_dados_dnit. cbv zeta.
  apply one_request_try_quiet; [|intros e; quiet].
  apply one_request_bind_quiet; [quiet | intros _].
  apply one_request_bind_quiet; [quiet | intros _].
  apply one_request_bind_quiet; [quiet | intros _].
  apply one_request_then_quiet; [|intros resp; quiet].
  apply one_request_try_quiet; [|intros e; quiet].
  apply one_request_then_quiet; [apply requests_get_one_request | intros r; quiet].
Qed.

Lemma try_except_log_reraise {A} (m : M A) (l : level) (msg : string) (w : world) (e : exn) :
  (try_except m (fun e' => bind (logging l msg) (fun _ => raise e')) w).1 = Raise e ->
  (exists w1, m w = (Raise e, w1))
  /\ exists earlier,
      log (try_except m (fun e' => bind (logging l msg) (fun _ => raise e')) w).2
      = earlier ++ [(l, msg)].
Proof.
  unfold try_except. destruct (m w) as [[a|e'] w1]; cbn; [discriminate|].
  intros [= ->]. eauto.
Qed.

(** X4. Whenever a call fails, the exception that escapes was logged by the
    outer handler: the last log record is the error record of line 115. *)
Theorem baixar_dados_dnit_failure_logged
    (ano br : pyval) (caminho_base : string) (w : world) (e : exn) :
  (baixar_dados_dnit env ano br caminho_base w).1 = Raise e ->
  exists earlier,
    log (baixar_dados_dnit env ano br caminho_base w).2
    = earlier ++ [(ERROR, "Erro não tratado durante a execução:")].
Proof.
  unfold baixar_dados_dnit. intros H.
  by apply try_except_log_reraise in H as [_ H].
Qed.

(** ** Paths through the fetcher *)

Ltac start :=
  unfold inputs_accepted, directories_made, zip_response,
    caminho_zip_completo, caminho_zip, caminho_csv, caminho_br, url_dnit in *;
  unfold baixar_dados_dnit, try_except, bind.

Ltac go := cbn -[path_join str_contains endswith insert lookup].

(** X5. When a directory of the query cannot be made, the call fails with
    [RuntimeError] before any request is sent, and no file is written. *)
Theorem baixar_dados_dnit_makedirs_failure
    (ano br : pyval) (caminho_base : string) (w : world) (o : makedirs_outcome) :
  inputs_accepted env ano br ->
  o <> MkOk ->
  makedirs_answer env (caminho_zip caminho_base ano br) = o
  \/ (makedirs_answer env (caminho_zip caminho_base ano br) = MkOk
      /\ makedirs_answer env (caminho_csv caminho_base ano br) = o) ->
  (baixar_dados_dnit env ano br caminho_base w).1 = Raise (RuntimeError (makedirs_message o))
  /\ net_calls (baixar_dados_dnit env ano br caminho_base w).2 = net_calls w
  /\ fs_files (baixar_dados_dnit env ano br caminho_base w).2 = fs_files w.
Proof.
  intros [Hano Hbr] Ho Hmk. start. rewrite Hano, Hbr. go.
  unfold os_makedirs.
  destruct Hmk as [Hzip | [Hzip Hcsv]].
  - rewrite Hzip. destruct o; [congruence| |]; go; auto.
  - rewrite Hzip. go. rewrite Hcsv. destruct o; [congruence| |]; go; auto.
Qed.

(** A timeout or a transport failure of the one request becomes a
    [RuntimeError]; no file is written. *)
Lemma baixar_dados_dnit_transport_failure
    (ano br : pyval) (caminho_base : string) (w : world) :
  inputs_accepted env ano br ->
  directories_made env caminho_base ano br ->
  http_get env (url_dnit ano br) = HttpTimeout
  \/ http_get env (url_dnit ano br) = HttpFailure ->
  (baixar_dados_dnit env ano br caminho_base w).1
  = Raise (RuntimeError
             (match http_get env (url_dnit ano br) with
              | HttpTimeout => "Conexão com o servidor demorou muito."
              | _ => "Falha na conexão com a internet."
              end))
  /\ net_calls (baixar_dados_dnit env ano br caminho_base w).2
     = net_calls w ++ [url_dnit ano br]
  /\ fs_files (baixar_dados_dnit env ano br caminho_base w).2 = fs_files w.
Proof.
  intros [Hano Hbr] [Hzip Hcsv] Hget. start. rewrite Hano, Hbr. go.
  unfold os_makedirs. rewrite Hzip. go. rewrite Hcsv. go.
  unfold requests_get.
  destruct Hget as [Hget | Hget]; rewrite Hget; go; auto.
Qed.


Ltac upto_request Hano Hbr Hzip Hcsv Hget :=
  start; rewrite Hano, Hbr; go;
  unfold os_makedirs; rewrite Hzip; go; rewrite Hcsv; go;
  unfold requests_get; rewrite Hget; go; unfold raise_for_status.

(** X6. An error status other than 404 escapes as the [HTTPError] of
    [raise_for_status], not as one of the module's own errors; no file is
    written. *)
Theorem baixar_dados_dnit_http_error
    (ano br : pyval) (caminho_base : string) (w : world) (r : response) :
  inputs_accepted env ano br ->
  directories_made env caminho_base ano br ->
  http_get env (url_dnit ano br) = HttpResponse r ->
  400 <= status_code r < 600 -> status_code r <> 404 ->
  (baixar_dados_dnit env ano br caminho_base w).1 = Raise (HTTPError (status_code r))
  /\ fs_files (baixar_dados_dnit env ano br caminho_base w).2 = fs_files w.
Proof.
  intros [Hano Hbr] [Hzip Hcsv] Hget Hst H404.
  upto_request Hano Hbr Hzip Hcsv Hget.
  replace ((400 <=? status_code r) && (status_code r <? 600)) with true
    by (symmetry; apply andb_true_intro; split; lia).
  go. replace (status_code r =? 404) with false by (symmetry; by apply Z.eqb_neq).
  go. auto.
Qed.

(** An answer that is no error but does not declare a ZIP content type
    makes the call fail with [ValueError], which no handler of the function
    turns into one of its own errors; no file is written. *)
Lemma baixar_dados_dnit_not_a_zip
    (ano br : pyval) (caminho_base : string) (w : world) (r : response) :
  inputs_accepted env ano br ->
  directories_made env caminho_base ano br ->
  http_get env (url_dnit ano br) = HttpResponse r ->
  (400 <=? status_code r) && (status_code r <? 600) = false ->
  str_contains "application/zip" (default "" (content_type r)) = false ->
  (baixar_dados_dnit env ano br caminho_base w).1
  = Raise (ValueError "O conteúdo baixado não é um arquivo ZIP válido.")
  /\ fs_files (baixar_dados_dnit env ano br caminho_base w).2 = fs_files w
  /\ net_calls (baixar_dados_dnit env ano br caminho_base w).2
     = net_calls w ++ [url_dnit ano br].
Proof.
  intros [Hano Hbr] [Hzip Hcsv] Hget Hst Hct.
  upto_request Hano Hbr Hzip Hcsv Hget.
  rewrite Hst. go. rewrite Hct. go. auto.
Qed.

Ltac upto_write Hano Hbr Hzip Hcsv Hget Hst Hct :=
  upto_request Hano Hbr Hzip Hcsv Hget;
  rewrite Hst; go; rewrite Hct; go; unfold write_file.

(** When the archive cannot be written, the call fails with
    [RuntimeError] and the files are as they were. *)
Lemma baixar_dados_dnit_write_failure
    (ano br : pyval) (caminho_base : string) (w : world) (r : response) (m : string) :
  inputs_accepted env ano br ->
  directories_made env caminho_base ano br ->
  http_get env (url_dnit ano br) = HttpResponse r ->
  zip_response r ->
  open_write_answer env (caminho_zip_completo caminho_base ano br) = Some m ->
  (baixar_dados_dnit env ano br caminho_base w).1
  = Raise (RuntimeError "Erro ao salvar arquivo no computador.")
  /\ fs_files (baixar_dados_dnit env ano br caminho_base w).2 = fs_files w.
Proof.
  intros [Hano Hbr] [Hzip Hcsv] Hget [Hst Hct] Hw.
  upto_write Hano Hbr Hzip Hcsv Hget Hst Hct.
  rewrite Hw. go. auto.
Qed.

(** X7. An answer that is no archive, or an archive without members, makes
    the call fail with [RuntimeError]; the bytes received are on disk at
    the archive path by then, and nothing else was written. *)
Theorem baixar_dados_dnit_corrupt_archive
    (ano br : pyval) (caminho_base : string) (w : world) (r : response) :
  inputs_accepted env ano br ->
  directories_made env caminho_base ano br ->
  http_get env (url_dnit ano br) = HttpResponse r ->
  zip_response r ->
  open_write_answer env (caminho_zip_completo caminho_base ano br) = None ->
  unzip env (content r) = None \/ unzip env (content r) = Some [] ->
  (baixar_dados_dnit env ano br caminho_base w).1
  = Raise (RuntimeError "Arquivo baixado está corrompido.")
  /\ fs_files (baixar_dados_dnit env ano br caminho_base w).2
     = <[caminho_zip_completo caminho_base ano br := content r]> (fs_files w).
Proof.
  intros [Hano Hbr] [Hzip Hcsv] Hget [Hst Hct] Hw Hz.
  upto_write Hano Hbr Hzip Hcsv Hget Hst Hct.
  rewrite Hw. go. unfold zip_open.
  destruct Hz as [Hz | Hz]; rewrite Hz; go; auto.
Qed.

(** X8. An archive with members none of which ends in [.csv] makes the call
    fail with [RuntimeError]; the archive is on disk and nothing was
    extracted. *)
Theorem baixar_dados_dnit_no_csv
    (ano br : pyval) (caminho_base : string) (w : world) (r : response)
    (members : list (string * string)) :
  inputs_accepted env ano br ->
  directories_made env caminho_base ano br ->
  http_get env (url_dnit ano br) = HttpResponse r ->
  zip_response r ->
  open_write_answer env (caminho_zip_completo caminho_base ano br) = None ->
  unzip env (content r) = Some members -> members <> [] ->
  filter (fun f => endswith f ".csv" = true) (map fst members) = [] ->
  (baixar_dados_dnit env ano br caminho_base w).1
  = Raise (RuntimeError "Formato inesperado do arquivo ZIP.")
  /\ fs_files (baixar_dados_dnit env ano br caminho_base w).2
     = <[caminho_zip_completo caminho_base ano br := content r]> (fs_files w).
Proof.
  intros [Hano Hbr] [Hzip Hcsv] Hget [Hst Hct] Hw Hz Hne Hf.
  upto_write Hano Hbr Hzip Hcsv Hget Hst Hct.
  rewrite Hw. go. unfold zip_open. rewrite Hz. go.
  rewrite bool_decide_eq_false_2 by exact Hne. go.
  rewrite Hf. go. auto.
Qed.

(** An archive that lists one name twice: the later member is the one
    extracted, under the first name that ends in [.csv]. *)
Example first_csv_repeated_name :
  first_csv [("b.txt", "PNCT"); ("a.csv", "uf"); ("c.csv", "br"); ("a.csv", "uf;br")]
  = Some ("a.csv", "uf;br").
Proof. reflexivity. Qed.






Lemma four_digits_from_spec (n : nat) :
  forall z, four_digits_from n z = true ->
            forall k, z <= k < z + Z.of_nat n -> String.length (str_of_Z k) = 4%nat.
Proof.
  induction n as [|n IH]; intros z H k Hk; [lia|].
  cbn [four_digits_from] in H. apply andb_true_iff in H as [Hz Hrest].
  destruct (Z.eq_dec k z) as [->|Hne].
  - by apply Nat.eqb_eq.
  - apply (IH (z + 1) Hrest). lia.
Qed.

Lemma str_of_Z_four_digits (y : Z) :
  1000 <= y <= 9999 -> String.length (str_of_Z y) = 4%nat.
Proof.
  intros Hy.
  apply (four_digits_from_spec (Z.to_nat 9000) 1000); [vm_compute; reflexivity | lia].
Qed.

Lemma bind_run {A B} (m : M A) (k : A -> M B) (w w1 : world) (a : A) :
  m w = (Ok a, w1) -> bind m k w = k a w1.
Proof. unfold bind. by intros ->. Qed.

Lemma try_except_same_requests {A} (m : M A) (h : exn -> M A) (w : world) :
  (forall e, respects same_requests (h e)) ->
  net_calls (try_except m h w).2 = net_calls (m w).2.
Proof.
  intros Hh. unfold try_except. destruct (m w) as [[a|e] w1]; [reflexivity|].
  apply Hh.
Qed.

Lemma bind_same_requests {A B} (m : M A) (k : A -> M B) (w : world) :
  (forall a, respects same_requests (k a)) ->
  net_calls (bind m k w).2 = net_calls (m w).2.
Proof.
  intros Hk. unfold bind. destruct (m w) as [[a|e] w1]; [|reflexivity].
  apply Hk.
Qed.

(** X10. An integer year of [2000, current year] (a year of four digits) and
    an integer road number of [1, 999] pass the checks of lines 22-26; when
    the directories can be made, the request is sent, to the address made
    of the two numbers. *)
Theorem baixar_dados_dnit_valid_input_reaches_server
    (y b : Z) (caminho_base : string) (w : world) :
  2000 <= y <= current_year env -> current_year env <= 9999 -> 1 <= b <= 999 ->
  inputs_accepted env (PyInt y) (PyInt b)
  /\ (directories_made env caminho_base (PyInt y) (PyInt b) ->
      net_calls (baixar_dados_dnit env (PyInt y) (PyInt b) caminho_base w).2
      = net_calls w
        ++ ["https://servicos.dnit.gov.br/dadospnct/arquivos/pnct_" +:+ str_of_Z y
            +:+ "_" +:+ str_of_Z b +:+ ".zip"]).
Proof.
  intros Hy Hcy Hb.
  assert (Hacc : inputs_accepted env (PyInt y) (PyInt b)).
  { split.
    - unfold ano_invalido. cbn [as_int py_str].
      rewrite str_of_Z_four_digits by lia. cbn.
      apply orb_false_intro; [apply Z.ltb_ge; lia|].
      destruct (Z.gtb_spec y (current_year env)); [lia | reflexivity].
    - unfold br_invalida. cbn [as_int].
      apply orb_false_intro; [apply Z.leb_gt; lia|].
      destruct (Z.gtb_spec b 999); [lia | reflexivity]. }
  split; [exact Hacc|].
  intros [Hzip Hcsv]. destruct Hacc as [Hano Hbr].
  unfold caminho_zip, caminho_csv, caminho_br in *.
  unfold baixar_dados_dnit. cbv zeta.
  rewrite try_except_same_requests by (intros e; quiet).
  erewrite bind_run by (rewrite Hano; reflexivity).
  erewrite bind_run by (rewrite Hbr; reflexivity).
  erewrite bind_run.
  2:{ unfold try_except, bind, os_makedirs. rewrite Hzip, Hcsv. reflexivity. }
  rewrite bind_same_requests by (intros resp; quiet).
  rewrite try_except_same_requests by (intros e; quiet).
  rewrite bind_same_requests by (intros r; quiet).
  unfold requests_get. cbn [py_str].
  destruct (http_get env _); reflexivity.
Qed.

End FetcherMore.

(** ** The command line *)

Section CliProperties.
Import Fetcher Cli.
Context {table : Type}.
Variable env : environ table.
Variable py_int : string -> option Z.
Variable py_repr : string -> string.
Variable head_text : table -> string.

Local Abbreviation main := (main env py_int py_repr head_text).

(** X11. A line that is no number, a year outside [2000, current year] or
    a road number outside [1, 999] ends the run with the report of a wrong
    input; nothing was requested from the server, and the disk is as it
    was. *)
Theorem main_wrong_input (ano_typed br_typed : string) (w : world) :
  match py_int ano_typed, py_int br_typed with
  | Some a, Some b =>
      int_between 2000 (current_year env) (PyInt a) = false
      \/ int_between 1 999 (PyInt b) = false
  | _, _ => True
  end ->
  input_error_reported (main ano_typed br_typed w).2
  /\ net_calls (main ano_typed br_typed w).1 = net_calls w
  /\ fs_dirs (main ano_typed br_typed w).1 = fs_dirs w
  /\ fs_files (main ano_typed br_typed w).1 = fs_files w.
Proof.
  unfold Cli.main, main_try, int_of_input, input_error_reported.
  destruct (py_int ano_typed) as [a|]; cbn -[int_between].
  2:{ intros _. split; [|auto]. eexists [_; _], _. reflexivity. }
  destruct (py_int br_typed) as [b|]; cbn -[int_between].
  2:{ intros _. split; [|auto]. eexists [_; _; _], _. reflexivity. }
  intros Hout.
  unfold baixar_dados_dnit, try_except, bind.
  destruct (ano_invalido env (PyInt a)) eqn:Hano.
  - cbn. split; [|auto]. eexists [_; _; _], _. reflexivity.
  - destruct (br_invalida (PyInt b)) eqn:Hbr.
    + cbn. split; [|auto]. eexists [_; _; _], _. reflexivity.
    + apply ano_valido_in_range in Hano. apply br_valida_in_range in Hbr.
      destruct Hout; congruence.
Qed.

(** X12. The report of a wrong input does not tell that the input was
    wrong: for a year and a road number that pass the checks, a server that
    answers without an error status and without a ZIP content type gets the
    same report, after the request was sent. *)
Theorem main_not_a_zip_reported_as_input (ano_typed br_typed : string) (a b : Z)
    (w : world) (r : response) :
  py_int ano_typed = Some a -> py_int br_typed = Some b ->
  inputs_accepted env (PyInt a) (PyInt b) ->
  directories_made env "data/raw" (PyInt a) (PyInt b) ->
  http_get env (url_dnit (PyInt a) (PyInt b)) = HttpResponse r ->
  (400 <=? status_code r) && (status_code r <? 600) = false ->
  str_contains "application/zip" (default "" (content_type r)) = false ->
  (main ano_typed br_typed w).2
  = [Printed "=== Coletor de Dados DNIT ===";
     Asked "Digite o ano (ex: 2023): ";
     Asked "Digite o número da BR (ex: 101): ";
     Printed "
❌ Erro de entrada: O conteúdo baixado não é um arquivo ZIP válido.";
     Printed "
Operação finalizada."]
  /\ net_calls (main ano_typed br_typed w).1 = net_calls w ++ [url_dnit (PyInt a) (PyInt b)]
  /\ fs_files (main ano_typed br_typed w).1 = fs_files w.
Proof.
  intros Ha Hb Hacc Hdirs Hget Hst Hct.
  destruct (baixar_dados_dnit_not_a_zip env (PyInt a) (PyInt b) "data/raw" w r
              Hacc Hdirs Hget Hst Hct) as (Hres & Hfiles & Hnet).
  unfold Cli.main, main_try, int_of_input. rewrite Ha, Hb.
  destruct (baixar_dados_dnit env (PyInt a) (PyInt b) "data/raw" w) as [res w'].
  cbn in Hres, Hnet, Hfiles. subst res. cbn. auto.
Qed.

End CliProperties.

(** ** More of the store *)

Section StoreMore.
Import Store.
Context {DataFrame : Type}.
Variable to_json : DataFrame -> result string.

(** The file a call leaves is one of five. *)
Lemma gerenciar_banco_db_cases (env : sql_env) df ano br clear (s : store) :
  let d' := db (gerenciar_banco to_json env df ano br clear s).2 in
  d' = db s
  \/ d' = create_dados (db s)
  \/ d' = create_historico (create_dados (db s))
  \/ (clear = true /\ d' = cleared (db s))
  \/ (clear = false /\ exists t json a b,
        df = Some t /\ to_json t = Ok json /\ ano = Some a /\ br = Some b
        /\ d' = upserted env (db s) a b json).
Proof.
  unfold gerenciar_banco.
  destruct (sql_fault env Connect) eqn:Hc; cbn; [auto|].
  unfold gerenciar_banco_body, execute_ddl, execute_dml, commit, nbind, check_fault.
  destruct (sql_fault env CreateDados) eqn:H1; cbn; [auto|].
  destruct (sql_fault env CreateHistorico) eqn:H2; cbn; [auto|].
  destruct clear.
  - destruct (sql_fault env DeleteDados) eqn:H3; cbn; [auto|].
    destruct (sql_fault env DeleteHistorico) eqn:H4; cbn; [auto|].
    destruct (sql_fault env Commit) eqn:H5; cbn; [auto|].
    right. right. right. left. auto.
  - destruct df as [t|]; cbn; [|auto].
    destruct (to_json t) as [json|e] eqn:Hj; cbn.
    2:{ destruct (is_sqlite_error e); cbn; auto. }
    destruct (sql_fault env InsertDados) eqn:H3; cbn; [auto|].
    destruct ano as [a|]; cbn; [|auto].
    destruct br as [b|]; cbn; [|auto].
    destruct (sql_fault env InsertHistorico) eqn:H4; cbn; [auto|].
    destruct (sql_fault env Commit) eqn:H5; cbn; [auto|].
    right. right. right. right. split; [reflexivity|].
    exists t, json, a, b. auto.
Qed.


(** X13. A clear is all or nothing: it returns with both tables empty, or it
    raises [RuntimeError] and the rows of both tables are the ones it
    found; a failure between the two DELETEs does not leave one table
    emptied. *)
Theorem gerenciar_banco_clear_atomic (env : sql_env) df ano br (s : store) :
  ((gerenciar_banco to_json env df ano br true s).1 = Ok RetNone
   /\ records (db (gerenciar_banco to_json env df ano br true s).2) = []
   /\ history (db (gerenciar_banco to_json env df ano br true s).2) = [])
  \/ ((gerenciar_banco to_json env df ano br true s).1
      = Raise (RuntimeError "Erro no banco de dados")
      /\ records (db (gerenciar_banco to_json env df ano br true s).2) = records (db s)
      /\ history (db (gerenciar_banco to_json env df ano br true s).2) = history (db s)).
Proof.
  destruct (gerenciar_banco_effect to_json env df ano br true s)
    as [Hr Hh Hcase | _ Hres Hd Hh | ? ? ? ? Hc].
  - right. destruct Hcase as [Hres | [(t & e & _ & _ & Hc & _) | (_ & _ & Hc)]];
      [auto | discriminate | discriminate].
  - left. rewrite (records_Some _ _ Hd), (history_Some _ _ Hh). auto.
  - discriminate.
Qed.

Lemma filter_key_other (a b a' b' : Z) (l : list dados_row) :
  (a', b') <> (a, b) ->
  filter (fun r => same_key a' b' r = true) (filter (fun r => same_key a b r = false) l)
  = filter (fun r => same_key a' b' r = true) l.
Proof.
  intros Hne. rewrite list_filter_filter. apply list_filter_iff. intros r.
  split; [tauto|]. intros Hr. split; [exact Hr|].
  apply same_key_iff in Hr.
  destruct (same_key a b r) eqn:Hk; [|reflexivity].
  apply same_key_iff in Hk. congruence.
Qed.

(** X14. What an upsert that returns leaves under its key is the record just
    written, holding the JSON of the table given; the records under every
    other key are the ones that were there. *)
Theorem gerenciar_banco_upsert_lookup (env : sql_env) (t : DataFrame) (a b : Z) (s : store) :
  (gerenciar_banco to_json env (Some t) (Some a) (Some b) false s).1 = Ok RetConn ->
  exists json,
    to_json t = Ok json
    /\ records_under a b (db (gerenciar_banco to_json env (Some t) (Some a) (Some b) false s).2)
       = [written_record env (db s) a b json]
    /\ forall a' b', (a', b') <> (a, b) ->
         records_under a' b'
           (db (gerenciar_banco to_json env (Some t) (Some a) (Some b) false s).2)
         = records_under a' b' (db s).
Proof.
  intros Hok.
  destruct (gerenciar_banco_effect to_json env (Some t) (Some a) (Some b) false s)
    as [_ _ Hcase | Hc | t' json a0 b0 _ Ht Hj Ha Hb _ Hd _].
  - rewrite Hok in Hcase.
    destruct Hcase as [? | [(? & ? & _ & _ & _ & ?) | (_ & ? & _)]]; discriminate.
  - discriminate.
  - injection Ht as <-. injection Ha as <-. injection Hb as <-.
    exists json. split; [exact Hj|].
    unfold records_under. rewrite (records_Some _ _ Hd). split.
    + rewrite filter_app, filter_other_keys_under.
      rewrite filter_cons_True by (apply same_key_iff; reflexivity). reflexivity.
    + intros a' b' Hne. rewrite filter_app, filter_key_other by exact Hne.
      rewrite filter_cons_False, filter_nil, app_nil_r; [reflexivity|].
      intros Hk. apply same_key_iff in Hk. unfold key_of, written_record in Hk.
      cbn in Hk. congruence.
Qed.

(** X15. Without [clear], no call removes anything but the record it
    replaces: the history it found is a prefix of the history it leaves
    (one entry longer at most), and every key that had a record still has
    one. *)
Theorem gerenciar_banco_keeps_history_and_keys (env : sql_env) df ano br (s : store) :
  history (db s) `prefix_of` history (db (gerenciar_banco to_json env df ano br false s).2)
  /\ (length (history (db (gerenciar_banco to_json env df ano br false s).2))
      <= S (length (history (db s))))%nat
  /\ forall k, k ∈ map key_of (records (db s)) ->
               k ∈ map key_of (records (db (gerenciar_banco to_json env df ano br false s).2)).
Proof.
  destruct (gerenciar_banco_effect to_json env df ano br false s)
    as [Hr Hh _ | Hc | t json a b _ _ _ _ _ _ Hd Hh].
  - rewrite Hr, Hh. split; [reflexivity|]. split; [lia | auto].
  - discriminate.
  - rewrite (records_Some _ _ Hd), (history_Some _ _ Hh).
    split; [by apply prefix_app_r|]. split; [rewrite length_app; cbn; lia|].
    intros k Hk. apply list_elem_of_fmap in Hk as (r & -> & Hr).
    rewrite map_app. apply elem_of_app.
    destruct (same_key a b r) eqn:Hkey.
    + right. apply same_key_iff in Hkey. rewrite Hkey. cbn. apply list_elem_of_here.
    + left. apply list_elem_of_fmap. exists r. split; [reflexivity|].
      by apply list_elem_of_filter.
Qed.

(** X16. An upsert without a year or without a road number stores nothing:
    the NOT NULL constraint fails, the call raises [RuntimeError], and one
    error is logged. *)
Theorem gerenciar_banco_null_key (env : sql_env) (t : DataFrame) (json : string)
    ano br (s : store) :
  to_json t = Ok json ->
  ano = None \/ br = None ->
  (gerenciar_banco to_json env (Some t) ano br false s).1
  = Raise (RuntimeError "Erro no banco de dados")
  /\ records (db (gerenciar_banco to_json env (Some t) ano br false s).2) = records (db s)
  /\ history (db (gerenciar_banco to_json env (Some t) ano br false s).2) = history (db s)
  /\ length (errors_logged (gerenciar_banco to_json env (Some t) ano br false s).2)
     = S (length (errors_logged s)).
Proof.
  intros Hj Hnull.
  unfold gerenciar_banco.
  destruct (sql_fault env Connect) eqn:Hc; cbn.
  { rewrite length_app. cbn. repeat split; lia. }
  unfold gerenciar_banco_body, execute_ddl, execute_dml, commit, nbind, check_fault.
  destruct (sql_fault env CreateDados) eqn:H1; cbn.
  { rewrite length_app. cbn. repeat split; lia. }
  destruct (sql_fault env CreateHistorico) eqn:H2; cbn.
  { rewrite length_app. cbn. repeat split; lia. }
  rewrite Hj. cbn.
  destruct (sql_fault env InsertDados) eqn:H3; cbn.
  { rewrite length_app. cbn. repeat split; lia. }
  destruct Hnull as [-> | ->]; [|destruct ano]; cbn;
    rewrite length_app; cbn; repeat split; lia.
Qed.

(** Once the two CREATE TABLE statements of a call went through, the table
    [historico] is there, whatever happened next in the call. *)
Lemma gerenciar_banco_creates_historico (env : sql_env) df ano br clear (s : store) :
  sql_fault env Connect = None -> sql_fault env CreateDados = None ->
  sql_fault env CreateHistorico = None ->
  is_Some (historico (db (gerenciar_banco to_json env df ano br clear s).2)).
Proof.
  intros Hc H1 H2.
  unfold gerenciar_banco. rewrite Hc.
  unfold gerenciar_banco_body, execute_ddl, execute_dml, commit, nbind, check_fault.
  rewrite H1. cbn. rewrite H2. cbn.
  destruct clear.
  - destruct (sql_fault env DeleteDados); cbn; [eauto|].
    destruct (sql_fault env DeleteHistorico); cbn; [eauto|].
    destruct (sql_fault env Commit); cbn; eauto.
  - destruct df as [t|]; cbn; [|eauto].
    destruct (to_json t) as [json|e]; cbn.
    2:{ destruct (is_sqlite_error e); cbn; eauto. }
    destruct (sql_fault env InsertDados); cbn; [eauto|].
    destruct ano as [a|]; cbn; [|eauto].
    destruct br as [b|]; cbn; [|eauto].
    destruct (sql_fault env InsertHistorico); cbn; [eauto|].
    destruct (sql_fault env Commit); cbn; eauto.
Qed.

(** X17. When the history can be shown. On a file without the table
    [historico] the query fails and [exibir_historico] lets pandas'
    [DatabaseError] escape; so it does, on any file, when sqlite3 refuses
    the SELECT. After any call of [gerenciar_banco] that got past its two
    CREATE TABLE statements, whatever happened next in that call,
    [exibir_historico] returns in every read in which sqlite3 does not
    refuse the SELECT (a refused connection is shown as an error in the
    sidebar). *)
Theorem exibir_historico_needs_table :
  (forall d, historico d = None ->
             exibir_historico None d = Raise (read_sql_error "no such table: historico"))
  /\ (forall d msg, exibir_historico (Some (QueryFault msg)) d = Raise (read_sql_error msg))
  /\ (forall (env : sql_env) df ano br clear (s : store) (fault : option read_fault),
        sql_fault env Connect = None -> sql_fault env CreateDados = None ->
        sql_fault env CreateHistorico = None ->
        (forall msg, fault <> Some (QueryFault msg)) ->
        exists shown,
          exibir_historico fault (db (gerenciar_banco to_json env df ano br clear s).2)
          = Ok shown).
Proof.
  split; [|split].
  - intros d Hd. unfold exibir_historico. by rewrite Hd.
  - reflexivity.
  - intros env df ano br clear s fault Hc H1 H2 Hq.
    destruct (gerenciar_banco_creates_historico env df ano br clear s Hc H1 H2)
      as [rows Hrows].
    unfold exibir_historico. rewrite Hrows.
    destruct fault as [[msg | msg]|]; [eauto | by destruct (Hq msg) | eauto].
Qed.


Lemma next_id_above (seq : Z) (ids : list Z) : seq < next_id seq ids.
Proof. unfold next_id. lia. Qed.

Lemma NoDup_map_filter {A B} (f : A -> B) (P : A -> Prop) `{!forall x, Decision (P x)}
    (l : list A) :
  NoDup (map f l) -> NoDup (map f (filter P l)).
Proof.
  induction l as [|x l IH]; [constructor|].
  rewrite filter_cons. cbn [map]. rewrite NoDup_cons. intros [Hx Hl].
  destruct (decide (P x)); [|by apply IH].
  cbn [map]. rewrite NoDup_cons. split; [|by apply IH].
  intros Hin. apply Hx.
  apply list_elem_of_fmap in Hin as (y & Hy & Hin).
  apply list_elem_of_filter in Hin as [_ Hin].
  apply list_elem_of_fmap. eauto.
Qed.

Lemma ids_in_sequence_upserted (env : sql_env) (d : database) (a b : Z) (json : string) :
  ids_in_sequence d -> ids_in_sequence (upserted env d a b json).
Proof.
  intros (Hnd & Hbd & Hnh & Hbh). unfold ids_in_sequence, upserted.
  rewrite records_mk, history_mk. cbn [seq_dados seq_historico].
  pose proof (next_id_above (seq_dados d) (map d_id (records d))) as Hd.
  pose proof (next_id_above (seq_historico d) (map h_id (history d))) as Hh.
  rewrite Forall_forall in Hbd. rewrite Forall_forall in Hbh.
  split; [|split; [|split]].
  - rewrite map_app. apply NoDup_app. split; [by apply NoDup_map_filter|]. split.
    + intros i Hi Hi'. cbn in Hi'. apply list_elem_of_singleton in Hi'. subst i.
      apply list_elem_of_fmap in Hi as (r & Hr & Hin).
      apply list_elem_of_filter in Hin as [_ Hin]. specialize (Hbd r Hin).
      unfold written_record in Hr. cbn in Hr. lia.
    + cbn. apply NoDup_singleton.
  - rewrite Forall_app. split.
    + rewrite Forall_forall. intros r Hr.
      apply list_elem_of_filter in Hr as [_ Hr]. specialize (Hbd r Hr). lia.
    + repeat constructor. unfold written_record. cbn. lia.
  - rewrite map_app. apply NoDup_app. split; [exact Hnh|]. split.
    + intros i Hi Hi'. cbn in Hi'. apply list_elem_of_singleton in Hi'. subst i.
      apply list_elem_of_fmap in Hi as (r & Hr & Hin). specialize (Hbh r Hin).
      unfold written_entry in Hr. cbn in Hr. lia.
    + cbn. apply NoDup_singleton.
  - rewrite Forall_app. split.
    + rewrite Forall_forall. intros r Hr. specialize (Hbh r Hr). lia.
    + repeat constructor. unfold written_entry. cbn. lia.
Qed.

(** X18. Row ids are never given twice. Every call keeps the ids of each
    table distinct and below the table's counter, never lowers a counter
    (a clear does not reset it), and gives a row it adds an id above the
    counter it found. *)
Theorem gerenciar_banco_ids_in_sequence (env : sql_env) df ano br clear (s : store) :
  ids_in_sequence (db s) ->
  ids_in_sequence (db (gerenciar_banco to_json env df ano br clear s).2)
  /\ seq_dados (db s) <= seq_dados (db (gerenciar_banco to_json env df ano br clear s).2)
  /\ seq_historico (db s)
     <= seq_historico (db (gerenciar_banco to_json env df ano br clear s).2)
  /\ (forall r, r ∈ records (db (gerenciar_banco to_json env df ano br clear s).2) ->
                r ∈ records (db s) \/ seq_dados (db s) < d_id r)
  /\ (forall h, h ∈ history (db (gerenciar_banco to_json env df ano br clear s).2) ->
                h ∈ history (db s) \/ seq_historico (db s) < h_id h).
Proof.
  intros Hinv.
  destruct (gerenciar_banco_db_cases env df ano br clear s)
    as [-> | [-> | [-> | [[_ ->] | [_ (t & json & a & b & _ & _ & _ & _ & ->)]]]]].
  - repeat split; try apply Hinv; try lia; auto.
  - repeat split; try apply Hinv; try (cbn; lia); auto.
  - repeat split; try apply Hinv; try (cbn; lia); auto.
  - unfold ids_in_sequence, cleared. rewrite records_mk, history_mk.
    cbn [seq_dados seq_historico map].
    split; [repeat split; constructor|].
    split; [lia|]. split; [lia|].
    split; intros ? Hin; by apply elem_of_nil in Hin.
  - split; [by apply ids_in_sequence_upserted|].
    unfold upserted. rewrite records_mk, history_mk. cbn [seq_dados seq_historico].
    pose proof (next_id_above (seq_dados (db s)) (map d_id (records (db s)))) as Hd.
    pose proof (next_id_above (seq_historico (db s)) (map h_id (history (db s)))) as Hh.
    split; [lia|]. split; [lia|]. split.
    + intros r Hr. apply elem_of_app in Hr as [Hr | Hr].
      * left. by apply list_elem_of_filter in Hr as [_ Hr].
      * right. apply list_elem_of_singleton in Hr. subst r. exact Hd.
    + intros h Hin. apply elem_of_app in Hin as [Hin | Hin]; [by left|].
      right. apply list_elem_of_singleton in Hin. subst h. exact Hh.
Qed.

End StoreMore.

(** ** More of the processor *)

Section ProcessorMore.
Import Processor.
Context {num : Type}.
Variable parse_numeric : string -> option num.

Local Abbreviation to_numeric_cell := (to_numeric_cell parse_numeric).
Local Abbreviation coerced := (coerced parse_numeric).
Local Abbreviation carregar_dados := (carregar_dados parse_numeric).

Lemma coerced_lookup_other (r : row num) (name : string) :
  name <> "latitude" -> name <> "longitude" ->
  values (coerced r) !! name = values r !! name.
Proof.
  intros H1 H2. unfold Processor.coerced, coerce_row. cbn [values].
  rewrite !lookup_alter_ne by congruence. reflexivity.
Qed.

Lemma carregar_dados_value_cases (df : DataFrame num) :
  value (carregar_dados df) = Ok df
  \/ (has_column "latitude" df = true /\ has_column "longitude" df = true
      /\ value (carregar_dados df)
         = Ok {| columns := columns df; rows := filter kept (map coerced (rows df)) |}).
Proof.
  destruct (has_column "latitude" df && has_column "longitude" df) eqn:Hboth.
  - apply andb_true_iff in Hboth as [Hlat Hlon]. right.
    rewrite (carregar_dados_both parse_numeric df Hlat Hlon). auto.
  - destruct (carregar_dados_not_both parse_numeric df Hboth) as (absent & _ & Hc).
    left. by rewrite Hc.
Qed.

(** The table the body returns has the columns of the argument and a
    subsequence of its rows, in their order: each returned row carries the
    label of a row of the argument and, under every column other than the
    two coordinates, that row's value. *)
Lemma carregar_dados_body_keeps_shape (df : DataFrame num) :
  exists out,
    value (carregar_dados df) = Ok out
    /\ columns out = columns df
    /\ map label (rows out) `sublist_of` map label (rows df)
    /\ forall r', r' ∈ rows out ->
         exists r, r ∈ rows df /\ label r' = label r
                   /\ forall name, name <> "latitude" -> name <> "longitude" ->
                                   values r' !! name = values r !! name.
Proof.
  destruct (carregar_dados_value_cases df) as [Hv | (_ & _ & Hv)]; rewrite Hv.
  - exists df. split; [reflexivity|]. split; [reflexivity|]. split; [reflexivity|].
    intros r' Hr'. exists r'. auto.
  - eexists. split; [reflexivity|]. cbn [columns rows]. split; [reflexivity|]. split.
    + transitivity (map label (map coerced (rows df))).
      * apply (fmap_sublist label), sublist_filter.
      * rewrite map_map. reflexivity.
    + intros r' Hr'. apply list_elem_of_filter in Hr' as [_ Hr'].
      apply list_elem_of_fmap in Hr' as (r & -> & Hr).
      exists r. split; [exact Hr|]. split; [reflexivity|].
      intros name H1 H2. by apply coerced_lookup_other.
Qed.

(** The body changes the caller's table in place: when both coordinate
    columns are there, the table keeps every row (the dropped ones too),
    and no text is left under the two columns, whatever the body returns;
    otherwise the table is untouched. *)
Lemma carregar_dados_body_coerces_argument (df : DataFrame num) :
  columns (argument_after (carregar_dados df)) = columns df
  /\ map label (rows (argument_after (carregar_dados df))) = map label (rows df)
  /\ (has_column "latitude" df && has_column "longitude" df = true ->
      rows (argument_after (carregar_dados df)) = map coerced (rows df)
      /\ forall r, r ∈ rows (argument_after (carregar_dados df)) ->
                   numeric_or_missing (values r !! "latitude")
                   /\ numeric_or_missing (values r !! "longitude"))
  /\ (has_column "latitude" df && has_column "longitude" df = false ->
      argument_after (carregar_dados df) = df).
Proof.
  destruct (has_column "latitude" df && has_column "longitude" df) eqn:Hboth.
  - apply andb_true_iff in Hboth as [Hlat Hlon].
    rewrite (carregar_dados_both parse_numeric df Hlat Hlon). cbn [argument_after columns rows].
    split; [reflexivity|]. split; [by rewrite map_map|].
    split; [|discriminate]. intros _. split; [reflexivity|].
    intros r Hr. apply list_elem_of_fmap in Hr as (r0 & -> & _).
    rewrite coerced_lookup_latitude, coerced_lookup_longitude.
    split.
    + destruct (values r0 !! "latitude") as [[v| |s]|]; cbn; auto.
      destruct (parse_numeric s); exact I.
    + destruct (values r0 !! "longitude") as [[v| |s]|]; cbn; auto.
      destruct (parse_numeric s); exact I.
  - destruct (carregar_dados_not_both parse_numeric df Hboth) as (absent & _ & Hc).
    rewrite Hc. cbn [argument_after]. repeat split; discriminate || auto.
Qed.

(** When both coordinate columns are there, every row of the table the body
    returns has a number under at least one of them, and no text under
    either. *)
Lemma carregar_dados_body_output_has_a_coordinate (df : DataFrame num) :
  has_column "latitude" df = true -> has_column "longitude" df = true ->
  exists out,
    value (carregar_dados df) = Ok out
    /\ forall r, r ∈ rows out ->
         numeric_or_missing (values r !! "latitude")
         /\ numeric_or_missing (values r !! "longitude")
         /\ (is_number (values r !! "latitude") \/ is_number (values r !! "longitude")).
Proof.
  intros Hlat Hlon.
  rewrite (carregar_dados_both parse_numeric df Hlat Hlon). cbn [value].
  eexists. split; [reflexivity|]. cbn [rows].
  intros r Hr. apply list_elem_of_filter in Hr as [Hk Hr].
  apply list_elem_of_fmap in Hr as (r0 & -> & _).
  apply kept_coerced_iff in Hk. unfold isna in Hk.
  rewrite coerced_lookup_latitude, coerced_lookup_longitude in *.
  destruct (values r0 !! "latitude") as [[v1| |s1]|];
    destruct (values r0 !! "longitude") as [[v2| |s2]|]; cbn in *;
    try destruct (parse_numeric s1); try destruct (parse_numeric s2); cbn in *;
    repeat split; auto; exfalso; apply Hk; auto.
Qed.

End ProcessorMore.

(** ** The map *)

Section PresenterProperties.
Import Processor Presenter.
Context {num : Type}.
Variable format_cell : cell num -> string.
Variable marker_check : cell num -> cell num -> option exn.

Local Abbreviation marker_of_row := (marker_of_row format_cell marker_check).
Local Abbreviation add_markers := (add_markers format_cell marker_check).
Local Abbreviation criar_mapa_try := (criar_mapa_try format_cell marker_check).
Local Abbreviation criar_mapa := (criar_mapa format_cell marker_check).

Lemma marker_of_row_Some (r : row num) (m : marker num) :
  marker_of_row r = Ok (Some m) ->
  has_both_coordinates r = true
  /\ values r !! "latitude" = Some (fst (location m))
  /\ values r !! "longitude" = Some (snd (location m))
  /\ exists b u, values r !! "br" = Some b /\ values r !! "uf" = Some u
                 /\ popup m = "BR-" +:+ format_cell b +:+ " | " +:+ format_cell u.
Proof.
  unfold Presenter.marker_of_row, getitem, has_both_coordinates.
  destruct (values r !! "latitude") as [lat|]; [|discriminate].
  destruct (notnull lat) eqn:Hlat; [|discriminate].
  destruct (values r !! "longitude") as [lon|]; [|discriminate].
  destruct (notnull lon) eqn:Hlon; [|discriminate].
  destruct (values r !! "br") as [b|]; [|discriminate].
  destruct (values r !! "uf") as [u|]; [|discriminate].
  destruct (marker_check lat lon); [discriminate|].
  intros [= <-]. cbn. repeat split; eauto.
Qed.

Lemma marker_of_row_None (r : row num) :
  marker_of_row r = Ok None -> has_both_coordinates r = false.
Proof.
  unfold Presenter.marker_of_row, getitem, has_both_coordinates.
  destruct (values r !! "latitude") as [lat|]; [|discriminate].
  destruct (notnull lat) eqn:Hlat; [|by destruct (values r !! "longitude")].
  destruct (values r !! "longitude") as [lon|]; [|discriminate].
  destruct (notnull lon) eqn:Hlon; [|reflexivity].
  destruct (values r !! "br") as [b|]; [|discriminate].
  destruct (values r !! "uf") as [u|]; [|discriminate].
  destruct (marker_check lat lon); discriminate.
Qed.

Lemma add_markers_spec (rs : list (row num)) :
  forall ms ms', add_markers rs ms = Ok ms' ->
    exists added,
      ms' = ms ++ added
      /\ Forall2 (fun r m => marker_of_row r = Ok (Some m))
                 (filter (fun r => has_both_coordinates r = true) rs) added.
Proof.
  induction rs as [|r rs IH]; intros ms ms' H; cbn in H.
  - injection H as <-. exists []. rewrite app_nil_r. split; [reflexivity | constructor].
  - destruct (marker_of_row r) as [[m|]|e] eqn:Hr; [| |discriminate].
    + destruct (IH _ _ H) as (added & -> & Hall).
      exists (m :: added). rewrite <- app_assoc. split; [reflexivity|].
      rewrite filter_cons_True by (by apply marker_of_row_Some in Hr as [? _]).
      by constructor.
    + destruct (IH _ _ H) as (added & -> & Hall).
      exists added. split; [reflexivity|].
      rewrite filter_cons_False; [exact Hall|].
      apply marker_of_row_None in Hr. congruence.
Qed.

Lemma add_markers_located (rs : list (row num)) (ms : list (marker num)) :
  add_markers rs [] = Ok ms ->
  Forall2 (fun r mk =>
             values r !! "latitude" = Some (fst (location mk))
             /\ values r !! "longitude" = Some (snd (location mk)))
          (filter (fun r => has_both_coordinates r = true) rs) ms.
Proof.
  intros Hadd. apply add_markers_spec in Hadd as (added & -> & Hall). cbn.
  eapply Forall2_impl; [exact Hall|].
  intros r mk Hr. apply marker_of_row_Some in Hr as (_ & H1 & H2 & _). auto.
Qed.

(** [criar_mapa] gives no map for a table without rows or without
    columns, and logs the error of line 124. *)
Lemma criar_mapa_empty_table (df : DataFrame num) :
  rows df = [] \/ columns df = [] ->
  criar_mapa df = (None, [(Fetcher.ERROR, "Erro no mapa: DataFrame vazio")]).
Proof.
  intros Hempty. unfold Presenter.criar_mapa, Presenter.criar_mapa_try, df_empty.
  destruct Hempty as [-> | ->]; [reflexivity|].
  destruct (rows df); reflexivity.
Qed.

(** X22. When [criar_mapa] returns a map, the map has one marker for each
    row that has both coordinates, in the order of the rows and at those
    coordinates, and no other marker; rows with one coordinate missing are
    passed over. *)
Theorem criar_mapa_markers (df : DataFrame num) (m : folium_map num) :
  (criar_mapa df).1 = Some m ->
  (criar_mapa df).2 = []
  /\ Forall2 (fun r mk =>
                values r !! "latitude" = Some (fst (location mk))
                /\ values r !! "longitude" = Some (snd (location mk)))
             (filter (fun r => has_both_coordinates r = true) (rows df))
             (markers m).
Proof.
  unfold Presenter.criar_mapa, Presenter.criar_mapa_try.
  destruct (df_empty df); [discriminate|].
  destruct (add_markers (rows df) []) as [ms|e] eqn:Hadd.
  2:{ destruct e; discriminate. }
  cbn. intros [= <-]. split; [reflexivity|]. cbn.
  by apply add_markers_located.
Qed.

Lemma rectangular_lookup (df : DataFrame num) (r : row num) (name : string) :
  rectangular df -> r ∈ rows df ->
  (is_Some (values r !! name) <-> has_column name df = true).
Proof.
  intros Hrect Hr. unfold rectangular in Hrect.
  rewrite Forall_forall in Hrect. specialize (Hrect r Hr).
  rewrite has_column_elem, <- elem_of_dom, Hrect. apply elem_of_list_to_set.
Qed.

Lemma marker_of_row_passes (r : row num) :
  is_Some (values r !! "latitude") -> is_Some (values r !! "longitude") ->
  has_both_coordinates r = false -> marker_of_row r = Ok None.
Proof.
  intros [lat Hlat] [lon Hlon]. unfold has_both_coordinates, Presenter.marker_of_row, getitem.
  rewrite Hlat, Hlon. destruct (notnull lat); [|reflexivity].
  cbn. by intros ->.
Qed.

Lemma marker_of_row_popup_fails (r : row num) :
  has_both_coordinates r = true ->
  values r !! "br" = None \/ values r !! "uf" = None ->
  exists labels, marker_of_row r = Raise (KeyError labels).
Proof.
  unfold has_both_coordinates, Presenter.marker_of_row, getitem.
  destruct (values r !! "latitude") as [lat|]; [|discriminate].
  destruct (values r !! "longitude") as [lon|]; [|discriminate].
  intros Hb. apply andb_true_iff in Hb as [-> ->].
  intros [-> | Huf]; [eauto|].
  destruct (values r !! "br"); [|eauto]. rewrite Huf. eauto.
Qed.

Lemma add_markers_passes (rs : list (row num)) (ms : list (marker num)) :
  Forall (fun r => marker_of_row r = Ok None) rs -> add_markers rs ms = Ok ms.
Proof.
  induction 1 as [|r rs Hr _ IH]; [reflexivity|]. cbn. by rewrite Hr.
Qed.

Lemma add_markers_raises (rs : list (row num)) (P : exn -> Prop) :
  Forall (fun r => marker_of_row r = Ok None \/ exists e, marker_of_row r = Raise e /\ P e) rs ->
  Exists (fun r => marker_of_row r <> Ok None) rs ->
  forall ms, exists e, add_markers rs ms = Raise e /\ P e.
Proof.
  induction 1 as [|r rs Hr _ IH]; intros Hex ms.
  - by apply Exists_nil in Hex.
  - cbn. destruct Hr as [Hr | (e & Hr & He)].
    + rewrite Hr. apply IH. apply Exists_cons in Hex as [Hex | Hex]; [contradiction | exact Hex].
    + rewrite Hr. eauto.
Qed.

(** X23. A table in which some row has both coordinates but which has no
    [br] or no [uf] column gives no map: the popup of line 133 raises
    [KeyError], which is logged as absent geographic data. A table in which
    no row has both coordinates gives a map without markers even then. *)
Theorem criar_mapa_popup_columns (df : DataFrame num) :
  rectangular df -> df_empty df = false ->
  has_column "latitude" df = true -> has_column "longitude" df = true ->
  has_column "br" df && has_column "uf" df = false ->
  (Exists (fun r => has_both_coordinates r = true) (rows df) ->
   criar_mapa df = (None, [(Fetcher.WARNING, "Dados geográficos ausentes")]))
  /\ (Forall (fun r => has_both_coordinates r = false) (rows df) ->
      criar_mapa df
      = (Some {| center := ("-15.788497", "-47.879873"); zoom_start := 4; markers := [] |},
         [])).
Proof.
  intros Hrect Hne Hlat Hlon Hpop.
  assert (Hcoord : forall r, r ∈ rows df ->
            is_Some (values r !! "latitude") /\ is_Some (values r !! "longitude")).
  { intros r Hr. split; by apply (rectangular_lookup df r _ Hrect Hr). }
  assert (Hnopop : forall r, r ∈ rows df ->
            values r !! "br" = None \/ values r !! "uf" = None).
  { intros r Hr. apply andb_false_iff in Hpop as [Hp | Hp]; [left | right];
      apply eq_None_not_Some; rewrite (rectangular_lookup df r _ Hrect Hr); congruence. }
  unfold Presenter.criar_mapa, Presenter.criar_mapa_try. rewrite Hne. split.
  - intros Hex.
    destruct (add_markers_raises (rows df) (fun e => exists labels, e = KeyError labels))
      with (ms := @nil (marker num)) as (e & -> & labels & ->); [| |reflexivity].
    + rewrite Forall_forall. intros r Hr.
      destruct (has_both_coordinates r) eqn:Hb.
      * right. destruct (marker_of_row_popup_fails r Hb (Hnopop r Hr)) as [labels Hl]. eauto.
      * left. destruct (Hcoord r Hr). by apply marker_of_row_passes.
    + rewrite Exists_exists in Hex |- *. destruct Hex as (r & Hr & Hb).
      exists r. split; [exact Hr|].
      destruct (marker_of_row_popup_fails r Hb (Hnopop r Hr)) as [labels Hl]. congruence.
  - intros Hall. rewrite add_markers_passes; [reflexivity|].
    rewrite Forall_forall in Hall |- *. intros r Hr.
    destruct (Hcoord r Hr). apply marker_of_row_passes; auto.
Qed.


Lemma add_markers_total (rs : list (row num)) :
  Forall (fun r => exists o, marker_of_row r = Ok o) rs ->
  forall ms, exists ms', add_markers rs ms = Ok ms'.
Proof.
  induction 1 as [|r rs [o Hr] _ IH]; intros ms; [by exists ms|].
  cbn. rewrite Hr. destruct o; apply IH.
Qed.

Variable parse_numeric : string -> option num.

Lemma to_numeric_cell_not_text (c : cell num) (s : string) :
  to_numeric_cell parse_numeric c <> Str s.
Proof. destruct c as [v| |t]; cbn; try discriminate. by destruct (parse_numeric t). Qed.

(** The map of a table the body has processed. For a rectangular table with
    the columns [latitude], [longitude], [br] and [uf], and a
    [folium.Marker] that takes every pair of numbers: from what the body
    returns, if any row is left, [criar_mapa] makes a map, with one marker
    for each row that has both coordinates as numbers; the rows kept with a
    single coordinate get no marker. *)
Lemma criar_mapa_after_carregar_dados_body (df out : DataFrame num) :
  rectangular df ->
  has_column "latitude" df = true -> has_column "longitude" df = true ->
  has_column "br" df = true -> has_column "uf" df = true ->
  (forall v1 v2, marker_check (Num v1) (Num v2) = None) ->
  value (carregar_dados parse_numeric df) = Ok out ->
  rows out <> [] ->
  exists m,
    criar_mapa out = (Some m, [])
    /\ Forall2 (fun r mk =>
                  values r !! "latitude" = Some (fst (location mk))
                  /\ values r !! "longitude" = Some (snd (location mk)))
               (filter (fun r => has_both_coordinates r = true) (rows out))
               (markers m)
    /\ forall r, r ∈ rows out ->
         (has_both_coordinates r = true
          <-> is_number (values r !! "latitude") /\ is_number (values r !! "longitude")).
Proof.
  intros Hrect Hlat Hlon Hbr Huf Hcheck Hout Hne.
  rewrite (carregar_dados_both parse_numeric df Hlat Hlon) in Hout.
  cbn [value] in Hout. injection Hout as <-. cbn [rows] in *.
  assert (Hrow : forall r, r ∈ filter kept (map (coerced parse_numeric) (rows df)) ->
            (exists o, marker_of_row r = Ok o)
            /\ (has_both_coordinates r = true
                <-> is_number (values r !! "latitude")
                    /\ is_number (values r !! "longitude"))).
  { intros r Hr. apply list_elem_of_filter in Hr as [_ Hr].
    apply list_elem_of_fmap in Hr as (r0 & -> & Hr0).
    destruct (proj2 (rectangular_lookup df r0 "latitude" Hrect Hr0) Hlat) as [lat Hl].
    destruct (proj2 (rectangular_lookup df r0 "longitude" Hrect Hr0) Hlon) as [lon Hn].
    destruct (proj2 (rectangular_lookup df r0 "br" Hrect Hr0) Hbr) as [b Hb].
    destruct (proj2 (rectangular_lookup df r0 "uf" Hrect Hr0) Huf) as [u Hu].
    unfold has_both_coordinates, Presenter.marker_of_row, getitem.
    rewrite coerced_lookup_latitude, coerced_lookup_longitude.
    rewrite !coerced_lookup_other by discriminate.
    rewrite Hl, Hn, Hb, Hu. cbn.
    destruct (to_numeric_cell parse_numeric lat) as [v1| |s1] eqn:E1;
      [| |by apply to_numeric_cell_not_text in E1];
      (destruct (to_numeric_cell parse_numeric lon) as [v2| |s2] eqn:E2;
       [| |by apply to_numeric_cell_not_text in E2]);
      cbn; rewrite ?Hcheck; (split; [eauto|]); cbn; intuition congruence. }
  destruct (add_markers_total (filter kept (map (coerced parse_numeric) (rows df))))
    with (ms := @nil (marker num)) as [ms Hms].
  { rewrite Forall_forall. intros r Hr. by apply Hrow. }
  assert (Hmap : criar_mapa {| columns := columns df;
                               rows := filter kept (map (coerced parse_numeric) (rows df)) |}
                 = (Some {| center := ("-15.788497", "-47.879873"); zoom_start := 4;
                            markers := ms |}, [])).
  { assert (Hfull : df_empty {| columns := columns df;
                                rows := filter kept (map (coerced parse_numeric) (rows df)) |}
                    = false).
    { unfold df_empty. cbn [rows columns].
      destruct (filter kept (map (coerced parse_numeric) (rows df))); [contradiction|].
      unfold has_column in Hlat. by destruct (columns df). }
    unfold Presenter.criar_mapa, Presenter.criar_mapa_try. rewrite Hfull.
    cbn [rows]. by rewrite Hms. }
  eexists. split; [exact Hmap|]. split.
  - cbn [markers]. by apply add_markers_located.
  - intros r Hr. by apply Hrow.
Qed.

End PresenterProperties.

(** ** The page *)

Section AppProperties.
Import App.
Context {num : Type} `{EqDecision num}.
Variable parse_numeric : string -> option num.
Variable to_json : Processor.DataFrame num -> result string.
Variable format_cell : Processor.cell num -> string.
Variable marker_check : Processor.cell num -> Processor.cell num -> option exn.
Variable sess : session num.

Local Abbreviation buscar := (buscar parse_numeric to_json format_cell marker_check sess).
Local Abbreviation buscar_try := (buscar_try parse_numeric to_json format_cell marker_check sess).
Local Abbreviation limpar := (limpar to_json sess).
Local Abbreviation run := (run parse_numeric to_json format_cell marker_check sess).

Local Abbreviation carregar_dados_cached := (carregar_dados_cached parse_numeric sess).
Local Abbreviation df_after_carregar_dados := (df_after_carregar_dados parse_numeric sess).

(** A call that finds no live entry returns what the body returns. *)
Lemma carregar_dados_cached_miss (df : Processor.DataFrame num) (s : app num) :
  cache s = None \/ cache_alive sess = false ->
  (carregar_dados_cached df s).1
  = Processor.value (Processor.carregar_dados parse_numeric df)
  /\ df_after_carregar_dados df s
     = Processor.argument_after (Processor.carregar_dados parse_numeric df).
Proof.
  intros Hmiss. unfold App.carregar_dados_cached, App.df_after_carregar_dados.
  destruct Hmiss as [-> | ->].
  - by destruct (Processor.value _).
  - destruct (cache s); by destruct (Processor.value _).
Qed.

(** A call that finds a live entry returns it and runs nothing. *)
Lemma carregar_dados_cached_hit (df entry : Processor.DataFrame num) (s : app num) :
  cache s = Some entry -> cache_alive sess = true ->
  carregar_dados_cached df s = (Ok entry, s) /\ df_after_carregar_dados df s = df.
Proof.
  intros Hc Ha. unfold App.carregar_dados_cached, App.df_after_carregar_dados.
  by rewrite Hc, Ha.
Qed.

(** X19. A call of [carregar_dados] that finds no live cache entry returns
    a table with the columns of the argument and a subsequence of its rows,
    in their order: each returned row carries the label of a row of the
    argument and, under every column other than the two coordinates, that
    row's value. *)
Theorem carregar_dados_keeps_shape (df : Processor.DataFrame num) (s : app num) :
  cache s = None \/ cache_alive sess = false ->
  exists out,
    (carregar_dados_cached df s).1 = Ok out
    /\ Processor.columns out = Processor.columns df
    /\ map Processor.label (Processor.rows out)
       `sublist_of` map Processor.label (Processor.rows df)
    /\ forall r', r' ∈ Processor.rows out ->
         exists r, r ∈ Processor.rows df /\ Processor.label r' = Processor.label r
                   /\ forall name, name <> "latitude" -> name <> "longitude" ->
                                   Processor.values r' !! name = Processor.values r !! name.
Proof.
  intros Hmiss. destruct (carregar_dados_cached_miss df s Hmiss) as [-> _].
  apply carregar_dados_body_keeps_shape.
Qed.

(** X20. What a call of [carregar_dados] does to the caller's table. The
    columns and the labels stay. A call that finds no live cache entry
    changes the table in place: when both coordinate columns are there, the
    table keeps every row (the dropped ones too) and no text is left under
    the two columns, whatever the call returns; otherwise the table is
    untouched. A call answered from the cache leaves the table as it
    was. *)
Theorem carregar_dados_coerces_argument_in_place (df : Processor.DataFrame num)
    (s : app num) :
  Processor.columns (df_after_carregar_dados df s) = Processor.columns df
  /\ map Processor.label (Processor.rows (df_after_carregar_dados df s))
     = map Processor.label (Processor.rows df)
  /\ (cache s = None \/ cache_alive sess = false ->
      Processor.has_column "latitude" df && Processor.has_column "longitude" df = true ->
      Processor.rows (df_after_carregar_dados df s)
      = map (Processor.coerced parse_numeric) (Processor.rows df)
      /\ forall r, r ∈ Processor.rows (df_after_carregar_dados df s) ->
                   numeric_or_missing (Processor.values r !! "latitude")
                   /\ numeric_or_missing (Processor.values r !! "longitude"))
  /\ (cache s = None \/ cache_alive sess = false ->
      Processor.has_column "latitude" df && Processor.has_column "longitude" df = false ->
      df_after_carregar_dados df s = df)
  /\ (forall entry, cache s = Some entry -> cache_alive sess = true ->
      df_after_carregar_dados df s = df).
Proof.
  destruct (carregar_dados_body_coerces_argument parse_numeric df) as (Hc & Hl & Hb & Hn).
  assert (Hcases : df_after_carregar_dados df s = df
                   \/ df_after_carregar_dados df s
                      = Processor.argument_after (Processor.carregar_dados parse_numeric df)).
  { unfold App.df_after_carregar_dados.
    destruct (cache s); [destruct (cache_alive sess)|]; auto. }
  split; [destruct Hcases as [-> | ->]; auto|].
  split; [destruct Hcases as [-> | ->]; auto|].
  split; [|split].
  - intros Hmiss Hboth. destruct (carregar_dados_cached_miss df s Hmiss) as [_ ->]. auto.
  - intros Hmiss Hboth. destruct (carregar_dados_cached_miss df s Hmiss) as [_ ->]. auto.
  - intros entry He Ha. by destruct (carregar_dados_cached_hit df entry s He Ha).
Qed.

(** X21. When both coordinate columns are there, every row of the table
    that a call of [carregar_dados] without a live cache entry returns has
    a number under at least one of them, and no text under either. *)
Theorem carregar_dados_output_has_a_coordinate (df : Processor.DataFrame num)
    (s : app num) :
  cache s = None \/ cache_alive sess = false ->
  Processor.has_column "latitude" df = true -> Processor.has_column "longitude" df = true ->
  exists out,
    (carregar_dados_cached df s).1 = Ok out
    /\ forall r, r ∈ Processor.rows out ->
         numeric_or_missing (Processor.values r !! "latitude")
         /\ numeric_or_missing (Processor.values r !! "longitude")
         /\ (is_number (Processor.values r !! "latitude")
             \/ is_number (Processor.values r !! "longitude")).
Proof.
  intros Hmiss Hlat Hlon. destruct (carregar_dados_cached_miss df s Hmiss) as [-> _].
  by apply carregar_dados_body_output_has_a_coordinate.
Qed.

(** X24. The map of a processed table. For a rectangular table with the
    columns [latitude], [longitude], [br] and [uf], and a [folium.Marker]
    that takes every pair of numbers: from what a call of [carregar_dados]
    without a live cache entry returns, if any row is left, [criar_mapa]
    makes a map, with one marker for each row that has both coordinates as
    numbers; the rows kept with a single coordinate get no marker. *)
Theorem criar_mapa_after_carregar_dados (df out : Processor.DataFrame num) (s : app num) :
  cache s = None \/ cache_alive sess = false ->
  rectangular df ->
  Processor.has_column "latitude" df = true -> Processor.has_column "longitude" df = true ->
  Processor.has_column "br" df = true -> Processor.has_column "uf" df = true ->
  (forall v1 v2, marker_check (Processor.Num v1) (Processor.Num v2) = None) ->
  (carregar_dados_cached df s).1 = Ok out ->
  Processor.rows out <> [] ->
  exists m,
    Presenter.criar_mapa format_cell marker_check out = (Some m, [])
    /\ Forall2 (fun r mk =>
                  Processor.values r !! "latitude" = Some (fst (Presenter.location mk))
                  /\ Processor.values r !! "longitude" = Some (snd (Presenter.location mk)))
               (filter (fun r => has_both_coordinates r = true) (Processor.rows out))
               (Presenter.markers m)
    /\ forall r, r ∈ Processor.rows out ->
         (has_both_coordinates r = true
          <-> is_number (Processor.values r !! "latitude")
              /\ is_number (Processor.values r !! "longitude")).
Proof.
  intros Hmiss Hrect Hlat Hlon Hbr Huf Hcheck Hout Hne.
  destruct (carregar_dados_cached_miss df s Hmiss) as [Hv _]. rewrite Hv in Hout.
  by apply (criar_mapa_after_carregar_dados_body format_cell marker_check parse_numeric df).
Qed.

Lemma buscar_except_spec (e : exn) (s : app num) :
  (buscar_except e s).1 = Ok tt
  /\ page (buscar_except e s).2 = page s ++ error_elements e
  /\ world (buscar_except e s).2 = world s
  /\ banco (buscar_except e s).2 = banco s
  /\ cache (buscar_except e s).2 = cache s.
Proof. destruct e; cbn; repeat split; rewrite <- ?app_assoc; reflexivity. Qed.

Lemma error_elements_end (e : exn) (before : list (element num)) :
  ends_with_error (before ++ error_elements e).
Proof.
  unfold ends_with_error.
  destruct e; cbn; try (exists before; eexists; left; reflexivity).
  exists before. eexists. right. reflexivity.
Qed.

Lemma error_elements_no_export (e : exn) (x : element num) :
  x ∈ error_elements e -> x <> PlotlyChart /\ forall f, x <> DownloadButton f.
Proof.
  destruct e; cbn; intros Hx;
    repeat (apply elem_of_cons in Hx as [-> | Hx]; [split; [discriminate | intros; discriminate]|]);
    by apply elem_of_nil in Hx.
Qed.

Ltac nothing_shown e :=
  exists e, []; cbn; rewrite app_nil_r; split; [reflexivity|]; split; [reflexivity|];
  apply Forall_nil_2.

Ltac shown_so_far :=
  eexists _, _; cbn; rewrite <- ?app_assoc; cbn;
  split; [reflexivity|]; split; [reflexivity|];
  repeat (apply Forall_cons_2; [exact I|]); apply Forall_nil_2.

Ltac after_processing :=
  unfold pbind, gravar;
  destruct (Store.gerenciar_banco _ _ _ _ _ _ _) as [[r|e] st'];
  [| nothing_shown e ];
  cbn; unfold column_unique;
  destruct (Processor.has_column "uf" _);
  [| shown_so_far ];
  cbn; unfold mapa_de, pbind; cbn;
  destruct (Presenter.criar_mapa _ _ _) as [[m|] lg]; cbn;
  shown_so_far.

(** The body of the [try] never gets to its end: it raises, having shown
    elements of before line 203 only. *)
Lemma buscar_try_raises (ano br : Z) (s : app num) :
  exists e shown,
    (buscar_try ano br s).1 = Raise e
    /\ page (buscar_try ano br s).2 = page s ++ shown
    /\ Forall shown_before_chart shown.
Proof.
  unfold App.buscar_try, pbind, baixar.
  destruct (Fetcher.baixar_dados_dnit _ _ _ _ _) as [[t|e] w'].
  2:{ nothing_shown e. }
  cbn. unfold carregar_dados_cached. cbn.
  destruct (cache s) as [entry|]; [destruct (cache_alive sess)|].
  - after_processing.
  - destruct (Processor.value (Processor.carregar_dados parse_numeric t)) as [out|e];
      [| nothing_shown e ].
    after_processing.
  - destruct (Processor.value (Processor.carregar_dados parse_numeric t)) as [out|e];
      [| nothing_shown e ].
    after_processing.
Qed.

Lemma shown_before_chart_no_export (x : element num) :
  shown_before_chart x -> x <> PlotlyChart /\ forall f, x <> DownloadButton f.
Proof. destruct x; cbn; intros []; (split; [discriminate | intros; discriminate]). Qed.

(** A search as a whole: the handler turns the exception of the body into
    its message. *)
Lemma buscar_run (ano br : Z) (s : app num) :
  exists e shown,
    (buscar_try ano br s).1 = Raise e
    /\ Forall shown_before_chart shown
    /\ (buscar ano br s).1 = Ok tt
    /\ page (buscar ano br s).2 = page s ++ shown ++ error_elements e
    /\ world (buscar ano br s).2 = world (buscar_try ano br s).2
    /\ banco (buscar ano br s).2 = banco (buscar_try ano br s).2
    /\ cache (buscar ano br s).2 = cache (buscar_try ano br s).2.
Proof.
  destruct (buscar_try_raises ano br s) as (e & shown & He & Hp & Hs).
  exists e, shown. split; [exact He|]. split; [exact Hs|].
  unfold App.buscar, ptry.
  destruct (App.buscar_try _ _ _ _ _ ano br s) as [r s1]. cbn in He, Hp |- *. subst r.
  destruct (buscar_except_spec e s1) as (H1 & H2 & H3 & H4 & H5).
  rewrite H1, H2, H3, H4, H5, Hp, <- app_assoc. auto.
Qed.

(** X25. No search gets to the chart: whatever the year, the road, the
    network and the database do, a search returns to the script having
    shown an error message last, and neither the chart of line 204 nor the
    download button of line 209. *)
Theorem buscar_ends_in_error (ano br : Z) (s : app num) :
  (buscar ano br s).1 = Ok tt
  /\ exists shown,
       page (buscar ano br s).2 = page s ++ shown
       /\ ends_with_error shown
       /\ ~ export_shown shown.
Proof.
  destruct (buscar_run ano br s) as (e & shown & _ & Hs & Hr & Hp & _).
  split; [exact Hr|]. exists (shown ++ error_elements e).
  split; [exact Hp|]. split; [apply error_elements_end|].
  rewrite Forall_forall in Hs.
  assert (Hno : forall x, x ∈ shown ++ error_elements e ->
                          x <> PlotlyChart /\ forall f, x <> DownloadButton f).
  { intros x Hx. apply elem_of_app in Hx as [Hx | Hx].
    - apply shown_before_chart_no_export, Hs, Hx.
    - by apply error_elements_no_export with e. }
  intros [Hc | [f Hd]].
  - by destruct (Hno _ Hc) as [Hne _].
  - destruct (Hno _ Hd) as [_ Hne]. by apply (Hne f).
Qed.

(** X26. A search whose download fails stores nothing: the database and the
    cache are as they were, and the page gets the message of the handler
    for that exception and nothing else. *)
Theorem buscar_fetch_failure (ano br : Z) (s : app num) (e : exn) :
  (Fetcher.baixar_dados_dnit (fetch_env sess) (PyInt ano) (PyInt br) "data/raw" (world s)).1
  = Raise e ->
  banco (buscar ano br s).2 = banco s
  /\ cache (buscar ano br s).2 = cache s
  /\ app_log (buscar ano br s).2
     = app_log s ++ match e with
                    | FileNotFoundError _ | RuntimeError _ => []
                    | _ => [(Fetcher.ERROR, "Erro não tratado:")]
                    end
  /\ page (buscar ano br s).2 = page s ++ error_elements e.
Proof.
  intros Hf. unfold App.buscar, ptry, App.buscar_try, pbind, baixar.
  destruct (Fetcher.baixar_dados_dnit _ _ _ _ _) as [r w']. cbn in Hf. subst r. cbn.
  destruct e; cbn; rewrite <- ?app_assoc, ?app_nil_r; auto.
Qed.

(** X27. While the cache entry of [carregar_dados] is alive, a search
    stores and shows that entry, not the table it has just downloaded: the
    call of [gerenciar_banco] gets the entry with the year and road of this
    search, and the success message counts the rows of the entry. *)
Theorem buscar_reuses_cached_table (ano br : Z) (s : app num)
    (t entry : Processor.DataFrame num) :
  (Fetcher.baixar_dados_dnit (fetch_env sess) (PyInt ano) (PyInt br) "data/raw" (world s)).1
  = Ok t ->
  cache s = Some entry -> cache_alive sess = true ->
  let stored := Store.gerenciar_banco to_json (sqlite sess) (Some entry) (Some ano)
                  (Some br) false (banco s) in
  banco (buscar ano br s).2 = stored.2
  /\ cache (buscar ano br s).2 = Some entry
  /\ (forall r, stored.1 = Ok r ->
        exists rest,
          page (buscar ano br s).2
          = page s ++ Success ("✅ " +:+ str_of_Z (Z.of_nat (length (Processor.rows entry)))
                               +:+ " registros carregados com sucesso!")
                   :: Header "📊 Visualização dos Dados"
                   :: Dataframe (head 10 entry) :: rest).
Proof.
  intros Hf Hc Ha. cbn zeta.
  unfold App.buscar, ptry, App.buscar_try, pbind, baixar.
  destruct (Fetcher.baixar_dados_dnit _ _ _ _ _) as [r w']. cbn in Hf. subst r. cbn.
  unfold carregar_dados_cached. cbn. rewrite Hc, Ha. cbn.
  unfold gravar. cbn.
  destruct (Store.gerenciar_banco _ _ _ _ _ _ _) as [[r|e] st']; cbn.
  2:{ destruct (buscar_except_spec e
        {| world := w'; banco := st'; cache := Some entry; page := page s;
           app_log := app_log s |}) as (_ & _ & _ & Hb & Hk).
      rewrite Hb, Hk. cbn. split; [reflexivity|]. split; [reflexivity|]. discriminate. }
  unfold column_unique.
  destruct (Processor.has_column "uf" entry); cbn.
  2:{ split; [reflexivity|]. split; [reflexivity|]. intros _ _.
      rewrite <- !app_assoc. cbn. eauto. }
  unfold mapa_de, pbind. cbn.
  destruct (Presenter.criar_mapa _ _ _) as [[m|] lg]; cbn;
    (split; [reflexivity|]; split; [reflexivity|]; intros _ _;
     rewrite <- !app_assoc; cbn; eauto).
Qed.

(** X28. Without a live cache entry a search processes the table it has
    downloaded, makes the result the cache entry, and hands that result to
    [gerenciar_banco] with the year and road of this search. *)
Theorem buscar_processes_download (ano br : Z) (s : app num) (t : Processor.DataFrame num) :
  (Fetcher.baixar_dados_dnit (fetch_env sess) (PyInt ano) (PyInt br) "data/raw" (world s)).1
  = Ok t ->
  cache s = None \/ cache_alive sess = false ->
  exists out,
    Processor.value (Processor.carregar_dados parse_numeric t) = Ok out
    /\ cache (buscar ano br s).2 = Some out
    /\ banco (buscar ano br s).2
       = (Store.gerenciar_banco to_json (sqlite sess) (Some out) (Some ano) (Some br) false
            (banco s)).2.
Proof.
  intros Hf Hc.
  assert (Hout : exists out, Processor.value (Processor.carregar_dados parse_numeric t) = Ok out).
  { destruct (carregar_dados_value_cases parse_numeric t) as [Hv | (_ & _ & Hv)]; eauto. }
  destruct Hout as [out Hout]. exists out. split; [exact Hout|].
  unfold App.buscar, ptry, App.buscar_try, pbind, baixar.
  destruct (Fetcher.baixar_dados_dnit _ _ _ _ _) as [r w']. cbn in Hf. subst r. cbn.
  assert (Hmiss : carregar_dados_cached t
                    {| world := w'; banco := banco s; cache := cache s; page := page s;
                       app_log := app_log s |}
                  = (Ok out, {| world := w'; banco := banco s; cache := Some out;
                                page := page s;
                                app_log := app_log s
                                  ++ map (fun m => (Fetcher.ERROR, m))
                                       (Processor.logged
                                          (Processor.carregar_dados parse_numeric t)) |})).
  { unfold carregar_dados_cached. cbn. rewrite Hout.
    destruct Hc as [-> | ->]; [reflexivity|]. by destruct (cache s). }
  rewrite Hmiss. unfold gravar. cbn.
  destruct (Store.gerenciar_banco _ _ _ _ _ _ _) as [[r|e] st']; cbn.
  2:{ match goal with |- context [buscar_except e ?s1] =>
        destruct (buscar_except_spec e s1) as (_ & _ & _ & Hb & Hk) end.
      rewrite Hb, Hk. auto. }
  unfold column_unique.
  destruct (Processor.has_column "uf" out); cbn; [|auto].
  unfold mapa_de, pbind. cbn.
  destruct (Presenter.criar_mapa _ _ _) as [[m|] lg]; cbn; auto.
Qed.

Lemma limpar_returns (s : app num) : (limpar s).1 = Ok tt.
Proof.
  unfold App.limpar, ptry, pbind, limpar_banco.
  destruct (Store.gerenciar_banco _ _ _ _ _ _ _) as [[r|e] st']; reflexivity.
Qed.

(** X29. The clear button never lets an exception out, and the cache goes
    only with the database: either both tables are emptied, the cache entry
    is dropped and the sidebar confirms, or the rows of both tables and the
    cache entry are the ones before the click and the sidebar shows the
    error. *)
Theorem limpar_all_or_nothing (s : app num) :
  (limpar s).1 = Ok tt
  /\ world (limpar s).2 = world s
  /\ ((Store.records (Store.db (banco (limpar s).2)) = []
       /\ Store.history (Store.db (banco (limpar s).2)) = []
       /\ cache (limpar s).2 = None
       /\ page (limpar s).2 = page s ++ [SidebarSuccess "Cache e histórico resetados"])
      \/ (Store.records (Store.db (banco (limpar s).2)) = Store.records (Store.db (banco s))
          /\ Store.history (Store.db (banco (limpar s).2))
             = Store.history (Store.db (banco s))
          /\ cache (limpar s).2 = cache s
          /\ page (limpar s).2
             = page s ++ [SidebarError "Erro na limpeza: Erro no banco de dados"])).
Proof.
  unfold App.limpar, ptry, pbind, limpar_banco.
  destruct (gerenciar_banco_effect to_json (sqlite_clear sess) None None None true (banco s))
    as [Hr Hh Hcase | _ Hres Hd Hh | ? ? ? ? Hc]; [| |discriminate].
  - destruct Hcase as [Hres | [(t & e & ? & _) | (_ & _ & ?)]]; [|discriminate|discriminate].
    destruct (Store.gerenciar_banco _ _ _ _ _ _ _) as [r st']. cbn in Hres, Hr, Hh |- *.
    subst r. cbn. split; [reflexivity|]. split; [reflexivity|]. right. auto.
  - destruct (Store.gerenciar_banco _ _ _ _ _ _ _) as [r st']. cbn in Hres, Hd, Hh |- *.
    subst r. cbn. split; [reflexivity|]. split; [reflexivity|]. left.
    rewrite (records_Some _ _ Hd), (history_Some _ _ Hh). auto.
Qed.

Lemma exibir_historico_raises (fault : option Store.read_fault) (d : Store.database) :
  (exists e, Store.exibir_historico fault d = Raise e)
  <-> (exists msg, fault = Some (Store.QueryFault msg))
      \/ (fault = None /\ Store.historico d = None).
Proof.
  unfold Store.exibir_historico. split.
  - intros [e He]. destruct fault as [[msg | msg]|]; [discriminate | eauto |].
    destruct (Store.historico d); [discriminate | auto].
  - intros [[msg ->] | [-> ->]]; eauto.
Qed.

(** X30. A run raises exactly when the history query of line 163 fails:
    sqlite3 refuses the SELECT, or the table [historico] does not exist yet
    (no call of [gerenciar_banco] has made it). The run then ends at line
    163 with pandas' [DatabaseError]: the form has been shown, nothing was
    fetched or stored, and neither the search nor the clear button was
    acted upon. Whenever [exibir_historico] returns, also with a refused
    connection, the run gets to the end of the script. *)
Theorem run_raises_only_at_history (submitted : option (Z * Z)) (limpar_clicked : bool)
    (s : app num) :
  (forall e,
     Store.exibir_historico (historico_fault sess) (Store.db (banco s)) = Raise e ->
     (run submitted limpar_clicked s).1 = Raise e
     /\ world (run submitted limpar_clicked s).2 = world s
     /\ banco (run submitted limpar_clicked s).2 = banco s
     /\ cache (run submitted limpar_clicked s).2 = cache s
     /\ page (run submitted limpar_clicked s).2
        = page s ++ [Title "🚦 Painel PNCT - DNIT"; Markdown "### Dados Rodoviários Integrados";
                     Form 2023 101])
  /\ (forall ws,
        Store.exibir_historico (historico_fault sess) (Store.db (banco s)) = Ok ws ->
        (run submitted limpar_clicked s).1 = Ok tt)
  /\ ((exists e, (run submitted limpar_clicked s).1 = Raise e)
      <-> (exists msg, historico_fault sess = Some (Store.QueryFault msg))
          \/ (historico_fault sess = None /\ Store.historico (Store.db (banco s)) = None)).
Proof.
  assert (Hraise : forall e,
            Store.exibir_historico (historico_fault sess) (Store.db (banco s)) = Raise e ->
            (run submitted limpar_clicked s).1 = Raise e
            /\ world (run submitted limpar_clicked s).2 = world s
            /\ banco (run submitted limpar_clicked s).2 = banco s
            /\ cache (run submitted limpar_clicked s).2 = cache s
            /\ page (run submitted limpar_clicked s).2
               = page s ++ [Title "🚦 Painel PNCT - DNIT";
                            Markdown "### Dados Rodoviários Integrados"; Form 2023 101]).
  { intros e He. unfold App.run, pbind, show, historico_na_sidebar. cbn.
    rewrite He. cbn. rewrite <- !app_assoc. auto. }
  assert (Hok : forall ws,
            Store.exibir_historico (historico_fault sess) (Store.db (banco s)) = Ok ws ->
            (run submitted limpar_clicked s).1 = Ok tt).
  { intros ws Hws. unfold App.run, pbind, show, historico_na_sidebar. cbn.
    rewrite Hws. cbn.
    destruct submitted as [[ano br]|]; cbn.
    + match goal with |- context [App.buscar _ _ _ _ _ ano br ?s1] =>
        destruct (buscar_run ano br s1) as (_ & _ & _ & _ & Hr & _);
        destruct (App.buscar _ _ _ _ _ ano br s1) as [r s2] end.
      cbn in Hr. subst r. cbn.
      destruct limpar_clicked; cbn; [|reflexivity].
      match goal with |- context [App.limpar _ _ ?s3] =>
        pose proof (limpar_returns s3) as Hl end.
      exact Hl.
    + destruct limpar_clicked; cbn; [|reflexivity].
      match goal with |- context [App.limpar _ _ ?s3] =>
        pose proof (limpar_returns s3) as Hl end.
      exact Hl. }
  split; [exact Hraise|]. split; [exact Hok|].
  rewrite <- exibir_historico_raises.
  destruct (Store.exibir_historico (historico_fault sess) (Store.db (banco s)))
    as [ws|e] eqn:Hq.
  - rewrite (Hok ws eq_refl). split; intros [e He]; discriminate.
  - destruct (Hraise e eq_refl) as [Hr _]. rewrite Hr. split; eauto.
Qed.

End AppProperties.

(** ** The further properties on sample inputs *)



Lemma baixar_dados_dnit_failure_logged_witness :
  exists earlier,
    Fetcher.log (Fetcher.baixar_dados_dnit Cases.server_500 (PyInt 2023) (PyInt 101)
                   "data/raw" Samples.empty_world).2
    = earlier ++ [(Fetcher.ERROR, "Erro não tratado durante a execução:")].
Proof.
  apply (baixar_dados_dnit_failure_logged Cases.server_500 (PyInt 2023) (PyInt 101)
           "data/raw" Samples.empty_world (HTTPError 500)).
  vm_compute. reflexivity.
Defined.

Lemma inputs_accepted_2023_101 {table : Type} (disk : Fetcher.makedirs_outcome)
    (server : Fetcher.http_outcome) (archive : option (list (string * string))) (t : table) :
  inputs_accepted (Cases.environment disk server archive t) (PyInt 2023) (PyInt 101).
Proof. split; vm_compute; reflexivity. Defined.

Lemma directories_made_ok {table : Type} (server : Fetcher.http_outcome)
    (archive : option (list (string * string))) (t : table) (ano br : pyval) :
  directories_made (Cases.environment Fetcher.MkOk server archive t) "data/raw" ano br.
Proof. split; reflexivity. Defined.

Lemma zip_response_answer_zip : zip_response Cases.answer_zip.
Proof. split; vm_compute; reflexivity. Defined.

Lemma baixar_dados_dnit_makedirs_failure_witness :
  (Fetcher.baixar_dados_dnit Cases.read_only_disk (PyInt 2023) (PyInt 101) "data/raw"
     Samples.empty_world).1
  = Raise (RuntimeError "Erro de permissão: verifique acesso às pastas.")
  /\ Fetcher.net_calls
       (Fetcher.baixar_dados_dnit Cases.read_only_disk (PyInt 2023) (PyInt 101) "data/raw"
          Samples.empty_world).2 = []
  /\ Fetcher.fs_files
       (Fetcher.baixar_dados_dnit Cases.read_only_disk (PyInt 2023) (PyInt 101) "data/raw"
          Samples.empty_world).2 = ∅.
Proof.
  apply (baixar_dados_dnit_makedirs_failure Cases.read_only_disk (PyInt 2023) (PyInt 101)
           "data/raw" Samples.empty_world
           (Fetcher.MkPermissionDenied "[Errno 13] Permission denied: 'data'")).
  - apply inputs_accepted_2023_101.
  - discriminate.
  - left. reflexivity.
Defined.

Lemma baixar_dados_dnit_http_error_witness :
  (Fetcher.baixar_dados_dnit Cases.server_500 (PyInt 2023) (PyInt 101) "data/raw"
     Samples.empty_world).1 = Raise (HTTPError 500)
  /\ Fetcher.fs_files
       (Fetcher.baixar_dados_dnit Cases.server_500 (PyInt 2023) (PyInt 101) "data/raw"
          Samples.empty_world).2 = ∅.
Proof.
  apply (baixar_dados_dnit_http_error Cases.server_500 (PyInt 2023) (PyInt 101)
           "data/raw" Samples.empty_world Cases.answer_500).
  - apply inputs_accepted_2023_101.
  - apply directories_made_ok.
  - reflexivity.
  - cbn. lia.
  - cbn. lia.
Defined.

Lemma baixar_dados_dnit_corrupt_archive_witness :
  (Fetcher.baixar_dados_dnit Cases.server_garbage (PyInt 2023) (PyInt 101) "data/raw"
     Samples.empty_world).1 = Raise (RuntimeError "Arquivo baixado está corrompido.")
  /\ Fetcher.fs_files
       (Fetcher.baixar_dados_dnit Cases.server_garbage (PyInt 2023) (PyInt 101) "data/raw"
          Samples.empty_world).2
     = <[caminho_zip_completo "data/raw" (PyInt 2023) (PyInt 101) := "PK-pnct"]> ∅.
Proof.
  apply (baixar_dados_dnit_corrupt_archive Cases.server_garbage (PyInt 2023) (PyInt 101)
           "data/raw" Samples.empty_world Cases.answer_zip).
  - apply inputs_accepted_2023_101.
  - apply directories_made_ok.
  - reflexivity.
  - exact zip_response_answer_zip.
  - reflexivity.
  - left. reflexivity.
Defined.

Lemma baixar_dados_dnit_no_csv_witness :
  (Fetcher.baixar_dados_dnit Cases.server_zip_without_csv (PyInt 2023) (PyInt 101)
     "data/raw" Samples.empty_world).1
  = Raise (RuntimeError "Formato inesperado do arquivo ZIP.")
  /\ Fetcher.fs_files
       (Fetcher.baixar_dados_dnit Cases.server_zip_without_csv (PyInt 2023) (PyInt 101)
          "data/raw" Samples.empty_world).2
     = <[caminho_zip_completo "data/raw" (PyInt 2023) (PyInt 101) := "PK-pnct"]> ∅.
Proof.
  apply (baixar_dados_dnit_no_csv Cases.server_zip_without_csv (PyInt 2023) (PyInt 101)
           "data/raw" Samples.empty_world Cases.answer_zip [("leia-me.txt", "PNCT")]).
  - apply inputs_accepted_2023_101.
  - apply directories_made_ok.
  - reflexivity.
  - exact zip_response_answer_zip.
  - reflexivity.
  - reflexivity.
  - discriminate.
  - vm_compute. reflexivity.
Defined.


Lemma baixar_dados_dnit_valid_input_reaches_server_witness :
  inputs_accepted Cases.server_zip (PyInt 2023) (PyInt 101)
  /\ (directories_made Cases.server_zip "data/raw" (PyInt 2023) (PyInt 101) ->
      Fetcher.net_calls
        (Fetcher.baixar_dados_dnit Cases.server_zip (PyInt 2023) (PyInt 101) "data/raw"
           Samples.empty_world).2
      = Fetcher.net_calls Samples.empty_world
        ++ ["https://servicos.dnit.gov.br/dadospnct/arquivos/pnct_" +:+ str_of_Z 2023
            +:+ "_" +:+ str_of_Z 101 +:+ ".zip"]).
Proof.
  apply (baixar_dados_dnit_valid_input_reaches_server Cases.server_zip 2023 101 "data/raw"
           Samples.empty_world); cbn; lia.
Defined.

Lemma main_wrong_input_witness :
  input_error_reported
    (Cli.main Cases.server_zip Cases.typed_int Cases.quoted Cases.head_text "1999" "101"
       Samples.empty_world).2
  /\ Fetcher.net_calls
       (Cli.main Cases.server_zip Cases.typed_int Cases.quoted Cases.head_text "1999" "101"
          Samples.empty_world).1 = []
  /\ Fetcher.fs_dirs
       (Cli.main Cases.server_zip Cases.typed_int Cases.quoted Cases.head_text "1999" "101"
          Samples.empty_world).1 = ∅
  /\ Fetcher.fs_files
       (Cli.main Cases.server_zip Cases.typed_int Cases.quoted Cases.head_text "1999" "101"
          Samples.empty_world).1 = ∅.
Proof.
  apply (main_wrong_input Cases.server_zip Cases.typed_int Cases.quoted Cases.head_text
           "1999" "101" Samples.empty_world).
  left. reflexivity.
Defined.

Lemma main_not_a_zip_reported_as_input_witness :
  (Cli.main Cases.server_html Cases.typed_int Cases.quoted Cases.head_text "2023" "101"
     Samples.empty_world).2
  = [Cli.Printed "=== Coletor de Dados DNIT ===";
     Cli.Asked "Digite o ano (ex: 2023): ";
     Cli.Asked "Digite o número da BR (ex: 101): ";
     Cli.Printed "
❌ Erro de entrada: O conteúdo baixado não é um arquivo ZIP válido.";
     Cli.Printed "
Operação finalizada."]
  /\ Fetcher.net_calls
       (Cli.main Cases.server_html Cases.typed_int Cases.quoted Cases.head_text "2023" "101"
          Samples.empty_world).1
     = ["https://servicos.dnit.gov.br/dadospnct/arquivos/pnct_2023_101.zip"].
Proof.
  destruct (main_not_a_zip_reported_as_input Cases.server_html Cases.typed_int Cases.quoted
              Cases.head_text "2023" "101" 2023 101 Samples.empty_world Cases.answer_html)
    as (Hout & Hnet & _).
  - reflexivity.
  - reflexivity.
  - apply inputs_accepted_2023_101.
  - apply directories_made_ok.
  - reflexivity.
  - reflexivity.
  - vm_compute. reflexivity.
  - split; [exact Hout | exact Hnet].
Defined.

Lemma gerenciar_banco_upsert_lookup_witness :
  exists json,
    Samples.json_table "[1]" = Ok json
    /\ records_under 2023 101
         (Store.db (Store.gerenciar_banco Samples.json_table
                      (Samples.sqlite_at "2023-05-01 10:00:00") (Some "[1]") (Some 2023)
                      (Some 101) false Samples.fresh_store).2)
       = [written_record (Samples.sqlite_at "2023-05-01 10:00:00")
            (Store.db Samples.fresh_store) 2023 101 json].
Proof.
  destruct (gerenciar_banco_upsert_lookup Samples.json_table
              (Samples.sqlite_at "2023-05-01 10:00:00") "[1]" 2023 101 Samples.fresh_store)
    as (json & Hj & Hunder & _).
  - reflexivity.
  - exists json. split; [exact Hj | exact Hunder].
Defined.

Lemma gerenciar_banco_null_key_witness :
  (Store.gerenciar_banco Samples.json_table (Samples.sqlite_at "2023-05-01 10:00:00")
     (Some "[1]") None (Some 101) false Samples.fresh_store).1
  = Raise (RuntimeError "Erro no banco de dados")
  /\ Store.records
       (Store.db (Store.gerenciar_banco Samples.json_table
                    (Samples.sqlite_at "2023-05-01 10:00:00") (Some "[1]") None (Some 101)
                    false Samples.fresh_store).2)
     = Store.records (Store.db Samples.fresh_store).
Proof.
  destruct (gerenciar_banco_null_key Samples.json_table
              (Samples.sqlite_at "2023-05-01 10:00:00") "[1]" "[1]" None (Some 101)
              Samples.fresh_store) as (Hres & Hrec & _).
  - reflexivity.
  - left. reflexivity.
  - split; [exact Hres | exact Hrec].
Defined.

Lemma exibir_historico_needs_table_witness :
  Store.exibir_historico None (Store.db Samples.fresh_store)
  = Raise (Store.read_sql_error "no such table: historico")
  /\ exists shown,
       Store.exibir_historico (Some (Store.ConnectFault "unable to open database file"))
         (Store.db (Store.gerenciar_banco Samples.json_table
                      (Samples.sqlite_commit_fails "2023-05-01 10:00:00") (Some "[1]")
                      (Some 2023) (Some 101) false Samples.fresh_store).2)
       = Ok shown.
Proof.
  destruct (exibir_historico_needs_table Samples.json_table) as (Hnone & _ & Hlater).
  split.
  - apply Hnone. reflexivity.
  - apply Hlater; reflexivity || discriminate.
Defined.

Lemma ids_in_sequence_fresh : ids_in_sequence (Store.db Samples.fresh_store).
Proof. unfold ids_in_sequence. cbn. repeat split; constructor. Defined.

Lemma gerenciar_banco_ids_in_sequence_witness :
  ids_in_sequence
    (Store.db (Store.gerenciar_banco Samples.json_table
                 (Samples.sqlite_at "2023-05-01 10:00:00") (Some "[1]") (Some 2023)
                 (Some 101) false Samples.fresh_store).2).
Proof.
  apply (gerenciar_banco_ids_in_sequence Samples.json_table
           (Samples.sqlite_at "2023-05-01 10:00:00") (Some "[1]") (Some 2023) (Some 101)
           false Samples.fresh_store).
  exact ids_in_sequence_fresh.
Defined.

Lemma carregar_dados_keeps_shape_witness :
  exists out,
    (App.carregar_dados_cached Samples.parse_digits (Cases.session Cases.server_zip)
       Samples.trechos Cases.first_run).1 = Ok out
    /\ Processor.columns out = ["uf"; "latitude"; "longitude"]
    /\ map Processor.label (Processor.rows out) `sublist_of` [0; 1; 2].
Proof.
  destruct (carregar_dados_keeps_shape Samples.parse_digits (Cases.session Cases.server_zip)
              Samples.trechos Cases.first_run) as (out & Hout & Hcols & Hrows & _).
  - left. reflexivity.
  - exists out. split; [exact Hout|]. split; [exact Hcols | exact Hrows].
Defined.

Lemma carregar_dados_coerces_argument_in_place_witness :
  Processor.rows
    (App.df_after_carregar_dados Samples.parse_digits (Cases.session Cases.server_zip)
       Samples.trechos Cases.first_run)
  = map (Processor.coerced Samples.parse_digits) (Processor.rows Samples.trechos)
  /\ App.df_after_carregar_dados Samples.parse_digits (Cases.session Cases.server_zip)
       Samples.so_latitude Cases.first_run
     = Samples.so_latitude
  /\ App.df_after_carregar_dados Samples.parse_digits (Cases.session Cases.server_zip)
       Samples.trechos Cases.later_run
     = Samples.trechos.
Proof.
  split; [|split].
  - destruct (carregar_dados_coerces_argument_in_place Samples.parse_digits
                (Cases.session Cases.server_zip) Samples.trechos Cases.first_run)
      as (_ & _ & Hboth & _).
    apply Hboth; [left|]; reflexivity.
  - destruct (carregar_dados_coerces_argument_in_place Samples.parse_digits
                (Cases.session Cases.server_zip) Samples.so_latitude Cases.first_run)
      as (_ & _ & _ & Hone & _).
    apply Hone; [left|]; reflexivity.
  - destruct (carregar_dados_coerces_argument_in_place Samples.parse_digits
                (Cases.session Cases.server_zip) Samples.trechos Cases.later_run)
      as (_ & _ & _ & _ & Hhit).
    apply (Hhit Samples.so_latitude); reflexivity.
Defined.

Lemma carregar_dados_output_has_a_coordinate_witness :
  exists out,
    (App.carregar_dados_cached Samples.parse_digits (Cases.session Cases.server_zip)
       Samples.trechos Cases.first_run).1 = Ok out
    /\ forall r, r ∈ Processor.rows out ->
         is_number (Processor.values r !! "latitude")
         \/ is_number (Processor.values r !! "longitude").
Proof.
  destruct (carregar_dados_output_has_a_coordinate Samples.parse_digits
              (Cases.session Cases.server_zip) Samples.trechos Cases.first_run)
    as (out & Hout & Hrows).
  - left. reflexivity.
  - reflexivity.
  - reflexivity.
  - exists out. split; [exact Hout|]. intros r Hr. apply (Hrows r Hr).
Defined.

Lemma criar_mapa_markers_witness :
  Forall2 (fun r mk =>
             Processor.values r !! "latitude" = Some (fst (Presenter.location mk))
             /\ Processor.values r !! "longitude" = Some (snd (Presenter.location mk)))
          (filter (fun r => has_both_coordinates r = true) (Processor.rows Cases.trechos_br))
          [ {| Presenter.location := (Processor.Str "27", Processor.Str "48");
               Presenter.popup := "BR-101 | SC" |} ].
Proof.
  apply (criar_mapa_markers Cases.format_cell Cases.marker_check Cases.trechos_br
           {| Presenter.center := ("-15.788497", "-47.879873"); Presenter.zoom_start := 4;
              Presenter.markers :=
                [ {| Presenter.location := (Processor.Str "27", Processor.Str "48");
                     Presenter.popup := "BR-101 | SC" |} ] |}).
  vm_compute. reflexivity.
Defined.

Lemma criar_mapa_popup_columns_witness :
  Presenter.criar_mapa Cases.format_cell Cases.marker_check Samples.trechos
  = (None, [(Fetcher.WARNING, "Dados geográficos ausentes")]).
Proof.
  apply (criar_mapa_popup_columns Cases.format_cell Cases.marker_check Samples.trechos).
  - exact trechos_rectangular.
  - reflexivity.
  - reflexivity.
  - reflexivity.
  - reflexivity.
  - apply Exists_cons_hd. reflexivity.
Defined.

Lemma trechos_br_rectangular : rectangular Cases.trechos_br.
Proof. unfold rectangular. repeat constructor. Defined.

Lemma criar_mapa_after_carregar_dados_witness :
  exists out m,
    (App.carregar_dados_cached Samples.parse_digits (Cases.session Cases.server_zip)
       Cases.trechos_br Cases.first_run).1 = Ok out
    /\ Presenter.criar_mapa Cases.format_cell Cases.marker_check out = (Some m, [])
    /\ length (Processor.rows out) = 2%nat.
Proof.
  destruct (criar_mapa_after_carregar_dados Samples.parse_digits Cases.format_cell
              Cases.marker_check (Cases.session Cases.server_zip) Cases.trechos_br _
              Cases.first_run (or_introl eq_refl) trechos_br_rectangular
              eq_refl eq_refl eq_refl eq_refl (fun _ _ => eq_refl) eq_refl)
    as (m & Hm & _).
  - vm_compute. discriminate.
  - eexists _, m. split; [reflexivity|]. split; [exact Hm|]. vm_compute. reflexivity.
Defined.

Lemma buscar_fetch_failure_witness :
  App.banco (App.buscar Samples.parse_digits Cases.to_json Cases.format_cell
               Cases.marker_check (Cases.session Cases.server_500) 2023 101
               Cases.first_run).2 = Samples.fresh_store
  /\ App.page (App.buscar Samples.parse_digits Cases.to_json Cases.format_cell
                 Cases.marker_check (Cases.session Cases.server_500) 2023 101
                 Cases.first_run).2
     = [App.Error "❌ Erro inesperado. Consulte os logs técnicos."].
Proof.
  destruct (buscar_fetch_failure Samples.parse_digits Cases.to_json Cases.format_cell
              Cases.marker_check (Cases.session Cases.server_500) 2023 101 Cases.first_run
              (HTTPError 500)) as (Hbanco & _ & _ & Hpage).
  - vm_compute. reflexivity.
  - split; [exact Hbanco | exact Hpage].
Defined.

Lemma buscar_reuses_cached_table_witness :
  App.banco (App.buscar Samples.parse_digits Cases.to_json Cases.format_cell
               Cases.marker_check (Cases.session Cases.server_zip) 2023 101
               Cases.later_run).2
  = (Store.gerenciar_banco Cases.to_json (Samples.sqlite_at "2023-05-01 10:00:00")
       (Some Samples.so_latitude) (Some 2023) (Some 101) false Samples.fresh_store).2
  /\ App.cache (App.buscar Samples.parse_digits Cases.to_json Cases.format_cell
                  Cases.marker_check (Cases.session Cases.server_zip) 2023 101
                  Cases.later_run).2
     = Some Samples.so_latitude.
Proof.
  destruct (buscar_reuses_cached_table Samples.parse_digits Cases.to_json Cases.format_cell
              Cases.marker_check (Cases.session Cases.server_zip) 2023 101 Cases.later_run
              Samples.trechos Samples.so_latitude) as (Hbanco & Hcache & _).
  - vm_compute. reflexivity.
  - reflexivity.
  - reflexivity.
  - split; [exact Hbanco | exact Hcache].
Defined.

Lemma buscar_processes_download_witness :
  exists out,
    Processor.value (Processor.carregar_dados Samples.parse_digits Samples.trechos) = Ok out
    /\ App.cache (App.buscar Samples.parse_digits Cases.to_json Cases.format_cell
                    Cases.marker_check (Cases.session Cases.server_zip) 2023 101
                    Cases.first_run).2 = Some out.
Proof.
  destruct (buscar_processes_download Samples.parse_digits Cases.to_json Cases.format_cell
              Cases.marker_check (Cases.session Cases.server_zip) 2023 101 Cases.first_run
              Samples.trechos) as (out & Hout & Hcache & _).
  - vm_compute. reflexivity.
  - left. reflexivity.
  - exists out. split; [exact Hout | exact Hcache].
Defined.

Lemma run_raises_only_at_history_witness :
  (App.run Samples.parse_digits Cases.to_json Cases.format_cell Cases.marker_check
     (Cases.session Cases.server_zip) (Some (2023, 101)) false Cases.first_run).1
  = Raise (Store.read_sql_error "no such table: historico")
  /\ App.banco (App.run Samples.parse_digits Cases.to_json Cases.format_cell
                  Cases.marker_check (Cases.session Cases.server_zip) (Some (2023, 101))
                  false Cases.first_run).2 = Samples.fresh_store.
Proof.
  destruct (run_raises_only_at_history Samples.parse_digits Cases.to_json
              Cases.format_cell Cases.marker_check (Cases.session Cases.server_zip)
              (Some (2023, 101)) false Cases.first_run) as [Hraise _].
  destruct (Hraise (Store.read_sql_error "no such table: historico") eq_refl)
    as (Hres & _ & Hbanco & _).
  split; [exact Hres | exact Hbanco].
Defined.

(** ** Where the cache departs from the processing *)

(** C3. Two searches within the hour. The first brings a table without a
    longitude column, which [carregar_dados] returns as it is and the cache
    keeps. The second brings [Samples.trechos], whose row of label 2 has a
    latitude that is a number and a longitude that does not read as one:
    a row with exactly one of the two unparseable. The call of
    [carregar_dados] in the second search returns the table of the first,
    and the row is not in it. *)
Lemma carregar_dados_cached_loses_row :
  Samples.trecho_rs ∈ Processor.rows Samples.trechos
  /\ Processor.parseable Samples.parse_digits "latitude" Samples.trecho_rs
  /\ Processor.unparseable Samples.parse_digits "longitude" Samples.trecho_rs
  /\ (App.carregar_dados_cached Samples.parse_digits (Cases.session Cases.server_zip)
        Samples.trechos
        (App.carregar_dados_cached Samples.parse_digits (Cases.session Cases.server_zip)
           Samples.so_latitude Cases.first_run).2).1
     = Ok Samples.so_latitude
  /\ (Processor.label Samples.trecho_rs
      ∉ map Processor.label (Processor.rows Samples.so_latitude))
  /\ Processor.columns Samples.so_latitude <> Processor.columns Samples.trechos.
Proof.
  split; [|split; [|split; [|split; [|split]]]].
  - unfold Samples.trechos. cbn.
    apply list_elem_of_further, list_elem_of_further, list_elem_of_here.
  - vm_compute. exact I.
  - vm_compute. reflexivity.
  - vm_compute. reflexivity.
  - cbn. intros H. apply list_elem_of_singleton in H. discriminate H.
  - cbn. discriminate.
Qed.

(** C10. Two searches within the hour, the other way round. The first
    brings [Samples.trechos], which [carregar_dados] processes and the
    cache keeps. The second brings a table with a latitude column and no
    longitude column: the call of [carregar_dados] returns the processed
    table of the first search, with other columns and other rows than the
    table it was given. *)
Lemma carregar_dados_cached_single_column :
  Processor.has_column "latitude" Samples.so_latitude = true
  /\ Processor.has_column "longitude" Samples.so_latitude = false
  /\ exists out,
       Processor.value (Processor.carregar_dados Samples.parse_digits Samples.trechos)
       = Ok out
       /\ (App.carregar_dados_cached Samples.parse_digits (Cases.session Cases.server_zip)
             Samples.so_latitude
             (App.carregar_dados_cached Samples.parse_digits
                (Cases.session Cases.server_zip) Samples.trechos Cases.first_run).2).1
          = Ok out
       /\ Processor.columns out = ["uf"; "latitude"; "longitude"]
       /\ Processor.columns Samples.so_latitude = ["uf"; "latitude"]
       /\ map Processor.label (Processor.rows out) = [0; 2]
       /\ map Processor.label (Processor.rows Samples.so_latitude) = [0].
Proof.
  split; [reflexivity|]. split; [reflexivity|].
  eexists. split; [vm_compute; reflexivity|].
  split; [vm_compute; reflexivity|].
  repeat split.
Qed.
